(** * Room utilization report: a shallow embedding of [room_util.py]

    The script fetches the calendar events of a list of rooms over a date
    range, counts the non-declined attendees, computes one utilization
    percentage per room, formats a report and posts it as an Asana task.

    The embedding follows the Python source function by function.  Effects
    (files, standard input and output, the clock, the Asana workspace) live
    in an explicit [world]; exceptions are values of type [exn]; Python
    floats are IEEE-754 binary64 numbers ([spec_float] at precision 53). *)

From Stdlib Require Import ZArith QArith Qpower Lqa List String Ascii Bool Lia.
From Stdlib Require Import DecimalString.
From Stdlib Require Import Floats.SpecFloat.
From stdpp Require Import gmap strings.

Open Scope Z_scope.

(** ** Exceptions *)

Inductive exn : Type :=
| IOError (path : string)
| KeyError (key : string)
| ValueError (msg : string)
| ZeroDivisionError
| OverflowError
| EOFError
| HTTPError (status : Z)
| OAuth2Error
| TokenExpiredError
| TokenUpdated
| AsanaError
| SystemExit (code : Z).

(** A pure computation that may raise. *)
Definition result (A : Type) : Type := exn + A.

Definition rbind {A B : Type} (r : result A) (k : A -> result B) : result B :=
  match r with
  | inl e => inl e
  | inr a => k a
  end.

(** ** Data model *)

(** JSON scalars found in an attendee entry of the calendar API. *)
Inductive jscalar : Type :=
| JStr (s : string)
| JNum (z : Z)
| JBool (b : bool)
| JNull.

Definition jscalar_eqb (a b : jscalar) : bool :=
  match a, b with
  | JStr s, JStr t => String.eqb s t
  | JNum x, JNum y => Z.eqb x y
  | JBool x, JBool y => Bool.eqb x y
  | JNull, JNull => true
  | _, _ => false
  end.

(** An attendee is a JSON object, that is a Python dict with string keys. *)
Abbreviation attendee := (gmap string jscalar).

(** An event: the only key the script reads is ['attendees'], which may be
    absent. *)
Record event : Type := Event { attendees : option (list attendee) }.

Record room : Type := Room {
  name : string;
  url : string;
  room_seats : Z
}.

(** ** Counting attendees (lines 117-123 of the source) *)

(** [attendee['responseStatus'] != 'declined'] *)
Definition not_declined (a : attendee) : result bool :=
  match a !! "responseStatus"%string with
  | None => inl (KeyError "responseStatus")
  | Some v => inr (negb (jscalar_eqb v (JStr "declined")))
  end.

(** The length of the list comprehension of lines 121-123, which keeps the
    entries with [attendee['responseStatus'] != 'declined']: it visits the
    entries in order and stops at the first lookup that raises. *)
Fixpoint count_not_declined (l : list attendee) : result Z :=
  match l with
  | [] => inr 0
  | a :: rest =>
      rbind (not_declined a) (fun keep =>
      rbind (count_not_declined rest) (fun n =>
      inr (if keep then 1 + n else n)))
  end.

(** What one event adds to [number_of_attendees]. *)
Definition event_contribution (ev : event) : result Z :=
  match attendees ev with
  | None => inr 1
  | Some l => count_not_declined l
  end.

(** The [for event in events] loop, threading [number_of_attendees]. *)
Fixpoint count_attendees (events : list event) (number_of_attendees : Z)
  : result Z :=
  match events with
  | [] => inr number_of_attendees
  | ev :: rest =>
      rbind (event_contribution ev) (fun n =>
      count_attendees rest (number_of_attendees + n))
  end.

(** ** Python floats

    A Python [float] is an IEEE-754 binary64 number: precision 53, largest
    exponent 1024, every operation rounded to nearest, ties to even. *)

Definition prec : Z := 53.
Definition emax : Z := 1024.

(** [float(z)] for a Python integer: the nearest double, [OverflowError]
    when [z] is too large to convert. *)
Definition float_of_int (z : Z) : result spec_float :=
  match binary_normalize prec emax z 0 false with
  | S754_infinity _ => inl OverflowError
  | f => inr f
  end.

Definition float_is_zero (f : spec_float) : bool :=
  match f with
  | S754_zero _ => true
  | _ => false
  end.

(** [a / b] on two floats under [from __future__ import division]. *)
Definition float_truediv (a b : spec_float) : result spec_float :=
  if float_is_zero b then inl ZeroDivisionError
  else inr (SFdiv prec emax a b).

(** [n / b] for an integer [n] and a float [b]: the integer is converted
    first, then the divisor is tested. *)
Definition int_truediv_float (n : Z) (b : spec_float) : result spec_float :=
  rbind (float_of_int n) (fun a => float_truediv a b).

(** [a * n] for a float [a] and an integer [n]. *)
Definition float_mul_int (a : spec_float) (n : Z) : result spec_float :=
  rbind (float_of_int n) (fun b => inr (SFmul prec emax a b)).

(** Lines 125-127: [max_capacity] and [util]. *)
Definition utilization (number_of_attendees number_of_meetings room_seats : Z)
  : result spec_float :=
  rbind (float_of_int (number_of_meetings * room_seats)) (fun max_capacity =>
  rbind (int_truediv_float number_of_attendees max_capacity) (fun q =>
  float_mul_int q 100)).

(** *** Formatting with ['{:0.2f}'] *)

(** The exact rational magnitude [m * 2^e] of a finite float. *)
Definition magnitude (m : positive) (e : Z) : Q :=
  (inject_Z (Z.pos m) * Qpower 2 e)%Q.

(** The exact rational value of a float (0 for the non-finite ones). *)
Definition SF2Q (f : spec_float) : Q :=
  match f with
  | S754_finite s m e => if s then (- magnitude m e)%Q else magnitude m e
  | _ => 0%Q
  end.

(** The integer nearest to a rational, ties to the even integer. *)
Definition round_half_even (q : Q) : Z :=
  let n := Qnum q in
  let d := Z.pos (Qden q) in
  let fl := n / d in
  match 2 * (n mod d) ?= d with
  | Lt => fl
  | Gt => fl + 1
  | Eq => if Z.even fl then fl else fl + 1
  end.

Definition string_of_Z (z : Z) : string :=
  NilZero.string_of_uint (N.to_uint (Z.to_N z)).

(** Two decimal digits, zero padded. *)
Definition pad2 (z : Z) : string :=
  if z <? 10 then ("0" +:+ string_of_Z z)%string else string_of_Z z.

(** A number of hundredths printed with two decimals. *)
Definition format_hundredths (negative : bool) (n : Z) : string :=
  ((if negative then "-" else "") +:+ string_of_Z (n / 100) +:+ "."
     +:+ pad2 (n mod 100))%string.

(** ['{:0.2f}'.format(f)]: the decimal with two fractional digits nearest
    to the exact value of [f]. *)
Definition format_2f (f : spec_float) : string :=
  match f with
  | S754_nan => "nan"%string
  | S754_infinity s => if s then "-inf"%string else "inf"%string
  | S754_zero s => format_hundredths s 0
  | S754_finite s m e =>
      format_hundredths s (round_half_even (magnitude m e * 100))
  end.


(** ** Dates

    A [datetime] is kept as the proleptic Gregorian day number (day 1 is
    0001-01-01, as [datetime.toordinal]), the microsecond within the day
    and the optional time zone. *)

Inductive tz : Type :=
| UTC
| OtherTz (offset_minutes : Z).

Record datetime : Type := Datetime {
  ordinal : Z;
  microsecond_of_day : Z;
  tzinfo : option tz
}.

Definition days_before_year (year : Z) : Z :=
  let y := year - 1 in
  y * 365 + y / 4 - y / 100 + y / 400.

Definition is_leap (year : Z) : bool :=
  (year mod 4 =? 0) && (negb (year mod 100 =? 0) || (year mod 400 =? 0)).

Definition days_in_month (leap : bool) (month : Z) : Z :=
  match month with
  | 2 => if leap then 29 else 28
  | 4 | 6 | 9 | 11 => 30
  | _ => 31
  end.

Definition days_before_month (leap : bool) (month : Z) : Z :=
  nth (Z.to_nat month)
      [0; 0; 31; 59; 90; 120; 151; 181; 212; 243; 273; 304; 334] 0
  + (if (2 <? month) && leap then 1 else 0).

(** [date(year, month, day).toordinal()] *)
Definition ymd2ord (year month day : Z) : Z :=
  days_before_year year + days_before_month (is_leap year) month + day.

(** The inverse, as the standard library computes it: 400-year, 100-year,
    4-year and 1-year cycles, then an estimate of the month corrected
    downwards when it overshoots. *)
Definition ord2ymd (ord : Z) : Z * Z * Z :=
  let n := ord - 1 in
  let n400 := n / 146097 in
  let n := n mod 146097 in
  let n100 := n / 36524 in
  let n := n mod 36524 in
  let n4 := n / 1461 in
  let n := n mod 1461 in
  let n1 := n / 365 in
  let n := n mod 365 in
  let year := n400 * 400 + 1 + n100 * 100 + n4 * 4 + n1 in
  if (n1 =? 4) || (n100 =? 4) then (year - 1, 12, 31)
  else
    let leapyear := (n1 =? 3) && (negb (n4 =? 24) || (n100 =? 3)) in
    let month := Z.shiftr (n + 50) 5 in
    let preceding := days_before_month leapyear month in
    if n <? preceding
    then (year, month - 1,
          n - (preceding - days_in_month leapyear (month - 1)) + 1)
    else (year, month, n - preceding + 1).

(** [datetime(year, month, day)], naive, at midnight. *)
Definition datetime_of_date (year month day : Z) : datetime :=
  Datetime (ymd2ord year month day) 0 None.

(** [pytz.utc.localize(dt)]: only a naive value can be localized. *)
Definition utc_localize (dt : datetime) : result datetime :=
  match tzinfo dt with
  | Some _ => inl (ValueError "Not naive datetime (tzinfo is already set)")
  | None => inr (Datetime (ordinal dt) (microsecond_of_day dt) (Some UTC))
  end.

(** [dt - timedelta(days=n)]; the result must stay at or after year 1. *)
Definition minus_days (dt : datetime) (n : Z) : result datetime :=
  if ordinal dt - n <? 1 then inl OverflowError
  else inr (Datetime (ordinal dt - n) (microsecond_of_day dt) (tzinfo dt)).

(** [dt.strftime('%m/%d/%Y')].  The interpreter the script targets refuses
    years before 1900. *)
Definition strftime_mdY (dt : datetime) : result string :=
  let '(y, m, d) := ord2ymd (ordinal dt) in
  if y <? 1900 then inl (ValueError "year is before 1900")
  else inr (pad2 m +:+ "/" +:+ pad2 d +:+ "/" +:+ string_of_Z y)%string.

(** ** The world the script runs in *)

Record oauth_token : Type := OAuthToken {
  access_token : string;
  refresh_token : string;
  expires_at : Z
}.

(** The ['installed'] object of [client_secret.json]. *)
Record client_secret : Type := ClientSecret {
  client_id : string;
  client_secret_value : string;
  auth_uri : string;
  token_uri : string
}.

Record asana_config : Type := AsanaConfig {
  personal_access_token : string;
  workspace_id : string;
  project_id : string
}.

(** What [json.load] finds in a file. *)
Inductive file_data : Type :=
| ClientSecretJson (installed : client_secret)
| TokenJson (token : oauth_token)
| RoomsJson (rooms : list room)
| AsanaConfigJson (config : asana_config)
| NotJson.

(** The dict passed to [tasks.create]. *)
Record task_params : Type := TaskParams {
  workspace : string;
  projects : list string;
  task_name : string;
  notes : string
}.

Record world : Type := World {
  fs : gmap string file_data;
  stdin : list string;
  stdout : list string;
  clock : Z;                      (* microseconds since 1970-01-01 UTC *)
  asana_tasks : list task_params  (* tasks created so far *)
}.

(** ** Effectful computations: state passing with exceptions *)

Definition py (A : Type) : Type := world -> result A * world.

Definition ret {A : Type} (a : A) : py A := fun w => (inr a, w).

Definition raise {A : Type} (e : exn) : py A := fun w => (inl e, w).

Definition bind {A B : Type} (m : py A) (k : A -> py B) : py B :=
  fun w =>
    match m w with
    | (inl e, w') => (inl e, w')
    | (inr a, w') => k a w'
    end.

Definition lift {A : Type} (r : result A) : py A := fun w => (r, w).

Declare Scope py_scope.
Delimit Scope py_scope with py.
Notation "x <- m ;; k" := (bind m (fun x => k))
  (at level 100, m at next level, right associativity) : py_scope.
Notation "m ;; k" := (bind m (fun _ => k))
  (at level 100, right associativity) : py_scope.
Open Scope py_scope.

(** [print(line)] *)
Definition print (line : string) : py unit :=
  fun w => (inr tt,
            World (fs w) (stdin w) (stdout w ++ [line]) (clock w)
                  (asana_tasks w)).

(** [raw_input(prompt)]: writes the prompt, reads one line. *)
Definition raw_input (prompt : string) : py string :=
  fun w =>
    let out := stdout w ++ [prompt] in
    match stdin w with
    | [] => (inl EOFError, World (fs w) [] out (clock w) (asana_tasks w))
    | line :: rest =>
        (inr line, World (fs w) rest out (clock w) (asana_tasks w))
    end.

(** [os.path.exists(path)] *)
Definition path_exists (path : string) : py bool :=
  fun w => (inr (bool_decide (is_Some (fs w !! path))), w).

(** [json.load(open(path))] *)
Definition json_load (path : string) : py file_data :=
  fun w =>
    match fs w !! path with
    | None => (inl (IOError path), w)
    | Some NotJson => (inl (ValueError "No JSON object could be decoded"), w)
    | Some d => (inr d, w)
    end.

(** [json.dump(d, open(path, 'w'))] *)
Definition json_dump (path : string) (d : file_data) : py unit :=
  fun w => (inr tt,
            World (<[path := d]> (fs w)) (stdin w) (stdout w) (clock w)
                  (asana_tasks w)).

(** [datetime.utcnow()] *)
Definition utcnow : py datetime :=
  fun w => (inr (Datetime (719163 + clock w / 86400000000)
                          (clock w mod 86400000000) None), w).

(** ** HTTP and OAuth2 sessions *)

(** The query string of the events request. *)
Record query : Type := Query {
  timeMin : string;
  timeMax : string;
  singleEvents : bool;
  orderBy : string
}.

(** The JSON body of an events response: ['items'] may be absent. *)
Record events_body : Type := EventsBody { items : option (list event) }.

Record http_response : Type := HttpResponse {
  status_code : Z;
  json_body : option events_body   (* [None]: the body is not JSON *)
}.

(** [response.raise_for_status()] *)
Definition raise_for_status (r : http_response) : py unit :=
  if (400 <=? status_code r) && (status_code r <? 600)
  then raise (HTTPError (status_code r))
  else ret tt.

(** [response.json()] *)
Definition response_json (r : http_response) : py events_body :=
  match json_body r with
  | None => raise (ValueError "No JSON object could be decoded")
  | Some b => ret b
  end.

(** The state of an [OAuth2Session] object.  Its token is the document it
    was given, uninspected: a token from the token endpoint, or whatever
    JSON the token file held. *)
Record session : Type := Session {
  session_client_id : string;
  session_token : option file_data;
  redirect_uri : option string;
  scope : option (list string);
  auto_refresh_url : option string;
  auto_refresh_kwargs : string * string;   (* client_id, client_secret *)
  token_updater : option (oauth_token -> py unit)
}.

Definition with_token (s : session) (t : oauth_token) : session :=
  Session (session_client_id s) (Some (TokenJson t)) (redirect_uri s) (scope s)
          (auto_refresh_url s) (auto_refresh_kwargs s) (token_updater s).

Definition CLIENT_SECRET_FILE : string := "client_secret.json".
Definition TOKEN_FILE : string := "google_oauth_token.json".

(** Lines 78-80. *)
Definition save_token_as_json (token : oauth_token) : py unit :=
  json_dump TOKEN_FILE (TokenJson token).

Definition nl : string := String (ascii_of_nat 10) EmptyString.

(** The report text of lines 132-143, with its three holes. *)
Definition report_text (start_str end_str room_lines : string) : string :=
  ("The room data below is pulled from calendar events between " +:+ start_str
   +:+ " and " +:+ end_str
   +:+ ". " +:+ nl +:+ nl
   +:+ "Conference room utilization = (number of attendees for "
   +:+ "meetings in last 30 days) / (number of meetings * max occupancy of "
   +:+ "room). The count of seats includes non-Asana folks "
   +:+ "and office hours. If a room has > 100% that means generally it's "
   +:+ "over occupied. This seems to be the case for most of the phone rooms "
   +:+ "likely due to customers being invited on the calendar invite. The "
   +:+ "seat count includes accepted and non-responded calendar "
   +:+ "invites." +:+ nl +:+ nl +:+ room_lines)%string.

(** One report line, lines 129-130. *)
Definition room_line (room_name : string) (util : spec_float) : string :=
  (room_name +:+ " Utilization %: " +:+ format_2f util)%string.

(** Command-line arguments: the two optional flags. *)
Record argv : Type := Argv {
  arg_start_date : option string;
  arg_end_date : option string
}.

(** The parser built by [gen_parser]: per flag a default and a converter. *)
Record arg_parser : Type := ArgParser {
  start_date_default : datetime;
  end_date_default : datetime;
  date_type : string -> result datetime
}.

(** The namespace returned by [parse_args]. *)
Record args : Type := Args {
  start_date : datetime;
  end_date : datetime
}.

(** One flag of [parse_args]: the default when the flag is absent; else the
    converter, whose [ValueError] becomes a usage error (exit status 2). *)
Definition parse_flag (convert : string -> result datetime)
    (default : datetime) (flag : option string) : py datetime :=
  match flag with
  | None => ret default
  | Some str =>
      match convert str with
      | inr d => ret d
      | inl (ValueError _) => raise (SystemExit 2)
      | inl e => raise e
      end
  end.

Definition parse_args (parser : arg_parser) (a : argv) : py args :=
  sd <- parse_flag (date_type parser) (start_date_default parser)
                   (arg_start_date a) ;;
  ed <- parse_flag (date_type parser) (end_date_default parser)
                   (arg_end_date a) ;;
  ret (Args sd ed).

(** ** Libraries and remote services

    What the script calls but does not define, left abstract: percent
    encoding, ISO formatting and date parsing; the authorization URL built
    by the OAuth2 client; the token endpoint (code exchange and refresh,
    each taking the endpoint, the client id, the client secret and the code
    or refresh token); the calendar API (bearer token, URL, query); the
    Asana API (access token, task). *)

Record services : Type := Services {
  urllib_quote : string -> string;
  isoformat : datetime -> string;
  date_parser_parse : string -> result datetime;
  authorization_url : session -> string -> string;
  token_endpoint_code :
    string -> string -> string -> string -> option oauth_token;
  token_endpoint_refresh :
    string -> string -> string -> string -> option oauth_token;
  calendar_api : option string -> string -> query -> http_response;
  asana_api_accepts : string -> task_params -> bool
}.

(** ** The script *)

Section Script.

Variable svc : services.

(** *** [OAuth2Session] methods *)

(** [session.fetch_token(token_url, code=code, client_secret=secret)]:
    the token is returned and stored in the session. *)
Definition fetch_token (s : session) (token_url code secret : string)
  : py (oauth_token * session) :=
  match token_endpoint_code svc token_url (session_client_id s) secret code with
  | None => raise OAuth2Error
  | Some t => ret (t, with_token s t)
  end.

(** [session.refresh_token(token_url, **auto_refresh_kwargs)] *)
Definition refresh_session_token (s : session) (token_url : string)
    (old : oauth_token) : py (oauth_token * session) :=
  match token_endpoint_refresh svc token_url (fst (auto_refresh_kwargs s))
          (snd (auto_refresh_kwargs s)) (refresh_token old) with
  | None => raise OAuth2Error
  | Some t => ret (t, with_token s t)
  end.

(** The token is expired when it carries an expiry time in the past. *)
Definition token_expired (t : oauth_token) : py bool :=
  fun w => (inr (negb (expires_at t =? 0)
                 && (expires_at t * 1000000 <? clock w)), w).

(** [client.add_token] right after a refresh: the client's expiry time is
    the fresh token's or, when the fresh token carries none, still the one
    of the old token, which has passed. *)
Definition token_expired_after_refresh (fresh : oauth_token) : py bool :=
  if expires_at fresh =? 0 then ret true else token_expired fresh.

(** [session.get(url, params=params)].  Without a token the request is sent
    as it is.  Otherwise [client.add_token] adds the token to the request:
    it refuses a document without an access token (or with an empty one),
    then a token that has expired.  An expired token is refreshed at
    [auto_refresh_url] and handed to [token_updater], and the fresh token
    is added in its place, under the same two checks. *)
Definition session_get (s : session) (target : string) (params : query)
  : py (http_response * session) :=
  match session_token s with
  | None => ret (calendar_api svc None target params, s)
  | Some (TokenJson t) =>
      if String.eqb (access_token t) "" then
        raise (ValueError "Missing access token.")
      else
        expired <- token_expired t ;;
        if expired : bool then
          match auto_refresh_url s with
          | None => raise TokenExpiredError
          | Some refresh_url =>
              r <- refresh_session_token s refresh_url t ;;
              match token_updater s with
              | None => raise TokenUpdated
              | Some updater =>
                  updater (fst r) ;;
                  if String.eqb (access_token (fst r)) "" then
                    raise (ValueError "Missing access token.")
                  else
                    still_expired <- token_expired_after_refresh (fst r) ;;
                    if still_expired : bool then raise TokenExpiredError
                    else ret (calendar_api svc (Some (access_token (fst r)))
                                           target params,
                              snd r)
              end
          end
        else ret (calendar_api svc (Some (access_token t)) target params, s)
  | Some _ => raise (ValueError "Missing access token.")
  end.

(** [asana_client.tasks.create(params)] *)
Definition tasks_create (pat : string) (params : task_params) : py unit :=
  fun w =>
    if asana_api_accepts svc pat params
    then (inr tt, World (fs w) (stdin w) (stdout w) (clock w)
                        (asana_tasks w ++ [params]))
    else (inl AsanaError, w).

(** *** Lines 21-33 *)

Definition parse_tz_aware_dt (dt_str : string) : result datetime :=
  rbind (date_parser_parse svc dt_str) utc_localize.

Definition gen_parser (utc_now utc_thirty_days_ago : datetime) : arg_parser :=
  ArgParser utc_thirty_days_ago utc_now parse_tz_aware_dt.

(** *** Lines 36-75 *)

Definition create_google_oauth_session (scopes : list string) : py session :=
  doc <- json_load CLIENT_SECRET_FILE ;;
  match doc with
  | ClientSecretJson client_secret_dict =>
      let client_id := client_id client_secret_dict in
      let client_secret := client_secret_value client_secret_dict in
      let auto_refresh_kwargs := (client_id, client_secret) in
      let auth_uri := auth_uri client_secret_dict in
      let redirect_uri := "urn:ietf:wg:oauth:2.0:oob"%string in
      let token_uri := token_uri client_secret_dict in
      token_file_exists <- path_exists TOKEN_FILE ;;
      if token_file_exists : bool then
        token <- json_load TOKEN_FILE ;;
        ret (Session client_id (Some token) None None (Some token_uri)
                     auto_refresh_kwargs (Some save_token_as_json))
      else
        let google_oauth_session :=
          Session client_id None (Some redirect_uri) (Some scopes)
                  (Some token_uri) auto_refresh_kwargs
                  (Some save_token_as_json) in
        let authorization_url :=
          authorization_url svc google_oauth_session auth_uri in
        print ("Please go to " +:+ authorization_url
               +:+ " and authorize access.") ;;
        code <- raw_input "Enter the code you recieve: " ;;
        r <- fetch_token google_oauth_session token_uri code client_secret ;;
        save_token_as_json (fst r) ;;
        ret (snd r)
  | _ => raise (KeyError "installed")
  end.

(** *** Lines 83-145 *)

(** Lines 99-101: the events endpoint of a calendar. *)
Definition events_url (room_url : string) : string :=
  ("https://www.googleapis.com/calendar/v3/calendars/"
   +:+ urllib_quote svc room_url +:+ "/events")%string.

(** Lines 102-107: the query parameters. *)
Definition events_params (start_date end_date : datetime) : query :=
  Query (isoformat svc start_date) (isoformat svc end_date) true "startTime".

(** Line 93: the progress line (its parenthesis is never closed). *)
Definition grabbing_line (room : room) : string :=
  ("Grabbing data for room " +:+ name room +:+ " (URL: " +:+ url room)%string.

(** The body of the [for room in room_list] loop.  It threads the session
    and [room_utilization_strs]. *)
Definition room_step (start_date end_date : datetime)
    (st : session * list string) (room : room)
  : py (session * list string) :=
  let room_name := name room in
  let room_seats := room_seats room in
  print (grabbing_line room) ;;
  r <- session_get (fst st) (events_url (url room))
                   (events_params start_date end_date) ;;
  raise_for_status (fst r) ;;
  body <- response_json (fst r) ;;
  let events := default [] (items body) in
  match events with
  | [] =>
      print ("No events found for room: " +:+ room_name) ;;
      ret (snd r, snd st)
  | _ :: _ =>
      number_of_attendees <- lift (count_attendees events 0) ;;
      let number_of_meetings := Z.of_nat (length events) in
      util <- lift (utilization number_of_attendees number_of_meetings
                                room_seats) ;;
      ret (snd r, snd st ++ [room_line room_name util])
  end.

Fixpoint rooms_loop (start_date end_date : datetime) (room_list : list room)
    (st : session * list string) : py (session * list string) :=
  match room_list with
  | [] => ret st
  | room :: rest =>
      st' <- room_step start_date end_date st room ;;
      rooms_loop start_date end_date rest st'
  end.

Definition generate_room_util_report (room_list : list room)
    (start_date end_date : datetime) : py string :=
  google_oauth_session <- create_google_oauth_session
    ["https://www.googleapis.com/auth/calendar.readonly"%string] ;;
  print "Generating Room Utilization Report..." ;;
  st <- rooms_loop start_date end_date room_list (google_oauth_session, []) ;;
  start_str <- lift (strftime_mdY start_date) ;;
  end_str <- lift (strftime_mdY end_date) ;;
  ret (report_text start_str end_str (String.concat nl (snd st))).

(** *** Lines 148-163 *)

Definition post_all_in_asana_task (asana_config : file_data)
    (room_util_report_str : string) (utc_now : datetime) : py unit :=
  match asana_config with
  | AsanaConfigJson cfg =>
      todays_date_str <- lift (strftime_mdY utc_now) ;;
      let name :=
        ("Google Calendar Room Utilization Results "
         +:+ todays_date_str)%string in
      let params :=
        TaskParams (workspace_id cfg) [project_id cfg] name
                   room_util_report_str in
      tasks_create (personal_access_token cfg) params ;;
      print "Utilization task created in Asana workspace"
  | _ => raise (KeyError "personal_access_token")
  end.

(** *** Lines 166-173 *)

Definition read_room_list_from_json : py (list room) :=
  doc <- json_load "rooms.json" ;;
  match doc with
  | RoomsJson rooms => ret rooms
  | _ => raise (KeyError "rooms")
  end.

Definition read_config : py file_data := json_load "asana_config.json".

(** *** Lines 176-186 *)

Definition main (a : argv) : py unit :=
  now <- utcnow ;;
  utc_now <- lift (utc_localize now) ;;
  utc_thirty_days_ago <- lift (minus_days utc_now 30) ;;
  let parser := gen_parser utc_now utc_thirty_days_ago in
  args <- parse_args parser a ;;
  room_list <- read_room_list_from_json ;;
  room_util_report_str <- generate_room_util_report room_list
    (start_date args) (end_date args) ;;
  asana_config <- read_config ;;
  post_all_in_asana_task asana_config room_util_report_str utc_now ;;
  print "YOU DID IT! :)".

End Script.

(** ** Auxiliary definitions for the floating-point proofs *)

(** Where the fractional part of [N / B] lies relative to one half. *)
Definition frac_loc (N B : Z) : location :=
  if N mod B =? 0 then loc_Exact else loc_Inexact (2 * (N mod B) ?= B).

Definition frac_record (N B : Z) : shr_record :=
  shr_record_of_loc (N / B) (frac_loc N B).

(** The mantissa and exponent of the double that equals a small integer. *)
Definition normal_mantissa (a : Z) : positive :=
  Z.to_pos (a * 2 ^ (53 - Zdigits2 a)).

Definition normal_exponent (a : Z) : Z := Zdigits2 a - 53.

(** Relative closeness at one unit roundoff, over the integers and over
    the rationals. *)
Definition Zclose (y n : Z) : Prop :=
  (2 ^ 53 - 1) * y <= 2 ^ 53 * n <= (2 ^ 53 + 1) * y.

Definition Qclose (y n : Q) : Prop :=
  (inject_Z (2 ^ 53 - 1) * y <= inject_Z (2 ^ 53) * n
   /\ inject_Z (2 ^ 53) * n <= inject_Z (2 ^ 53 + 1) * y)%Q.

(** The exact utilization percentage [100 * A / (M * S)], as a rational. *)
Definition exact_percent (A M S : Z) : Q :=
  (100 * inject_Z A / inject_Z (M * S))%Q.

(** A rational exactly halfway between two consecutive integers. *)
Definition halfway (q : Q) : Prop :=
  exists k : Z, (q == inject_Z k + (1 # 2))%Q.

(** ** Auxiliary definitions for the statements *)

#[global] Instance jscalar_eq_dec : EqDecision jscalar.
Proof. solve_decision. Defined.

(** The attendee entry carries the key ['responseStatus']. *)
Definition has_response_status (a : attendee) : Prop :=
  is_Some (a !! "responseStatus"%string).

(** The attendee declined the invitation. *)
Definition declined (a : attendee) : Prop :=
  a !! "responseStatus"%string = Some (JStr "declined").

(** An attendee entry with only a response status. *)
Definition status_attendee (status : string) : attendee :=
  {[ "responseStatus"%string := JStr status ]}.

(** An event whose attendee list has an entry without a response status. *)
Definition has_malformed_attendee (ev : event) : Prop :=
  exists l,
    attendees ev = Some l /\ Exists (fun a => ~ has_response_status a) l.

(** An event whose attendee entries, if any, all carry a response status. *)
Definition well_formed_event (ev : event) : Prop :=
  forall l, attendees ev = Some l -> Forall has_response_status l.

(** Every entry of an attendee list carries a response status. *)
Definition every_status_present (l : list attendee) : bool :=
  forallb (fun a => bool_decide (is_Some (a !! "responseStatus"%string))) l.

(** The same for every attendee list of the events. *)
Definition events_well_formed (events : list event) : bool :=
  forallb (fun ev => match attendees ev with
                     | None => true
                     | Some l => every_status_present l
                     end) events.

(** What the specification has an event contribute: 1 when it carries no
    attendee list, else the number of its attendees that have not
    declined. *)
Definition specified_contribution (ev : event) : Z :=
  match attendees ev with
  | None => 1
  | Some l => Z.of_nat (length (filter (fun a => ~ declined a) l))
  end.

(** The attendee count of a room as specified: the sum of the
    contributions of its events. *)
Definition specified_attendee_count (events : list event) : Z :=
  foldr (fun ev n => specified_contribution ev + n) 0 events.

(** The status is outside the range [raise_for_status] rejects. *)
Definition status_ok (r : http_response) : Prop :=
  ((400 <=? status_code r) && (status_code r <? 600)) = false.

(** The world after a line has been printed. *)
Definition printed (line : string) (w : world) : world :=
  World (fs w) (stdin w) (stdout w ++ [line]) (clock w) (asana_tasks w).

(** ** A concrete installation, for examples *)

Definition example_token : oauth_token :=
  OAuthToken "ya29.first" "1//refresh" 0.

Definition example_events : list event :=
  [ Event None;
    Event (Some [status_attendee "declined"; status_attendee "accepted"]) ].

Definition example_fishbowl : room :=
  Room "Fishbowl" "fishbowl@resource.calendar.google.com" 4.

Definition example_attic : room :=
  Room "Attic" "attic@resource.calendar.google.com" 6.

(** A room configured with no seats. *)
Definition example_closet : room :=
  Room "Closet" "closet@resource.calendar.google.com" 0.

(** A room whose calendar returns an attendee entry without a status. *)
Definition example_lobby : room :=
  Room "Lobby" "lobby@resource.calendar.google.com" 10.

Definition example_rooms : list room := [example_fishbowl; example_attic].

Definition example_services : services :=
  Services
    (fun s => s)
    (fun d => string_of_Z (ordinal d))
    (fun s =>
       if String.eqb s "2021-01-01" then inr (datetime_of_date 2021 1 1)
       else if String.eqb s "2021-01-31" then inr (datetime_of_date 2021 1 31)
       else if String.eqb s "2021-01-01T00:00:00Z"
            then inr (Datetime (ymd2ord 2021 1 1) 0 (Some UTC))
       else inl (ValueError "Unknown string format"))
    (fun _ uri => uri)
    (fun _ _ _ code =>
       if String.eqb code "4/good" then Some example_token else None)
    (fun _ _ _ _ => Some (OAuthToken "ya29.second" "1//refresh" 1612054800))
    (fun _ target _ =>
       if String.eqb target
            "https://www.googleapis.com/calendar/v3/calendars/fishbowl@resource.calendar.google.com/events"
       then HttpResponse 200 (Some (EventsBody (Some example_events)))
       else if String.eqb target
            "https://www.googleapis.com/calendar/v3/calendars/closet@resource.calendar.google.com/events"
       then HttpResponse 200 (Some (EventsBody (Some example_events)))
       else if String.eqb target
            "https://www.googleapis.com/calendar/v3/calendars/lobby@resource.calendar.google.com/events"
       then HttpResponse 200
              (Some (EventsBody (Some [Event (Some [status_attendee "accepted";
                                                    ∅])])))
       else HttpResponse 200 (Some (EventsBody None)))
    (fun _ _ => true).

Definition example_secret : client_secret :=
  ClientSecret "client-1" "s3cret" "https://accounts.google.com/o/oauth2/auth"
               "https://oauth2.googleapis.com/token".

Definition example_files (rooms : list room) : gmap string file_data :=
  <[ "client_secret.json"%string := ClientSecretJson example_secret ]>
  (<[ "rooms.json"%string := RoomsJson rooms ]>
  (<[ "asana_config.json"%string
        := AsanaConfigJson (AsanaConfig "0/pat" "workspace-1" "project-1") ]> ∅)).

(** First run: no token file, the operator types a valid code.  The clock
    reads 2021-01-31 00:00:00 UTC. *)
Definition example_first_run (rooms : list room) : world :=
  World (example_files rooms) ["4/good"%string] [] 1612051200000000 [].

(** Later run: the token file is there. *)
Definition example_later_run (rooms : list room) : world :=
  World (<[ "google_oauth_token.json"%string := TokenJson example_token ]>
           (example_files rooms))
        [] [] 1612051200000000 [].

(** The session built from the cached token. *)
Definition example_session : session :=
  Session "client-1" (Some (TokenJson example_token)) None None
          (Some "https://oauth2.googleapis.com/token"%string)
          ("client-1"%string, "s3cret"%string) (Some save_token_as_json).

(** ** The two sessions [create_google_oauth_session] can build *)

(** From the document in the token file: automatic refresh at the token
    endpoint, with [save_token_as_json] as the callback for refreshed
    tokens. *)
Definition loaded_session (cs : client_secret) (doc : file_data) : session :=
  Session (client_id cs) (Some doc) None None (Some (token_uri cs))
          (client_id cs, client_secret_value cs) (Some save_token_as_json).

(** The same when the document is a token. *)
Definition cached_session (cs : client_secret) (token : oauth_token)
  : session :=
  loaded_session cs (TokenJson token).

(** For the interactive flow, before the code is exchanged. *)
Definition interactive_session (cs : client_secret) (scopes : list string)
  : session :=
  Session (client_id cs) None (Some "urn:ietf:wg:oauth:2.0:oob"%string)
          (Some scopes) (Some (token_uri cs))
          (client_id cs, client_secret_value cs) (Some save_token_as_json).

(** The token carries an expiry time that the clock has passed. *)
Definition expired_at (t : oauth_token) (w : world) : bool :=
  negb (expires_at t =? 0) && (expires_at t * 1000000 <? clock w).

(** The token carries an expiry time that the clock has not passed. *)
Definition expires_later (t : oauth_token) (w : world) : bool :=
  negb (expires_at t =? 0) && negb (expires_at t * 1000000 <? clock w).

(** The world after a file has been written. *)
Definition written (path : string) (d : file_data) (w : world) : world :=
  World (<[path := d]> (fs w)) (stdin w) (stdout w) (clock w) (asana_tasks w).

(** ** The two halves of [main] *)

(** Lines 177-180: the clock, the defaults and the parsed arguments. *)
Definition resolve_date_range (svc : services) (a : argv)
  : py (datetime * args) :=
  now <- utcnow ;;
  utc_now <- lift (utc_localize now) ;;
  utc_thirty_days_ago <- lift (minus_days utc_now 30) ;;
  args <- parse_args (gen_parser svc utc_now utc_thirty_days_ago) a ;;
  ret (utc_now, args).

(** Lines 181-186: the report and its delivery. *)
Definition run_report (svc : services) (utc_now : datetime) (args : args)
  : py unit :=
  room_list <- read_room_list_from_json ;;
  room_util_report_str <- generate_room_util_report svc room_list
    (start_date args) (end_date args) ;;
  asana_config <- read_config ;;
  post_all_in_asana_task svc asana_config room_util_report_str utc_now ;;
  print "YOU DID IT! :)".

(** The current UTC time of a world, time-zone aware. *)
Definition today_utc (w : world) : datetime :=
  Datetime (719163 + clock w / 86400000000) (clock w mod 86400000000)
           (Some UTC).

(** A naive value read as UTC. *)
Definition localized (d : datetime) : datetime :=
  Datetime (ordinal d) (microsecond_of_day d) (Some UTC).

(** The value a date flag resolves to: the default when the flag is
    absent, else the parsed string read as UTC. *)
Definition flag_value (svc : services) (flag : option string)
    (default : datetime) : datetime :=
  match flag with
  | None => default
  | Some str =>
      match date_parser_parse svc str with
      | inr d => localized d
      | inl _ => default
      end
  end.

(** The flag, when given, parses to a naive timestamp. *)
Definition parses_naive (svc : services) (flag : option string) : Prop :=
  forall str, flag = Some str ->
    exists d, date_parser_parse svc str = inr d /\ tzinfo d = None.



(** A decimal rendering with exactly two fractional digits. *)
Definition two_decimals (str : string) : Prop :=
  exists (negative : bool) (n : Z),
    0 <= n
    /\ str = format_hundredths negative n
    /\ String.length (pad2 (n mod 100)) = 2%nat.

(** A report line of one of the rooms: its name, the fixed label and the
    utilization of some attendee and meeting counts, rendered by
    ['{:0.2f}']. *)
Definition is_room_line (rooms : list room) (line : string) : Prop :=
  exists (rm : room) (A M : Z) (util : spec_float),
    In rm rooms /\ 0 <= A /\ 1 <= M
    /\ utilization A M (room_seats rm) = inr util
    /\ line = (name rm +:+ " Utilization %: " +:+ format_2f util)%string
    /\ (A < 2 ^ 53 -> Z.abs (M * room_seats rm) < 2 ^ 53 ->
        two_decimals (format_2f util)).

(** A date of the proleptic Gregorian calendar. *)
Definition valid_date (y m d : Z) : Prop :=
  1 <= y /\ 1 <= m <= 12 /\ 1 <= d <= days_in_month (is_leap y) m.

(** Decimal digits, and numbers written with two and with four of them. *)
Definition digit (k : Z) : ascii := ascii_of_nat (48 + Z.to_nat k).

Definition two_digits (k : Z) : string :=
  String (digit (k / 10)) (String (digit (k mod 10)) EmptyString).

Definition four_digits (k : Z) : string :=
  String (digit (k / 1000))
         (String (digit (k / 100 mod 10)) (two_digits (k mod 100))).

(** [str] is the calendar date of [dt] written MM/DD/YYYY: [dt] falls on
    day [d] of month [m] of year [y], and [str] is the month and the day
    with two digits each and the year in decimal (four digits up to
    9999), separated by slashes. *)
Definition is_mdY (dt : datetime) (str : string) : Prop :=
  exists y m d : Z,
    valid_date y m d /\ ordinal dt = ymd2ord y m d /\ 1900 <= y
    /\ str = (two_digits m +:+ "/" +:+ two_digits d +:+ "/"
              +:+ string_of_Z y)%string
    /\ (y <= 9999 -> string_of_Z y = four_digits y).

(** ** What a run may do to the world *)

(** The file system is unchanged, or the token file has been rewritten
    with a token. *)
Definition may_write_token (w w' : world) : Prop :=
  fs w' = fs w \/ exists t, fs w' = <[TOKEN_FILE := TokenJson t]> (fs w).

(** Standard output has only grown. *)
Definition has_printed (w w' : world) : Prop :=
  exists out, stdout w' = stdout w ++ out.

(** At most one line of standard input has been consumed. *)
Definition read_at_most_one_line (w w' : world) : Prop :=
  stdin w' = stdin w \/ exists line, stdin w = line :: stdin w'.

(** A step that reads nothing and posts nothing: it may print, and it may
    write a token to the token file. *)
Record quiet (w w' : world) : Prop := Quiet {
  quiet_clock : clock w' = clock w;
  quiet_stdin : stdin w' = stdin w;
  quiet_tasks : asana_tasks w' = asana_tasks w;
  quiet_stdout : has_printed w w';
  quiet_fs : may_write_token w w'
}.

(** A step that may also ask the operator for one line, though never when
    the token file is there. *)
Record authorizing (w w' : world) : Prop := Authorizing {
  authorizing_clock : clock w' = clock w;
  authorizing_stdin : read_at_most_one_line w w';
  authorizing_cached : is_Some (fs w !! TOKEN_FILE) -> stdin w' = stdin w;
  authorizing_tasks : asana_tasks w' = asana_tasks w;
  authorizing_stdout : has_printed w w';
  authorizing_fs : may_write_token w w'
}.

(** The session hands refreshed tokens to [save_token_as_json], as both
    sessions of [create_google_oauth_session] do. *)
Definition updater_ok (s : session) : Prop :=
  token_updater s = Some save_token_as_json.

(** The line of lines 66-67. *)
Definition please_go_to (svc : services) (cs : client_secret)
    (scopes : list string) : string :=
  ("Please go to "
   +:+ authorization_url svc (interactive_session cs scopes) (auth_uri cs)
   +:+ " and authorize access.")%string.

(** The world after the operator has been shown the URL and asked for the
    code, one line of input (if any) being consumed. *)
Definition prompted (svc : services) (cs : client_secret)
    (scopes : list string) (w : world) : world :=
  World (fs w) (tl (stdin w))
        (stdout w ++ [please_go_to svc cs scopes;
                      "Enter the code you recieve: "%string])
        (clock w) (asana_tasks w).

(** An installation [main] cannot work with: the room list or the client
    secret is not the expected document, or the token file is there but is
    not JSON. *)
Definition misconfigured (w : world) : Prop :=
  (forall rooms, fs w !! "rooms.json"%string <> Some (RoomsJson rooms))
  \/ (forall cs, fs w !! CLIENT_SECRET_FILE <> Some (ClientSecretJson cs))
  \/ fs w !! TOKEN_FILE = Some NotJson.

(** What the loop did with each room: [Some util] when it appended a line,
    [None] when it found no events. *)
Definition outcome_lines (outcomes : list (room * option spec_float))
  : list string :=
  flat_map (fun p => match snd p with
                     | Some util => [room_line (name (fst p)) util]
                     | None => []
                     end) outcomes.

Definition outcome_log (outcomes : list (room * option spec_float))
  : list string :=
  flat_map (fun p => grabbing_line (fst p)
                     :: match snd p with
                        | Some _ => []
                        | None => [("No events found for room: "
                                    +:+ name (fst p))%string]
                        end) outcomes.

(** The example services during an outage of the calendar API. *)
Definition example_outage : services :=
  Services (urllib_quote example_services) (isoformat example_services)
           (date_parser_parse example_services)
           (authorization_url example_services)
           (token_endpoint_code example_services)
           (token_endpoint_refresh example_services)
           (fun _ _ _ => HttpResponse 503 None)
           (asana_api_accepts example_services).

(** A cached token that expired long ago. *)
Definition example_stale_token : oauth_token :=
  OAuthToken "ya29.zeroth" "1//refresh" 1500000000.

(** A later run whose cached token expired long ago. *)
Definition example_stale_run (rooms : list room) : world :=
  World (<[ "google_oauth_token.json"%string := TokenJson example_stale_token ]>
           (example_files rooms))
        [] [] 1612051200000000 [].

(** The example services with a token endpoint whose refreshed tokens
    carry no expiry time. *)
Definition example_no_expiry : services :=
  Services (urllib_quote example_services) (isoformat example_services)
           (date_parser_parse example_services)
           (authorization_url example_services)
           (token_endpoint_code example_services)
           (fun _ _ _ _ => Some (OAuthToken "ya29.second" "1//refresh" 0))
           (calendar_api example_services)
           (asana_api_accepts example_services).

(** A later run whose token file holds some other JSON document. *)
Definition example_foreign_run (rooms : list room) : world :=
  World (<[ "google_oauth_token.json"%string := RoomsJson [] ]>
           (example_files rooms))
        [] [] 1612051200000000 [].

(** The installation without its Asana configuration. *)
Definition example_no_asana (rooms : list room) : world :=
  World (delete "asana_config.json"%string
           (<[ "google_oauth_token.json"%string := TokenJson example_token ]>
              (example_files rooms)))
        [] [] 1612051200000000 [].

(** * Properties *)

(** ** Binary64 rounding *)



(** *** Bit lengths *)

Lemma digits2_pos_bounds (p : positive) :
  2 ^ (Z.pos (digits2_pos p) - 1) <= Z.pos p < 2 ^ Z.pos (digits2_pos p).
Proof.
  induction p as [p IH|p IH|]; simpl digits2_pos.
  - rewrite Pos2Z.inj_succ.
    replace (Z.succ (Z.pos (digits2_pos p)) - 1) with (Z.succ (Z.pos (digits2_pos p) - 1)) by lia.
    rewrite !Z.pow_succ_r by lia. lia.
  - rewrite Pos2Z.inj_succ.
    replace (Z.succ (Z.pos (digits2_pos p)) - 1) with (Z.succ (Z.pos (digits2_pos p) - 1)) by lia.
    rewrite !Z.pow_succ_r by lia. lia.
  - simpl. lia.
Qed.

(** *** Shifting right with a rounding bit and a sticky bit

    The record reached after shifting the integer part of [N / B] is the
    record of [N / (2 * B)]: integer part and position of the remainder. *)

Lemma shr_1_div2 (m : Z) (r s : bool) :
  0 <= m -> shr_1 (Build_shr_record m r s) = Build_shr_record (m / 2) (Z.odd m) (r || s).
Proof.
  intros Hm. destruct m as [|p|p]; [reflexivity| |lia].
  destruct p as [p|p|]; simpl shr_1.
  - f_equal. rewrite Pos2Z.inj_xI. apply Z.div_unique with 1; lia.
  - f_equal. rewrite Pos2Z.inj_xO. apply Z.div_unique with 0; lia.
  - reflexivity.
Qed.

Lemma shr_1_frac (N B : Z) :
  0 <= N -> 0 < B -> shr_1 (frac_record N B) = frac_record N (2 * B).
Proof.
  intros HN HB. unfold frac_record.
  assert (Hq : 0 <= N / B) by (apply Z.div_pos; lia).
  assert (Hdd : N / (2 * B) = N / B / 2) by (rewrite Z.mul_comm, Z.div_div by lia; reflexivity).
  pose proof (Z.mod_pos_bound N B HB) as HR.
  pose proof (Z.div_mod N B ltac:(lia)) as HNB.
  pose proof (Z.div_mod (N / B) 2 ltac:(lia)) as Hm2.
  pose proof (Z.mod_pos_bound (N / B) 2 ltac:(lia)) as Hm2b.
  assert (HR2 : N mod (2 * B) = (N / B) mod 2 * B + N mod B).
  { symmetry. apply Z.mod_unique_pos with (N / B / 2); [nia | nia]. }
  assert (Hodd : Z.odd (N / B) = ((N / B) mod 2 =? 1)).
  { rewrite Zmod_odd. destruct (Z.odd (N / B)); reflexivity. }
  rewrite Hdd. unfold frac_loc at 2. rewrite HR2.
  unfold frac_loc.
  destruct (Z.eqb_spec (N mod B) 0) as [E0|E0].
  - simpl shr_record_of_loc. rewrite shr_1_div2 by lia. rewrite Hodd.
    destruct (Z.eqb_spec ((N / B) mod 2) 1) as [E1|E1].
    + rewrite E1, E0.
      destruct (Z.eqb_spec (1 * B + 0) 0); [lia|].
      replace (2 * (1 * B + 0) ?= 2 * B) with Eq by (symmetry; apply Z.compare_eq_iff; lia).
      reflexivity.
    + assert ((N / B) mod 2 = 0) as -> by lia. rewrite E0. reflexivity.
  - destruct (2 * (N mod B) ?= B) eqn:Ec; simpl shr_record_of_loc;
      rewrite shr_1_div2 by lia; rewrite Hodd;
      (destruct (Z.eqb_spec ((N / B) mod 2) 1) as [E1|E1];
       [ rewrite E1; destruct (Z.eqb_spec (1 * B + N mod B) 0); [lia|];
         replace (2 * (1 * B + N mod B) ?= 2 * B) with Gt by (symmetry; apply Z.compare_gt_iff; lia);
         reflexivity
       | assert ((N / B) mod 2 = 0) as -> by lia;
         destruct (Z.eqb_spec (0 * B + N mod B) 0); [lia|];
         replace (2 * (0 * B + N mod B) ?= 2 * B) with Lt by (symmetry; apply Z.compare_lt_iff; lia);
         reflexivity ]).
Qed.

Lemma iter_shr_1_frac (p : positive) (N B : Z) :
  0 <= N -> 0 < B ->
  SpecFloat.iter_pos shr_1 p (frac_record N B) = frac_record N (2 ^ Z.pos p * B).
Proof.
  revert B. induction p as [p IH|p IH|]; intros B HN HB; simpl SpecFloat.iter_pos.
  - assert (0 < 2 ^ Z.pos p) by (apply Z.pow_pos_nonneg; lia).
    rewrite shr_1_frac, IH, IH by nia.
    apply f_equal. rewrite (Pos2Z.inj_xI p).
    replace (2 * Z.pos p + 1) with (Z.pos p + Z.pos p + 1) by lia.
    rewrite !Z.pow_add_r by lia. rewrite Z.pow_1_r. ring.
  - assert (0 < 2 ^ Z.pos p) by (apply Z.pow_pos_nonneg; lia).
    rewrite IH, IH by nia.
    apply f_equal. rewrite (Pos2Z.inj_xO p).
    replace (2 * Z.pos p) with (Z.pos p + Z.pos p) by lia.
    rewrite !Z.pow_add_r by lia. ring.
  - rewrite shr_1_frac by lia. reflexivity.
Qed.

Lemma loc_of_shr_record_of_loc (m : Z) (l : location) :
  loc_of_shr_record (shr_record_of_loc m l) = l.
Proof. destruct l as [|[]]; reflexivity. Qed.

Lemma shr_m_of_loc (m : Z) (l : location) : shr_m (shr_record_of_loc m l) = m.
Proof. destruct l as [|[]]; reflexivity. Qed.

Lemma Zdigits2_unique (m n : Z) :
  0 < n -> 2 ^ (n - 1) <= m < 2 ^ n -> Zdigits2 m = n.
Proof.
  intros Hn [Hlo Hhi].
  assert (0 < 2 ^ (n - 1)) by (apply Z.pow_pos_nonneg; lia).
  destruct m as [|p|p]; try lia.
  simpl. pose proof (digits2_pos_bounds p) as [Hl Hh].
  set (d := Z.pos (digits2_pos p)) in *.
  assert (d - 1 < n) by (apply (Z.pow_lt_mono_r_iff 2); lia).
  assert (n - 1 < d) by (apply (Z.pow_lt_mono_r_iff 2); lia).
  lia.
Qed.

Lemma Zdigits2_bounds (m : Z) :
  0 < m -> 0 < Zdigits2 m /\ 2 ^ (Zdigits2 m - 1) <= m < 2 ^ Zdigits2 m.
Proof.
  intros Hm. destruct m as [|p|p]; try lia. simpl.
  split; [lia|]. apply digits2_pos_bounds.
Qed.


Lemma fexp_normal (e : Z) : -1074 <= e - 53 -> fexp prec emax e = e - 53.
Proof. intros H. unfold fexp, emin, prec, emax. lia. Qed.

Lemma shr_fexp_frac (N B ex : Z) :
  0 <= N -> 0 < B ->
  53 <= Zdigits2 (N / B) ->
  -1074 <= ex + Zdigits2 (N / B) - 53 ->
  shr_fexp prec emax (N / B) ex (frac_loc N B)
  = (frac_record N (2 ^ (Zdigits2 (N / B) - 53) * B), ex + Zdigits2 (N / B) - 53).
Proof.
  intros HN HB Hd Hr. unfold shr_fexp.
  rewrite fexp_normal by lia.
  replace (Zdigits2 (N / B) + ex - 53 - ex) with (Zdigits2 (N / B) - 53) by lia.
  fold (frac_record N B).
  destruct (Zdigits2 (N / B) - 53) as [|k|k] eqn:Hk; try lia.
  - simpl shr. rewrite Z.pow_0_r, Z.mul_1_l. f_equal. lia.
  - simpl shr. rewrite iter_shr_1_frac by lia. f_equal. lia.
Qed.

(** *** Rounding to nearest, ties to even *)

Lemma round_nearest_even_frac (N B : Z) :
  0 <= N -> 0 < B ->
  N / B <= round_nearest_even (N / B) (frac_loc N B) <= N / B + 1
  /\ Z.abs (2 * round_nearest_even (N / B) (frac_loc N B) * B - 2 * N) <= B.
Proof.
  intros HN HB.
  pose proof (Z.mod_pos_bound N B HB) as HR.
  pose proof (Z.div_mod N B ltac:(lia)) as HNB.
  set (q := N / B) in *. set (R := N mod B) in *.
  assert (HqB : 2 * q * B - 2 * N = - (2 * R)) by lia.
  assert (HqB1 : 2 * (q + 1) * B - 2 * N = 2 * B - 2 * R) by lia.
  unfold frac_loc. fold R.
  destruct (Z.eqb_spec R 0) as [E0|E0]; simpl round_nearest_even.
  - rewrite HqB. lia.
  - destruct (Z.compare_spec (2 * R) B) as [Ec|Ec|Ec].
    + destruct (Z.even q); [rewrite HqB|rewrite HqB1]; lia.
    + rewrite HqB. lia.
    + rewrite HqB1. lia.
Qed.

Lemma frac_loc_1 (m : Z) : frac_loc m 1 = loc_Exact.
Proof. unfold frac_loc. rewrite Z.mod_1_r. reflexivity. Qed.

Lemma shr_fexp_exact (m e : Z) :
  0 <= m -> 53 <= Zdigits2 m -> -1074 <= e + Zdigits2 m - 53 ->
  shr_fexp prec emax m e loc_Exact
  = (frac_record m (2 ^ (Zdigits2 m - 53) * 1), e + Zdigits2 m - 53).
Proof.
  intros Hm Hd Hr.
  pose proof (shr_fexp_frac m 1 e Hm ltac:(lia)) as H.
  rewrite Z.div_1_r, frac_loc_1 in H. apply H; assumption.
Qed.

(** Rounding a value [N / B * 2^ex] whose integer part already carries at
    least 53 bits, in the normal range. *)
Lemma binary_round_aux_normal (sx : bool) (N B ex : Z) :
  0 < B -> 2 ^ 52 <= N / B ->
  -1074 <= ex + Zdigits2 (N / B) - 53 <= 970 ->
  exists (m : positive) (e : Z),
    binary_round_aux prec emax sx (N / B) ex (frac_loc N B) = S754_finite sx m e
    /\ 2 ^ 52 <= Z.pos m < 2 ^ 53
    /\ ex + Zdigits2 (N / B) - 53 <= e <= ex + Zdigits2 (N / B) - 52
    /\ Z.abs (2 * (Z.pos m * 2 ^ (e - ex)) * B - 2 * N) <= 2 ^ (e - ex) * B.
Proof.
  intros HB Hq Hr.
  assert (HN : 0 <= N).
  { destruct (Z.le_gt_cases 0 N) as [|Hneg]; [assumption|].
    pose proof (Z.div_lt_upper_bound N B 0 HB ltac:(lia)). lia. }
  destruct (Zdigits2_bounds (N / B) ltac:(lia)) as [Hd0 [Hdl Hdh]].
  set (d := Zdigits2 (N / B)) in *.
  assert (Hd : 53 <= d).
  { assert (52 < d); [|lia]. apply (Z.pow_lt_mono_r_iff 2); lia. }
  set (k := d - 53) in *.
  assert (Hk : 0 <= k) by lia.
  assert (H2k : 0 < 2 ^ k) by (apply Z.pow_pos_nonneg; lia).
  unfold binary_round_aux.
  rewrite shr_fexp_frac by (fold d; lia). fold d. fold k.
  cbv beta iota zeta.
  unfold frac_record at 1 2.
  rewrite loc_of_shr_record_of_loc, shr_m_of_loc.
  set (B1 := 2 ^ k * B).
  assert (HB1 : 0 < B1) by (unfold B1; nia).
  assert (Hm1 : N / B1 = N / B / 2 ^ k).
  { unfold B1. rewrite Z.mul_comm, Z.div_div by lia. reflexivity. }
  assert (Hm1b : 2 ^ 52 <= N / B1 < 2 ^ 53).
  { rewrite Hm1. replace d with (k + 53) in Hdl, Hdh by lia.
    replace (k + 53 - 1) with (k + 52) in Hdl by lia.
    rewrite Z.pow_add_r in Hdl, Hdh by lia.
    split.
    - apply Z.div_le_lower_bound; lia.
    - apply Z.div_lt_upper_bound; lia. }
  destruct (round_nearest_even_frac N B1 HN HB1) as [[Hlo Hhi] Herr].
  set (m2 := round_nearest_even (N / B1) (frac_loc N B1)) in *.
  assert (Hm2 : 2 ^ 52 <= m2 <= 2 ^ 53) by lia.
  destruct (Z.eq_dec m2 (2 ^ 53)) as [E|E].
  - assert (Hd2 : Zdigits2 m2 = 54).
    { apply Zdigits2_unique; [lia|]. rewrite E. simpl. lia. }
    rewrite shr_fexp_exact; rewrite ?Hd2; try lia.
    cbv beta iota zeta.
    unfold frac_record. rewrite shr_m_of_loc.
    rewrite E. change (2 ^ 53 / (2 ^ (54 - 53) * 1)) with (Z.pos (2 ^ 52)).
    replace (ex + d - 53 + 54 - 53 <=? emax - prec) with true
      by (symmetry; apply Z.leb_le; unfold emax, prec; lia).
    exists (2 ^ 52)%positive, (ex + d - 53 + 54 - 53).
    split; [reflexivity|]. split; [simpl; lia|]. split; [lia|].
    replace (ex + d - 53 + 54 - 53 - ex) with (k + 1) by lia.
    rewrite Z.pow_add_r, Z.pow_1_r by lia.
    change (Z.pos (2 ^ 52)) with (2 ^ 52).
    rewrite E in Herr. unfold B1 in Herr.
    change (2 ^ 53) with (2 ^ 52 * 2) in Herr. nia.
  - assert (Hd2 : Zdigits2 m2 = 53).
    { apply Zdigits2_unique; [lia|]. simpl Z.sub. lia. }
    rewrite shr_fexp_exact; rewrite ?Hd2; try lia.
    cbv beta iota zeta.
    unfold frac_record. rewrite shr_m_of_loc.
    change (2 ^ (53 - 53) * 1) with 1. rewrite Z.div_1_r.
    destruct m2 as [|p|p] eqn:Ep; try lia.
    replace (ex + d - 53 + 53 - 53 <=? emax - prec) with true
      by (symmetry; apply Z.leb_le; unfold emax, prec; lia).
    exists p, (ex + d - 53 + 53 - 53).
    split; [reflexivity|]. split; [lia|]. split; [lia|].
    replace (ex + d - 53 + 53 - 53 - ex) with k by lia.
    unfold B1 in Herr. nia.
Qed.

(** *** Integers below 2^53 convert exactly *)

Lemma binary_round_aux_exact (sx : bool) (m : positive) (e : Z) :
  Zdigits2 (Z.pos m) = 53 -> -1074 <= e <= 971 ->
  binary_round_aux prec emax sx (Z.pos m) e loc_Exact = S754_finite sx m e.
Proof.
  intros Hd He. unfold binary_round_aux.
  rewrite shr_fexp_exact by (rewrite ?Hd; lia). rewrite Hd.
  cbv beta iota zeta.
  change (2 ^ (53 - 53) * 1) with 1.
  unfold frac_record. rewrite frac_loc_1, Z.div_1_r.
  cbn [shr_record_of_loc loc_of_shr_record shr_m round_nearest_even].
  rewrite shr_fexp_exact by (rewrite ?Hd; lia). rewrite Hd.
  cbv beta iota zeta.
  change (2 ^ (53 - 53) * 1) with 1.
  unfold frac_record. rewrite frac_loc_1, Z.div_1_r.
  cbn [shr_record_of_loc shr_m].
  replace (e + 53 - 53 + 53 - 53) with e by lia.
  replace (e <=? emax - prec) with true
    by (symmetry; apply Z.leb_le; unfold emax, prec; lia).
  reflexivity.
Qed.

Lemma iter_xO_shift (k p : positive) :
  Z.pos (Pos.iter xO p k) = Z.pos p * 2 ^ Z.pos k.
Proof.
  induction k as [|k IH] using Pos.peano_ind.
  - simpl. lia.
  - rewrite Pos.iter_succ, Pos2Z.inj_xO, IH, Pos2Z.inj_succ, Z.pow_succ_r by lia.
    ring.
Qed.


Lemma normal_mantissa_bounds (a : Z) :
  0 < a < 2 ^ 53 ->
  1 <= Zdigits2 a <= 53
  /\ Z.pos (normal_mantissa a) = a * 2 ^ (53 - Zdigits2 a)
  /\ 2 ^ 52 <= Z.pos (normal_mantissa a) < 2 ^ 53.
Proof.
  intros [Ha Hb].
  destruct (Zdigits2_bounds a Ha) as [Hd0 [Hl Hh]].
  set (d := Zdigits2 a) in *.
  assert (Hd : d <= 53).
  { assert (d - 1 < 53); [|lia]. apply (Z.pow_lt_mono_r_iff 2); lia. }
  assert (H2 : 0 < 2 ^ (53 - d)) by (apply Z.pow_pos_nonneg; lia).
  assert (E52 : 2 ^ 52 = 2 ^ (d - 1) * 2 ^ (53 - d)).
  { rewrite <- Z.pow_add_r by lia. f_equal. lia. }
  assert (E53 : 2 ^ 53 = 2 ^ d * 2 ^ (53 - d)).
  { rewrite <- Z.pow_add_r by lia. f_equal. lia. }
  unfold normal_mantissa. fold d.
  rewrite Z2Pos.id by nia.
  split; [lia|]. split; [reflexivity|]. rewrite E52, E53. nia.
Qed.

Lemma binary_round_small (sx : bool) (p : positive) :
  Z.pos p < 2 ^ 53 ->
  binary_round prec emax sx p 0
  = S754_finite sx (normal_mantissa (Z.pos p)) (normal_exponent (Z.pos p)).
Proof.
  intros Hp.
  destruct (normal_mantissa_bounds (Z.pos p) ltac:(lia)) as [Hd [Hm Hmb]].
  unfold binary_round, normal_exponent.
  rewrite fexp_normal by (simpl Zdigits2 in Hd; lia).
  unfold shl_align.
  change (Z.pos (digits2_pos p)) with (Zdigits2 (Z.pos p)).
  set (d := Zdigits2 (Z.pos p)) in *.
  replace (d + 0 - 53 - 0) with (d - 53) by lia.
  destruct (d - 53) as [|k|k] eqn:Hk; try lia.
  - assert (E : normal_mantissa (Z.pos p) = p).
    { apply Pos2Z.inj. rewrite Hm. replace (53 - d) with 0 by lia. simpl. lia. }
    rewrite E. apply binary_round_aux_exact; [fold d; lia|lia].
  - assert (E : Pos.iter xO p k = normal_mantissa (Z.pos p)).
    { apply Pos2Z.inj. rewrite iter_xO_shift, Hm. do 2 f_equal. lia. }
    rewrite E. replace (d + 0 - 53) with (Z.neg k) by lia.
    apply binary_round_aux_exact; [|lia].
    apply Zdigits2_unique; [lia|]. simpl Z.sub. lia.
Qed.

(** *** Division and multiplication of normal numbers *)

Lemma new_location_frac (N B : Z) :
  0 < B -> new_location B (N mod B) = frac_loc N B.
Proof.
  intros HB. pose proof (Z.mod_pos_bound N B HB) as HR.
  unfold new_location, new_location_even, new_location_odd, frac_loc.
  destruct (Z.even B) eqn:Ev; [reflexivity|].
  destruct (N mod B =? 0); [reflexivity|]. f_equal.
  assert (Hodd : Z.odd B = true) by (rewrite <- Z.negb_even, Ev; reflexivity).
  apply Z.odd_spec in Hodd. destruct Hodd as [c Hc].
  destruct (Z.compare_spec (2 * (N mod B) + 1) B);
    destruct (Z.compare_spec (2 * (N mod B)) B); try reflexivity; lia.
Qed.

Lemma div_eucl_div_mod (a b : Z) : Z.div_eucl a b = (a / b, a mod b).
Proof. unfold Z.div, Z.modulo. destruct (Z.div_eucl a b). reflexivity. Qed.

Lemma SFdiv_normal (sa sb : bool) (ma mb : positive) (ea eb : Z) :
  2 ^ 52 <= Z.pos ma < 2 ^ 53 -> 2 ^ 52 <= Z.pos mb < 2 ^ 53 ->
  -500 <= ea <= 500 -> -500 <= eb <= 500 ->
  exists (m : positive) (e : Z),
    SFdiv prec emax (S754_finite sa ma ea) (S754_finite sb mb eb)
    = S754_finite (xorb sa sb) m e
    /\ 2 ^ 52 <= Z.pos m < 2 ^ 53
    /\ ea - eb - 53 <= e <= ea - eb - 51
    /\ Z.abs (2 * (Z.pos m * 2 ^ (e - (ea - eb - 53))) * Z.pos mb
              - 2 * (Z.pos ma * 2 ^ 53))
       <= 2 ^ (e - (ea - eb - 53)) * Z.pos mb.
Proof.
  intros Hma Hmb Hea Heb.
  assert (Hda : Zdigits2 (Z.pos ma) = 53) by (apply Zdigits2_unique; simpl Z.sub; lia).
  assert (Hdb : Zdigits2 (Z.pos mb) = 53) by (apply Zdigits2_unique; simpl Z.sub; lia).
  unfold SFdiv, SFdiv_core_binary. rewrite Hda, Hdb.
  rewrite fexp_normal by lia.
  replace (Z.min (53 + ea - (53 + eb) - 53) (ea - eb)) with (ea - eb - 53) by lia.
  replace (ea - eb - (ea - eb - 53)) with 53 by lia.
  rewrite Z.shiftl_mul_pow2 by lia.
  rewrite div_eucl_div_mod.
  rewrite new_location_frac by lia.
  set (N := Z.pos ma * 2 ^ 53). set (B := Z.pos mb).
  assert (Hq : 2 ^ 52 <= N / B < 2 ^ 54).
  { unfold N, B. split.
    - apply Z.div_le_lower_bound; [lia|]. change (2 ^ 53) with (2 * 2 ^ 52) in *. nia.
    - apply Z.div_lt_upper_bound; [lia|]. change (2 ^ 54) with (2 * 2 ^ 53) in *.
      change (2 ^ 53) with (2 * 2 ^ 52) in *. nia. }
  assert (Hd : 53 <= Zdigits2 (N / B) <= 54).
  { destruct (Zdigits2_bounds (N / B) ltac:(lia)) as [Hd0 [Hl Hh]].
    split.
    - assert (52 < Zdigits2 (N / B)); [|lia]. apply (Z.pow_lt_mono_r_iff 2); lia.
    - assert (Zdigits2 (N / B) - 1 < 54); [|lia]. apply (Z.pow_lt_mono_r_iff 2); lia. }
  destruct (binary_round_aux_normal (xorb sa sb) N B (ea - eb - 53))
    as (m & e & Heq & Hm & He & Herr); [unfold B; lia|lia|lia|].
  exists m, e. split; [exact Heq|]. split; [exact Hm|]. split; [lia|]. exact Herr.
Qed.

Lemma SFmul_normal (sa sb : bool) (ma mb : positive) (ea eb : Z) :
  2 ^ 52 <= Z.pos ma < 2 ^ 53 -> 2 ^ 52 <= Z.pos mb < 2 ^ 53 ->
  -500 <= ea <= 400 -> -500 <= eb <= 400 ->
  exists (m : positive) (e : Z),
    SFmul prec emax (S754_finite sa ma ea) (S754_finite sb mb eb)
    = S754_finite (xorb sa sb) m e
    /\ 2 ^ 52 <= Z.pos m < 2 ^ 53
    /\ ea + eb + 52 <= e <= ea + eb + 54
    /\ Z.abs (2 * (Z.pos m * 2 ^ (e - (ea + eb))) - 2 * (Z.pos ma * Z.pos mb))
       <= 2 ^ (e - (ea + eb)).
Proof.
  intros Hma Hmb Hea Heb.
  unfold SFmul. rewrite Pos2Z.inj_mul.
  set (N := Z.pos ma * Z.pos mb).
  assert (HN : 2 ^ 104 <= N < 2 ^ 106).
  { unfold N. change (2 ^ 104) with (2 ^ 52 * 2 ^ 52).
    change (2 ^ 106) with (2 ^ 53 * 2 ^ 53). nia. }
  assert (Hd : 105 <= Zdigits2 N <= 106).
  { destruct (Zdigits2_bounds N ltac:(lia)) as [Hd0 [Hl Hh]].
    split.
    - assert (104 < Zdigits2 N); [|lia]. apply (Z.pow_lt_mono_r_iff 2); lia.
    - assert (Zdigits2 N - 1 < 106); [|lia]. apply (Z.pow_lt_mono_r_iff 2); lia. }
  pose proof (binary_round_aux_normal (xorb sa sb) N 1 (ea + eb)) as H.
  rewrite Z.div_1_r, frac_loc_1 in H.
  destruct H as (m & e & Heq & Hm & He & Herr); [lia|lia|lia|].
  exists m, e. split; [exact Heq|]. split; [exact Hm|]. split; [lia|].
  rewrite !Z.mul_1_r in Herr. exact Herr.
Qed.




(** *** From half a unit in the last place to a relative error *)

Lemma half_ulp_Zclose (m k B N : Z) :
  2 ^ 52 <= m -> 0 < 2 ^ k -> 0 < B ->
  Z.abs (2 * (m * 2 ^ k) * B - 2 * N) <= 2 ^ k * B ->
  Zclose (m * 2 ^ k * B) N.
Proof.
  intros Hm Hk HB Herr. unfold Zclose.
  set (P := 2 ^ k * B) in *.
  assert (HP : 0 < P) by (unfold P; nia).
  replace (m * 2 ^ k * B) with (m * P) by (unfold P; ring).
  replace (2 * (m * 2 ^ k) * B) with (2 * (m * P)) in Herr by (unfold P; ring).
  assert (H52 : 2 ^ 52 * P <= m * P) by nia.
  change (2 ^ 53) with (2 * 2 ^ 52) in *.
  set (Y := m * P) in *. lia.
Qed.

Lemma pow2_pos (e : Z) : (0 < Qpower 2 e)%Q.
Proof. apply Qpower_0_lt. reflexivity. Qed.

Lemma pow2_add (a b : Z) : (Qpower 2 (a + b) == Qpower 2 a * Qpower 2 b)%Q.
Proof. apply Qpower_plus. discriminate. Qed.

Lemma pow2_inject (k : Z) : 0 <= k -> (inject_Z (2 ^ k) == Qpower 2 k)%Q.
Proof. intros Hk. rewrite Zpower_Qpower by assumption. reflexivity. Qed.

Lemma Zclose_Qclose (Y N : Z) (c y n : Q) :
  Zclose Y N -> (0 < c)%Q ->
  (y == inject_Z Y * c)%Q -> (n == inject_Z N * c)%Q -> Qclose y n.
Proof.
  intros [H1 H2] Hc Hy Hn. unfold Qclose. rewrite Hy, Hn.
  rewrite Zle_Qle in H1, H2. rewrite !inject_Z_mult in H1, H2.
  split.
  - setoid_replace (inject_Z (2 ^ 53 - 1) * (inject_Z Y * c))%Q
      with ((inject_Z (2 ^ 53 - 1) * inject_Z Y) * c)%Q using relation Qeq by ring.
    setoid_replace (inject_Z (2 ^ 53) * (inject_Z N * c))%Q
      with ((inject_Z (2 ^ 53) * inject_Z N) * c)%Q using relation Qeq by ring.
    apply Qmult_le_compat_r; [exact H1|apply Qlt_le_weak; exact Hc].
  - setoid_replace (inject_Z (2 ^ 53 + 1) * (inject_Z Y * c))%Q
      with ((inject_Z (2 ^ 53 + 1) * inject_Z Y) * c)%Q using relation Qeq by ring.
    setoid_replace (inject_Z (2 ^ 53) * (inject_Z N * c))%Q
      with ((inject_Z (2 ^ 53) * inject_Z N) * c)%Q using relation Qeq by ring.
    apply Qmult_le_compat_r; [exact H2|apply Qlt_le_weak; exact Hc].
Qed.

Lemma magnitude_normal (a : Z) :
  0 < a < 2 ^ 53 ->
  (magnitude (normal_mantissa a) (normal_exponent a) == inject_Z a)%Q.
Proof.
  intros Ha. destruct (normal_mantissa_bounds a Ha) as [Hd [Hm _]].
  unfold magnitude, normal_exponent. rewrite Hm, inject_Z_mult.
  rewrite pow2_inject by lia.
  rewrite <- Qmult_assoc, <- pow2_add.
  replace (53 - Zdigits2 a + (Zdigits2 a - 53)) with 0 by lia.
  simpl Qpower. ring.
Qed.


(** *** Rounding a rational to an integer *)

Lemma round_half_even_bounds (q : Q) :
  (inject_Z (round_half_even q) - (1 # 2) <= q
   /\ q <= inject_Z (round_half_even q) + (1 # 2))%Q.
Proof.
  destruct q as [a b]. unfold round_half_even. cbn [Qnum Qden].
  pose proof (Z.div_mod a (Z.pos b) ltac:(lia)) as Hdm.
  pose proof (Z.mod_pos_bound a (Z.pos b) ltac:(lia)) as Hr.
  set (fl := a / Z.pos b) in *. set (r := a mod Z.pos b) in *.
  unfold Qle, Qminus, Qplus, Qopp, inject_Z. cbn [Qnum Qden].
  rewrite !Pos2Z.inj_mul.
  destruct (Z.compare_spec (2 * r) (Z.pos b)) as [E|E|E];
    [destruct (Z.even fl)| |]; nia.
Qed.

Lemma round_half_even_unique (q : Q) (n : Z) :
  (inject_Z n - (1 # 2) < q)%Q -> (q < inject_Z n + (1 # 2))%Q ->
  round_half_even q = n.
Proof.
  destruct q as [a b]. unfold round_half_even. cbn [Qnum Qden].
  pose proof (Z.div_mod a (Z.pos b) ltac:(lia)) as Hdm.
  pose proof (Z.mod_pos_bound a (Z.pos b) ltac:(lia)) as Hr.
  set (fl := a / Z.pos b) in *. set (r := a mod Z.pos b) in *.
  unfold Qlt, Qminus, Qplus, Qopp, inject_Z. cbn [Qnum Qden].
  rewrite !Pos2Z.inj_mul. intros H1 H2.
  destruct (Z.compare_spec (2 * r) (Z.pos b)) as [E|E|E];
    [destruct (Z.even fl)| |]; nia.
Qed.

Lemma SFdiv_close (sa sb : bool) (ma mb : positive) (ea eb : Z) :
  2 ^ 52 <= Z.pos ma < 2 ^ 53 -> 2 ^ 52 <= Z.pos mb < 2 ^ 53 ->
  -500 <= ea <= 500 -> -500 <= eb <= 500 ->
  exists (m : positive) (e : Z),
    SFdiv prec emax (S754_finite sa ma ea) (S754_finite sb mb eb)
    = S754_finite (xorb sa sb) m e
    /\ 2 ^ 52 <= Z.pos m < 2 ^ 53
    /\ ea - eb - 53 <= e <= ea - eb - 51
    /\ Qclose (magnitude m e * magnitude mb eb) (magnitude ma ea).
Proof.
  intros Hma Hmb Hea Heb.
  destruct (SFdiv_normal sa sb ma mb ea eb Hma Hmb Hea Heb)
    as (m & e & Heq & Hm & He & Herr).
  exists m, e. split; [exact Heq|]. split; [exact Hm|]. split; [exact He|].
  set (k := e - (ea - eb - 53)) in *.
  assert (Hk : 0 <= k) by (unfold k; lia).
  assert (H2k : 0 < 2 ^ k) by (apply Z.pow_pos_nonneg; lia).
  apply (Zclose_Qclose (Z.pos m * 2 ^ k * Z.pos mb) (Z.pos ma * 2 ^ 53)
           (Qpower 2 (ea - 53))).
  - apply half_ulp_Zclose; [lia|lia|lia|exact Herr].
  - apply pow2_pos.
  - unfold magnitude. rewrite !inject_Z_mult, pow2_inject by lia.
    assert (E : (Qpower 2 e * Qpower 2 eb == Qpower 2 k * Qpower 2 (ea - 53))%Q).
    { rewrite <- !pow2_add. replace (k + (ea - 53)) with (e + eb) by (unfold k; lia).
      reflexivity. }
    transitivity (inject_Z (Z.pos m) * inject_Z (Z.pos mb)
                  * (Qpower 2 e * Qpower 2 eb))%Q; [ring|].
    rewrite E. ring.
  - unfold magnitude. rewrite !inject_Z_mult, pow2_inject by lia.
    rewrite <- Qmult_assoc, <- pow2_add.
    replace (53 + (ea - 53)) with ea by lia. reflexivity.
Qed.

Lemma SFmul_close (sa sb : bool) (ma mb : positive) (ea eb : Z) :
  2 ^ 52 <= Z.pos ma < 2 ^ 53 -> 2 ^ 52 <= Z.pos mb < 2 ^ 53 ->
  -500 <= ea <= 400 -> -500 <= eb <= 400 ->
  exists (m : positive) (e : Z),
    SFmul prec emax (S754_finite sa ma ea) (S754_finite sb mb eb)
    = S754_finite (xorb sa sb) m e
    /\ 2 ^ 52 <= Z.pos m < 2 ^ 53
    /\ ea + eb + 52 <= e <= ea + eb + 54
    /\ Qclose (magnitude m e) (magnitude ma ea * magnitude mb eb).
Proof.
  intros Hma Hmb Hea Heb.
  destruct (SFmul_normal sa sb ma mb ea eb Hma Hmb Hea Heb)
    as (m & e & Heq & Hm & He & Herr).
  exists m, e. split; [exact Heq|]. split; [exact Hm|]. split; [exact He|].
  set (k := e - (ea + eb)) in *.
  assert (Hk : 0 <= k) by (unfold k; lia).
  assert (H2k : 0 < 2 ^ k) by (apply Z.pow_pos_nonneg; lia).
  apply (Zclose_Qclose (Z.pos m * 2 ^ k * 1) (Z.pos ma * Z.pos mb)
           (Qpower 2 (ea + eb))).
  - apply half_ulp_Zclose; [lia|lia|lia|].
    rewrite !Z.mul_1_r. exact Herr.
  - apply pow2_pos.
  - unfold magnitude. rewrite !inject_Z_mult, pow2_inject by lia.
    assert (E : (Qpower 2 e == Qpower 2 k * Qpower 2 (ea + eb))%Q).
    { rewrite <- !pow2_add. replace (k + (ea + eb)) with e by (unfold k; lia).
      reflexivity. }
    rewrite E. change (inject_Z 1) with 1%Q. ring.
  - unfold magnitude. rewrite !inject_Z_mult, pow2_add. ring.
Qed.

(** ** The utilization value *)

Lemma float_of_int_nonzero (d : Z) :
  d <> 0 -> Z.abs d < 2 ^ 53 ->
  float_of_int d
  = inr (S754_finite (d <? 0) (normal_mantissa (Z.abs d))
                     (normal_exponent (Z.abs d))).
Proof.
  intros Hd Hb. unfold float_of_int, binary_normalize.
  destruct d as [|p|p]; [lia| |].
  - rewrite binary_round_small by (simpl in Hb; lia). reflexivity.
  - rewrite binary_round_small by (simpl in Hb; lia). reflexivity.
Qed.

Lemma normal_exponent_range (a : Z) :
  0 < a < 2 ^ 53 -> -52 <= normal_exponent a <= 0.
Proof.
  intros Ha. destruct (normal_mantissa_bounds a Ha) as [Hd _].
  unfold normal_exponent. lia.
Qed.

(** For operands that are exactly representable, the computed utilization
    is a finite double within two roundings of the exact quotient. *)
Lemma utilization_close (A M S : Z) :
  0 < A < 2 ^ 53 -> M * S <> 0 -> Z.abs (M * S) < 2 ^ 53 ->
  exists (m : positive) (e : Z) (qv : Q),
    utilization A M S = inr (S754_finite (M * S <? 0) m e)
    /\ Qclose (qv * inject_Z (Z.abs (M * S))) (inject_Z A)
    /\ Qclose (magnitude m e) (qv * 100).
Proof.
  intros HA HD0 HD. unfold utilization.
  set (D := M * S) in *.
  rewrite (float_of_int_nonzero D HD0 HD). cbn [rbind].
  unfold int_truediv_float.
  rewrite (float_of_int_nonzero A ltac:(lia) ltac:(lia)).
  replace (Z.abs A) with A by lia. replace (A <? 0) with false by lia.
  cbn [rbind]. unfold float_truediv. cbn [float_is_zero].
  assert (HDa : 0 < Z.abs D < 2 ^ 53) by lia.
  destruct (normal_mantissa_bounds A HA) as [_ [_ HmA]].
  destruct (normal_mantissa_bounds (Z.abs D) HDa) as [_ [_ HmD]].
  pose proof (normal_exponent_range A HA) as HeA.
  pose proof (normal_exponent_range (Z.abs D) HDa) as HeD.
  destruct (SFdiv_close false (D <? 0) (normal_mantissa A)
              (normal_mantissa (Z.abs D)) (normal_exponent A)
              (normal_exponent (Z.abs D)))
    as (mq & eq & Hdiv & Hmq & Heq & Hcq); [lia|lia|lia|lia|].
  rewrite Hdiv. cbn [rbind]. unfold float_mul_int.
  rewrite (float_of_int_nonzero 100 ltac:(lia) ltac:(simpl; lia)).
  cbn [rbind].
  assert (H100 : 0 < Z.abs 100 < 2 ^ 53) by (simpl; lia).
  destruct (normal_mantissa_bounds (Z.abs 100) H100) as [_ [_ Hm100]].
  pose proof (normal_exponent_range (Z.abs 100) H100) as He100.
  destruct (SFmul_close (xorb false (D <? 0)) (100 <? 0) mq
              (normal_mantissa (Z.abs 100)) eq (normal_exponent (Z.abs 100)))
    as (m & e & Hmul & Hm & He & Hc); [lia|lia|lia|lia|].
  rewrite Hmul. exists m, e, (magnitude mq eq).
  split.
  - do 2 f_equal. destruct (D <? 0); reflexivity.
  - split.
    + unfold Qclose in *.
      rewrite (magnitude_normal A HA), (magnitude_normal (Z.abs D) HDa) in Hcq.
      exact Hcq.
    + unfold Qclose in *.
      rewrite (magnitude_normal (Z.abs 100) H100) in Hc. exact Hc.
Qed.

Lemma exact_percent_scaled (A M S : Z) :
  0 < M * S ->
  (exact_percent A M S * 100 * inject_Z (M * S) == 10000 * inject_Z A)%Q.
Proof.
  intros HD. unfold exact_percent. field.
  intros E. apply (Qlt_irrefl 0). rewrite <- E at 2.
  rewrite <- (Zlt_Qlt 0). exact HD.
Qed.

Lemma utilization_zero (M S : Z) :
  0 < M * S < 2 ^ 53 -> utilization 0 M S = inr (S754_zero false).
Proof.
  intros HD. unfold utilization.
  rewrite (float_of_int_nonzero (M * S)) by lia.
  replace (M * S <? 0) with false by lia. reflexivity.
Qed.

(** Two roundings move the value by less than the distance between the
    exact quotient and the nearest rounding boundary. *)
Lemma round_after_two_roundings (A D n : Z) (qv W : Q) :
  0 < A <= 10 ^ 11 -> 0 < D ->
  (2 * n - 1) * D + 1 <= 20000 * A <= (2 * n + 1) * D - 1 ->
  Qclose (qv * inject_Z D) (inject_Z A) ->
  Qclose W (qv * 100) ->
  round_half_even (W * 100) = n.
Proof.
  intros HA HD [Hlo Hhi] [Hq1 Hq2] [Hw1 Hw2].
  change (inject_Z (2 ^ 53 - 1)) with (9007199254740991 # 1)%Q in *.
  change (inject_Z (2 ^ 53 + 1)) with (9007199254740993 # 1)%Q in *.
  change (inject_Z (2 ^ 53)) with (9007199254740992 # 1)%Q in *.
  assert (Hd : (0 < inject_Z D)%Q) by (rewrite <- (Zlt_Qlt 0); exact HD).
  set (d := inject_Z D) in *. set (a := inject_Z A) in *.
  assert (Ha : (0 < a /\ a <= 100000000000 # 1)%Q).
  { unfold a. split.
    - rewrite <- (Zlt_Qlt 0). lia.
    - change (100000000000 # 1)%Q with (inject_Z (10 ^ 11)).
      rewrite <- Zle_Qle. lia. }
  assert (Hlo' : 2 * (n * D) + 1 <= 20000 * A + D) by lia.
  assert (Hhi' : 20000 * A + 1 <= 2 * (n * D) + D) by lia.
  clear Hlo Hhi.
  rewrite Zle_Qle in Hlo', Hhi'.
  rewrite !inject_Z_plus, !inject_Z_mult in Hlo', Hhi'.
  fold d a in Hlo', Hhi'.
  change (inject_Z 2) with 2%Q in *. change (inject_Z 1) with 1%Q in *.
  change (inject_Z 20000) with 20000%Q in *.
  apply (Qmult_le_compat_r _ _ d) in Hw1, Hw2; try (apply Qlt_le_weak; exact Hd).
  set (X := (qv * d)%Q) in *.
  assert (EW1 : ((9007199254740992 # 1) * (qv * 100) * d
                 == (9007199254740992 # 1) * 100 * X)%Q) by (unfold X; ring).
  rewrite EW1 in Hw1, Hw2.
  assert (EY1 : ((9007199254740991 # 1) * W * d
                 == (9007199254740991 # 1) * (W * d))%Q) by ring.
  assert (EY2 : ((9007199254740993 # 1) * W * d
                 == (9007199254740993 # 1) * (W * d))%Q) by ring.
  rewrite EY1 in Hw1. rewrite EY2 in Hw2.
  set (Y := (W * d)%Q) in *.
  set (P := (inject_Z n * d)%Q) in *.
  apply round_half_even_unique.
  - apply (Qmult_lt_r _ _ d Hd).
    setoid_replace ((inject_Z n - (1 # 2)) * d)%Q with (P - (1 # 2) * d)%Q
      using relation Qeq by (unfold P; ring).
    setoid_replace (W * 100 * d)%Q with (100 * Y)%Q
      using relation Qeq by (unfold Y; ring).
    lra.
  - apply (Qmult_lt_r _ _ d Hd).
    setoid_replace ((inject_Z n + (1 # 2)) * d)%Q with (P + (1 # 2) * d)%Q
      using relation Qeq by (unfold P; ring).
    setoid_replace (W * 100 * d)%Q with (100 * Y)%Q
      using relation Qeq by (unfold Y; ring).
    lra.
Qed.

(** A quotient that is not halfway between two integers stays at least
    one numerator unit away from both rounding boundaries. *)
Lemma nearest_gap (A D : Z) (T : Q) :
  0 < D -> (T * inject_Z D == 10000 * inject_Z A)%Q -> ~ halfway T ->
  (2 * round_half_even T - 1) * D + 1 <= 20000 * A
  <= (2 * round_half_even T + 1) * D - 1.
Proof.
  intros HD HT Hnh.
  destruct (round_half_even_bounds T) as [Hlo Hhi].
  set (n := round_half_even T) in *.
  assert (Hd : (0 < inject_Z D)%Q) by (rewrite <- (Zlt_Qlt 0); exact HD).
  assert (Hdne : ~ (inject_Z D == 0)%Q).
  { intros E. rewrite E in Hd. exact (Qlt_irrefl 0 Hd). }
  apply (Qmult_le_compat_r _ _ (inject_Z D)) in Hlo, Hhi;
    try (apply Qlt_le_weak; exact Hd).
  rewrite HT in Hlo, Hhi.
  assert (Hlo' : 2 * (n * D) <= 20000 * A + D).
  { rewrite Zle_Qle, !inject_Z_plus, !inject_Z_mult.
    change (inject_Z 2) with 2%Q. change (inject_Z 20000) with 20000%Q.
    set (P := (inject_Z n * inject_Z D)%Q).
    setoid_replace ((inject_Z n - (1 # 2)) * inject_Z D)%Q
      with (P - (1 # 2) * inject_Z D)%Q using relation Qeq in Hlo
      by (unfold P; ring).
    lra. }
  assert (Hhi' : 20000 * A <= 2 * (n * D) + D).
  { rewrite Zle_Qle, !inject_Z_plus, !inject_Z_mult.
    change (inject_Z 2) with 2%Q. change (inject_Z 20000) with 20000%Q.
    set (P := (inject_Z n * inject_Z D)%Q).
    setoid_replace ((inject_Z n + (1 # 2)) * inject_Z D)%Q
      with (P + (1 # 2) * inject_Z D)%Q using relation Qeq in Hhi
      by (unfold P; ring).
    lra. }
  assert (Hne1 : 2 * (n * D) <> 20000 * A + D).
  { intros E. apply Hnh. exists (n - 1).
    apply (Qmult_inj_r _ _ (inject_Z D) Hdne). rewrite HT.
    apply (f_equal inject_Z) in E.
    rewrite !inject_Z_plus, !inject_Z_mult in E.
    change (inject_Z 2) with 2%Q in E. change (inject_Z 20000) with 20000%Q in E.
    replace (n - 1) with (n + -1) by lia. rewrite inject_Z_plus.
    change (inject_Z (-1)) with (-1 # 1)%Q.
    set (P := (inject_Z n * inject_Z D)%Q) in *.
    setoid_replace ((inject_Z n + (-1 # 1) + (1 # 2)) * inject_Z D)%Q
      with (P - (1 # 2) * inject_Z D)%Q using relation Qeq
      by (unfold P; ring).
    assert (E' : (2 * P == 20000 * inject_Z A + inject_Z D)%Q)
      by (rewrite E; reflexivity).
    lra. }
  assert (Hne2 : 20000 * A <> 2 * (n * D) + D).
  { intros E. apply Hnh. exists n.
    apply (Qmult_inj_r _ _ (inject_Z D) Hdne). rewrite HT.
    apply (f_equal inject_Z) in E.
    rewrite !inject_Z_plus, !inject_Z_mult in E.
    change (inject_Z 2) with 2%Q in E. change (inject_Z 20000) with 20000%Q in E.
    set (P := (inject_Z n * inject_Z D)%Q) in *.
    setoid_replace ((inject_Z n + (1 # 2)) * inject_Z D)%Q
      with (P + (1 # 2) * inject_Z D)%Q using relation Qeq
      by (unfold P; ring).
    assert (E' : (20000 * inject_Z A == 2 * P + inject_Z D)%Q)
      by (rewrite E; reflexivity).
    lra. }
  lia.
Qed.

Lemma pad2_length (k : Z) : 0 <= k < 100 -> String.length (pad2 k) = 2%nat.
Proof.
  intros Hk.
  assert (H : forallb (fun i => Nat.eqb (String.length (pad2 (Z.of_nat i))) 2)
                      (seq 0 100) = true) by (vm_compute; reflexivity).
  rewrite forallb_forall in H.
  specialize (H (Z.to_nat k)).
  rewrite Z2Nat.id in H by lia.
  apply Nat.eqb_eq, H, in_seq. lia.
Qed.

(** C1, as amended.  For a room with [S > 0] seats, [M >= 1] events and [A]
    non-declined attendees (with [M * S < 2^53] and [A <= 10^11]), the
    utilization is computed without error and, whenever the exact quotient
    [100 * A / (M * S)] is not exactly halfway between two hundredths, the
    rendered value is that quotient rounded to the nearest hundredth,
    printed with exactly two decimals. *)
Theorem utilization_is_nearest_hundredth (A M S : Z) :
  0 < S -> 1 <= M -> 0 <= A <= 10 ^ 11 -> M * S < 2 ^ 53 ->
  ~ halfway (exact_percent A M S * 100) ->
  exists util : spec_float,
    utilization A M S = inr util
    /\ format_2f util
       = format_hundredths false
           (round_half_even (exact_percent A M S * 100))
    /\ String.length
         (pad2 (round_half_even (exact_percent A M S * 100) mod 100)) = 2%nat.
Proof.
  intros HS HM HA HD Hnh.
  assert (HD0 : 0 < M * S) by nia.
  assert (Hlen : String.length
            (pad2 (round_half_even (exact_percent A M S * 100) mod 100)) = 2%nat).
  { apply pad2_length. apply Z.mod_pos_bound. lia. }
  destruct (Z.eq_dec A 0) as [E|E].
  - subst A. exists (S754_zero false).
    split; [apply utilization_zero; lia|]. split; [|exact Hlen].
    reflexivity.
  - destruct (utilization_close A M S) as (m & e & qv & Hu & Hq & Hw);
      [lia|lia|lia|].
    replace (M * S <? 0) with false in Hu by lia.
    replace (Z.abs (M * S)) with (M * S) in Hq by lia.
    exists (S754_finite false m e).
    split; [exact Hu|]. split; [|exact Hlen].
    cbn [format_2f]. f_equal.
    apply (round_after_two_roundings A (M * S) _ qv); try assumption; [lia|].
    apply nearest_gap; [exact HD0| |exact Hnh].
    apply exact_percent_scaled. exact HD0.
Qed.

Lemma utilization_is_nearest_hundredth_witness :
  exists util : spec_float,
    utilization 2 3 4 = inr util
    /\ format_2f util
       = format_hundredths false (round_half_even (exact_percent 2 3 4 * 100))
    /\ String.length
         (pad2 (round_half_even (exact_percent 2 3 4 * 100) mod 100)) = 2%nat.
Proof.
  apply (utilization_is_nearest_hundredth 2 3 4); [lia|lia|lia|lia|].
  intros [k Hk]. unfold Qeq in Hk. simpl in Hk. lia.
Defined.

(** C1 as stated fails: 23 attendees over 20 meetings in an 8-seat room is
    exactly 14.375 percent, which rounds to 14.38, yet the two roundings of
    the double computation land just below and the report shows 14.37.  A
    tie with the same digits, 9.375 percent, is shown as 9.38. *)
Lemma utilization_tie_rendered_low :
  (exact_percent 23 20 8 == 14375 # 1000)%Q
  /\ format_hundredths false (round_half_even (exact_percent 23 20 8 * 100))
     = "14.38"%string
  /\ rbind (utilization 23 20 8) (fun util => inr (format_2f util))
     = inr "14.37"%string
  /\ (exact_percent 3 1 32 == 9375 # 1000)%Q
  /\ rbind (utilization 3 1 32) (fun util => inr (format_2f util))
     = inr "9.38"%string.
Proof. repeat split; vm_compute; reflexivity. Qed.

(** ** Counting attendees *)

Lemma jscalar_eqb_eq (a b : jscalar) : jscalar_eqb a b = true <-> a = b.
Proof.
  destruct a, b; simpl; split; intros H; try discriminate; try reflexivity.
  - apply String.eqb_eq in H. congruence.
  - inversion H. apply String.eqb_refl.
  - apply Z.eqb_eq in H. congruence.
  - inversion H. apply Z.eqb_refl.
  - apply Bool.eqb_prop in H. congruence.
  - inversion H. apply Bool.eqb_reflx.
Qed.

Lemma not_declined_spec (a : attendee) :
  has_response_status a ->
  not_declined a = inr (bool_decide (~ declined a)).
Proof.
  intros [v Hv]. unfold not_declined, declined. rewrite Hv. f_equal.
  destruct (jscalar_eqb v (JStr "declined")) eqn:E.
  - apply jscalar_eqb_eq in E. subst v.
    rewrite bool_decide_eq_false_2; [reflexivity|]. intros H. apply H. reflexivity.
  - rewrite bool_decide_eq_true_2; [reflexivity|]. intros H.
    assert (v = JStr "declined") as Hv' by congruence.
    apply jscalar_eqb_eq in Hv'. congruence.
Qed.

Lemma count_not_declined_filter (l : list attendee) :
  Forall has_response_status l ->
  count_not_declined l
  = inr (Z.of_nat (length (filter (fun a => ~ declined a) l))).
Proof.
  induction 1 as [|a l Ha Hl IH]; [reflexivity|].
  cbn [count_not_declined]. rewrite (not_declined_spec a Ha), IH. cbn [rbind].
  rewrite filter_cons. f_equal.
  destruct (decide (~ declined a)) as [Hd|Hd].
  - rewrite bool_decide_eq_true_2 by exact Hd. cbn [length]. lia.
  - rewrite bool_decide_eq_false_2 by exact Hd. reflexivity.
Qed.

Lemma count_not_declined_missing (l : list attendee) :
  Exists (fun a => ~ has_response_status a) l ->
  count_not_declined l = inl (KeyError "responseStatus").
Proof.
  induction l as [|a l IH]; intros H; [inversion H|].
  cbn [count_not_declined]. unfold not_declined at 1.
  destruct (a !! "responseStatus"%string) as [v|] eqn:Ea; [|reflexivity].
  cbn [rbind].
  inversion H as [? ? Hbad|? ? Hrest]; subst.
  - exfalso. apply Hbad. exists v. exact Ea.
  - rewrite (IH Hrest). reflexivity.
Qed.

Lemma count_not_declined_nonneg (l : list attendee) (n : Z) :
  count_not_declined l = inr n -> 0 <= n.
Proof.
  revert n. induction l as [|a l IH]; intros n H.
  - inversion H. lia.
  - cbn [count_not_declined] in H.
    destruct (not_declined a) as [e|keep]; [discriminate|]. cbn [rbind] in H.
    destruct (count_not_declined l) as [e|k]; [discriminate|]. cbn [rbind] in H.
    specialize (IH k eq_refl). destruct keep; inversion H; lia.
Qed.

Lemma event_contribution_nonneg (ev : event) (n : Z) :
  event_contribution ev = inr n -> 0 <= n.
Proof.
  unfold event_contribution. destruct (attendees ev) as [l|].
  - apply count_not_declined_nonneg.
  - intros H. inversion H. lia.
Qed.

Lemma count_attendees_nonneg (events : list event) (acc n : Z) :
  0 <= acc -> count_attendees events acc = inr n -> 0 <= n.
Proof.
  revert acc. induction events as [|ev events IH]; intros acc Hacc H.
  - inversion H. lia.
  - cbn [count_attendees] in H.
    destruct (event_contribution ev) as [e|k] eqn:Ek; [discriminate|].
    cbn [rbind] in H. apply event_contribution_nonneg in Ek.
    apply (IH (acc + k)); [lia|exact H].
Qed.

Lemma count_not_declined_error (l : list attendee) (e : exn) :
  count_not_declined l = inl e -> e = KeyError "responseStatus".
Proof.
  induction l as [|a l IH]; intros H; [discriminate|].
  cbn [count_not_declined] in H. unfold not_declined in H.
  destruct (a !! "responseStatus"%string) as [v|]; cbn [rbind] in H.
  - destruct (count_not_declined l) as [e'|k]; cbn [rbind] in H.
    + inversion H; subst. apply IH. reflexivity.
    + discriminate.
  - inversion H. reflexivity.
Qed.

Lemma count_attendees_error (events : list event) (acc : Z) (e : exn) :
  count_attendees events acc = inl e -> e = KeyError "responseStatus".
Proof.
  revert acc. induction events as [|ev events IH]; intros acc H; [discriminate|].
  cbn [count_attendees] in H.
  destruct (event_contribution ev) as [e'|k] eqn:Ek; cbn [rbind] in H.
  - inversion H; subst. unfold event_contribution in Ek.
    destruct (attendees ev); [|discriminate].
    apply (count_not_declined_error _ _ Ek).
  - apply (IH _ H).
Qed.

Lemma event_contribution_malformed (ev : event) :
  has_malformed_attendee ev ->
  event_contribution ev = inl (KeyError "responseStatus").
Proof.
  intros (l & Hl & Hbad). unfold event_contribution. rewrite Hl.
  apply count_not_declined_missing. exact Hbad.
Qed.

Lemma event_contribution_well_formed (ev : event) :
  well_formed_event ev -> exists n, event_contribution ev = inr n.
Proof.
  intros Hwf. unfold event_contribution.
  destruct (attendees ev) as [l|] eqn:El; [|exists 1; reflexivity].
  rewrite (count_not_declined_filter l (Hwf l El)). eexists. reflexivity.
Qed.

Lemma count_attendees_malformed (events : list event) (acc : Z) :
  Exists has_malformed_attendee events ->
  count_attendees events acc = inl (KeyError "responseStatus").
Proof.
  revert acc. induction events as [|ev events IH]; intros acc H; [inversion H|].
  cbn [count_attendees].
  inversion H as [? ? Hbad|? ? Hrest]; subst.
  - rewrite (event_contribution_malformed ev Hbad). reflexivity.
  - destruct (event_contribution ev) as [e|k] eqn:Ek; cbn [rbind].
    + f_equal. unfold event_contribution in Ek.
      destruct (attendees ev); [|discriminate].
      apply (count_not_declined_error _ _ Ek).
    + apply IH. exact Hrest.
Qed.

Lemma count_attendees_well_formed (events : list event) (acc : Z) :
  Forall well_formed_event events -> exists n, count_attendees events acc = inr n.
Proof.
  intros H. revert acc. induction H as [|ev events Hev Hl IH]; intros acc.
  - exists acc. reflexivity.
  - cbn [count_attendees].
    destruct (event_contribution_well_formed ev Hev) as [k Hk].
    rewrite Hk. cbn [rbind]. apply IH.
Qed.

Lemma every_status_present_true (l : list attendee) :
  every_status_present l = true -> Forall has_response_status l.
Proof.
  induction l as [|a l IH]; intros H; [constructor|].
  cbn [every_status_present forallb] in H. apply andb_prop in H as [Ha Hl].
  constructor; [|apply IH, Hl].
  apply bool_decide_eq_true in Ha. exact Ha.
Qed.

Lemma every_status_present_false (l : list attendee) :
  every_status_present l = false ->
  Exists (fun a => ~ has_response_status a) l.
Proof.
  induction l as [|a l IH]; intros H; [discriminate|].
  cbn [every_status_present forallb] in H.
  apply andb_false_iff in H as [Ha|Hl].
  - left. apply bool_decide_eq_false in Ha. exact Ha.
  - right. apply IH, Hl.
Qed.

Lemma count_not_declined_decided (l : list attendee) :
  count_not_declined l
  = if every_status_present l
    then inr (Z.of_nat (length (filter (fun a => ~ declined a) l)))
    else inl (KeyError "responseStatus").
Proof.
  destruct (every_status_present l) eqn:E.
  - apply count_not_declined_filter, every_status_present_true, E.
  - apply count_not_declined_missing, every_status_present_false, E.
Qed.

Lemma event_contribution_decided (ev : event) :
  event_contribution ev
  = if match attendees ev with
       | None => true
       | Some l => every_status_present l
       end
    then inr (specified_contribution ev)
    else inl (KeyError "responseStatus").
Proof.
  unfold event_contribution, specified_contribution.
  destruct (attendees ev) as [l|]; [|reflexivity].
  apply count_not_declined_decided.
Qed.

(** The count of a room, in closed form: the running count plus the
    contributions of all the events, unless some entry lacks its status. *)
Lemma count_attendees_decided (events : list event) (acc : Z) :
  count_attendees events acc
  = if events_well_formed events
    then inr (acc + specified_attendee_count events)
    else inl (KeyError "responseStatus").
Proof.
  revert acc. induction events as [|ev events IH]; intros acc.
  - cbn. f_equal. lia.
  - cbn [count_attendees events_well_formed forallb specified_attendee_count
         foldr].
    rewrite event_contribution_decided.
    destruct (match attendees ev with
              | None => true
              | Some l => every_status_present l
              end); [|reflexivity].
    cbn [rbind andb]. rewrite IH.
    fold (events_well_formed events).
    destruct (events_well_formed events); [|reflexivity].
    fold (specified_attendee_count events). f_equal. lia.
Qed.

(** ** The room loop *)

Lemma bind_inr {A B : Type} (m : py A) (k : A -> py B) (w w' : world) (a : A) :
  m w = (inr a, w') -> bind m k w = k a w'.
Proof. intros H. unfold bind. rewrite H. reflexivity. Qed.

Lemma bind_inl {A B : Type} (m : py A) (k : A -> py B) (w w' : world) (e : exn) :
  m w = (inl e, w') -> bind m k w = (inl e, w').
Proof. intros H. unfold bind. rewrite H. reflexivity. Qed.

Lemma print_printed (line : string) (w : world) :
  print line w = (inr tt, printed line w).
Proof. reflexivity. Qed.

Lemma raise_for_status_ok (r : http_response) (w : world) :
  status_ok r -> raise_for_status r w = (inr tt, w).
Proof. unfold status_ok, raise_for_status. intros ->. reflexivity. Qed.

(** What the loop body does once the request for the room has succeeded. *)
Lemma room_step_fetched (svc : services) (sd ed : datetime) (s s' : session)
    (strs : list string) (room : room) (w w' : world) (resp : http_response)
    (body : events_body) :
  session_get svc s (events_url svc (url room)) (events_params svc sd ed)
              (printed (grabbing_line room) w) = (inr (resp, s'), w') ->
  status_ok resp -> json_body resp = Some body ->
  room_step svc sd ed (s, strs) room w
  = match default [] (items body) with
    | [] => (inr (s', strs),
             printed ("No events found for room: " +:+ name room) w')
    | ev :: evs =>
        match count_attendees (ev :: evs) 0 with
        | inl e => (inl e, w')
        | inr number_of_attendees =>
            match utilization number_of_attendees
                    (Z.of_nat (length (ev :: evs))) (room_seats room) with
            | inl e => (inl e, w')
            | inr util =>
                (inr (s', strs ++ [room_line (name room) util]), w')
            end
        end
    end.
Proof.
  intros Hget Hok Hbody. unfold room_step.
  rewrite (bind_inr _ _ _ _ _ (print_printed _ w)).
  cbn [fst snd]. rewrite (bind_inr _ _ _ _ _ Hget). cbn [fst snd].
  rewrite (bind_inr _ _ _ _ _ (raise_for_status_ok resp w' Hok)).
  unfold response_json. rewrite Hbody.
  unfold bind at 1. unfold ret at 1.
  destruct (default [] (items body)) as [|ev evs]; [reflexivity|].
  unfold bind, lift, ret.
  destruct (count_attendees (ev :: evs) 0) as [e|n]; [reflexivity|].
  destruct (utilization n (Z.of_nat (length (ev :: evs))) (room_seats room));
    reflexivity.
Qed.

Lemma rooms_loop_app (svc : services) (sd ed : datetime)
    (pre post : list room) (st : session * list string) (w : world) :
  rooms_loop svc sd ed (pre ++ post) st w
  = match rooms_loop svc sd ed pre st w with
    | (inl e, w') => (inl e, w')
    | (inr st', w') => rooms_loop svc sd ed post st' w'
    end.
Proof.
  revert st w. induction pre as [|room pre IH]; intros st w; [reflexivity|].
  cbn [app rooms_loop]. unfold bind.
  destruct (room_step svc sd ed st room w) as [[e|st'] w']; [reflexivity|].
  apply IH.
Qed.

Lemma main_split (svc : services) (a : argv) (w : world) :
  main svc a w
  = match resolve_date_range svc a w with
    | (inl e, w') => (inl e, w')
    | (inr r, w') => run_report svc (fst r) (snd r) w'
    end.
Proof.
  unfold main, resolve_date_range, run_report, bind, utcnow, lift.
  destruct (utc_localize _) as [e|utc_now]; [reflexivity|].
  destruct (minus_days utc_now 30) as [e|ago]; [reflexivity|].
  destruct (parse_args _ a w) as [[e|args] w']; reflexivity.
Qed.

(** An error of the room loop is the outcome of the whole run: nothing on
    the way back to [main] catches it, and the report is never posted. *)
Lemma main_loop_error (svc : services) (a : argv) (utc_now sd ed : datetime)
    (rooms : list room) (s0 : session) (e : exn) (wa w1 w2 w3 w4 : world) :
  resolve_date_range svc a wa = (inr (utc_now, Args sd ed), w1) ->
  read_room_list_from_json w1 = (inr rooms, w2) ->
  create_google_oauth_session svc
    ["https://www.googleapis.com/auth/calendar.readonly"%string] w2
  = (inr s0, w3) ->
  rooms_loop svc sd ed rooms (s0, [])
    (printed "Generating Room Utilization Report..." w3) = (inl e, w4) ->
  main svc a wa = (inl e, w4).
Proof.
  intros Hres Hrooms Hsess Hloop.
  rewrite main_split, Hres. cbn [fst snd]. unfold run_report.
  rewrite (bind_inr _ _ _ _ _ Hrooms). cbn [start_date end_date].
  apply bind_inl. unfold generate_room_util_report.
  rewrite (bind_inr _ _ _ _ _ Hsess).
  rewrite (bind_inr _ _ _ _ _ (print_printed _ w3)).
  apply bind_inl. exact Hloop.
Qed.

(** C2.  An event without an ['attendees'] field contributes exactly 1; an
    event with one contributes the number of its entries whose response
    status is not "declined" (and counting fails when an entry has no
    status).  The attendee count of a room is the sum of the contributions
    of its events, and that sum is the count that enters the utilization
    printed on the room's line.  An event with one declined and one
    accepted attendee contributes 1. *)
Theorem event_contribution_counts_non_declined
    (ev : event) (events : list event) (acc : Z) :
  (attendees ev = None -> event_contribution ev = inr 1)
  /\ (forall l, attendees ev = Some l ->
        event_contribution ev
        = if every_status_present l
          then inr (Z.of_nat (length (filter (fun a => ~ declined a) l)))
          else inl (KeyError "responseStatus"))
  /\ count_attendees events acc
     = (if events_well_formed events
        then inr (acc + specified_attendee_count events)
        else inl (KeyError "responseStatus"))
  /\ (forall svc sd ed s s' strs rm w w' resp body,
        session_get svc s (events_url svc (url rm)) (events_params svc sd ed)
                    (printed (grabbing_line rm) w) = (inr (resp, s'), w') ->
        status_ok resp -> json_body resp = Some body ->
        items body = Some (ev :: events) ->
        events_well_formed (ev :: events) = true ->
        room_step svc sd ed (s, strs) rm w
        = match utilization (specified_attendee_count (ev :: events))
                  (Z.of_nat (length (ev :: events))) (room_seats rm) with
          | inl e => (inl e, w')
          | inr util =>
              (inr (s', strs ++ [(name rm +:+ " Utilization %: "
                                  +:+ format_2f util)%string]), w')
          end)
  /\ event_contribution
       (Event (Some [status_attendee "declined"; status_attendee "accepted"]))
     = inr 1.
Proof.
  split; [|split; [|split; [|split]]].
  - intros H. unfold event_contribution. rewrite H. reflexivity.
  - intros l H. unfold event_contribution. rewrite H.
    apply count_not_declined_decided.
  - apply count_attendees_decided.
  - intros svc sd ed s s' strs rm w w' resp body Hget Hok Hbody Hitems Hwf.
    rewrite (room_step_fetched svc sd ed s s' strs rm w w' resp body Hget Hok
               Hbody).
    rewrite Hitems. change (default [] (Some (ev :: events))) with (ev :: events).
    cbv beta iota.
    rewrite (count_attendees_decided (ev :: events) 0), Hwf.
    rewrite Z.add_0_l. reflexivity.
  - vm_compute. reflexivity.
Qed.

(** C3.  When the calendar query of a room returns no events (the
    ['items'] array is absent or empty), the loop only logs the fact and
    goes on with the next room: the lines collected so far are unchanged,
    so the room has no line in the report, not even one showing 0. *)
Theorem room_without_events_is_skipped (svc : services) (sd ed : datetime)
    (s s' : session) (strs : list string) (rm : room) (rest : list room)
    (w w' : world) (resp : http_response) (body : events_body) :
  session_get svc s (events_url svc (url rm)) (events_params svc sd ed)
              (printed (grabbing_line rm) w) = (inr (resp, s'), w') ->
  status_ok resp -> json_body resp = Some body ->
  items body = None \/ items body = Some [] ->
  rooms_loop svc sd ed (rm :: rest) (s, strs) w
  = rooms_loop svc sd ed rest (s', strs)
      (printed ("No events found for room: " +:+ name rm) w').
Proof.
  intros Hget Hok Hbody Hitems. cbn [rooms_loop].
  apply bind_inr.
  rewrite (room_step_fetched svc sd ed s s' strs rm w w' resp body Hget Hok Hbody).
  destruct Hitems as [-> | ->]; reflexivity.
Qed.

Lemma room_without_events_is_skipped_witness :
  rooms_loop example_services (datetime_of_date 2021 1 1)
    (datetime_of_date 2021 1 31)
    [example_attic]
    (example_session, ["Fishbowl Utilization %: 25.00"%string])
    (example_later_run example_rooms)
  = rooms_loop example_services (datetime_of_date 2021 1 1)
      (datetime_of_date 2021 1 31) []
      (example_session, ["Fishbowl Utilization %: 25.00"%string])
      (printed "No events found for room: Attic"
         (printed
            "Grabbing data for room Attic (URL: attic@resource.calendar.google.com"
            (example_later_run example_rooms))).
Proof.
  apply (room_without_events_is_skipped example_services _ _ example_session
           example_session _ example_attic [] _ _ (HttpResponse 200 (Some (EventsBody None))) (EventsBody None)).
  - reflexivity.
  - reflexivity.
  - reflexivity.
  - left. reflexivity.
Defined.

(** ** Rooms without seats *)

Lemma float_of_int_small_ok (n : Z) :
  0 <= n < 2 ^ 53 -> exists f, float_of_int n = inr f.
Proof.
  intros Hn. destruct (Z.eq_dec n 0) as [->|Hne].
  - exists (S754_zero false). reflexivity.
  - rewrite float_of_int_nonzero by lia. eexists. reflexivity.
Qed.

(** With no seats the capacity is [0.0] and the division raises, unless
    converting the attendee count already did. *)
Lemma utilization_zero_seats (A M : Z) :
  utilization A M 0
  = match float_of_int A with
    | inl e => inl e
    | inr _ => inl ZeroDivisionError
    end.
Proof.
  unfold utilization. rewrite Z.mul_0_r.
  change (float_of_int 0) with (@inr exn _ (S754_zero false)).
  cbn [rbind]. unfold int_truediv_float.
  destruct (float_of_int A) as [e|a]; reflexivity.
Qed.

(** When the loop reaches a room without seats whose query returned at
    least one event, the loop stops with an error: [ZeroDivisionError]
    whenever the attendees were counted (below 2^53 of them). *)
Lemma zero_seat_room_stops_loop (svc : services) (sd ed : datetime)
    (s s' : session) (strs : list string) (rm : room) (pre rest : list room)
    (st0 : session * list string) (w0 w w' : world) (resp : http_response)
    (body : events_body) (ev : event) (evs : list event) :
  rooms_loop svc sd ed pre st0 w0 = (inr (s, strs), w) ->
  session_get svc s (events_url svc (url rm)) (events_params svc sd ed)
              (printed (grabbing_line rm) w) = (inr (resp, s'), w') ->
  status_ok resp -> json_body resp = Some body ->
  items body = Some (ev :: evs) ->
  room_seats rm = 0 ->
  (exists e, rooms_loop svc sd ed (pre ++ rm :: rest) st0 w0 = (inl e, w'))
  /\ (forall n, count_attendees (ev :: evs) 0 = inr n -> n < 2 ^ 53 ->
        rooms_loop svc sd ed (pre ++ rm :: rest) st0 w0
        = (inl ZeroDivisionError, w')).
Proof.
  intros Hpre Hget Hok Hbody Hitems Hseats.
  assert (Hstep : room_step svc sd ed (s, strs) rm w
            = match count_attendees (ev :: evs) 0 with
              | inl e => (inl e, w')
              | inr n => match float_of_int n with
                         | inl e => (inl e, w')
                         | inr _ => (inl ZeroDivisionError, w')
                         end
              end).
  { rewrite (room_step_fetched svc sd ed s s' strs rm w w' resp body Hget Hok Hbody).
    rewrite Hitems. change (default [] (Some (ev :: evs))) with (ev :: evs).
    cbv beta iota.
    destruct (count_attendees (ev :: evs) 0) as [e|n]; [reflexivity|].
    rewrite Hseats, utilization_zero_seats.
    destruct (float_of_int n); reflexivity. }
  assert (Hloop : rooms_loop svc sd ed (pre ++ rm :: rest) st0 w0
            = match room_step svc sd ed (s, strs) rm w with
              | (inl e, w1) => (inl e, w1)
              | (inr st1, w1) => rooms_loop svc sd ed rest st1 w1
              end).
  { rewrite rooms_loop_app, Hpre. reflexivity. }
  rewrite Hloop, Hstep. split.
  - destruct (count_attendees (ev :: evs) 0) as [e|n]; [eexists; reflexivity|].
    destruct (float_of_int n); eexists; reflexivity.
  - intros n Hn Hb. rewrite Hn.
    destruct (float_of_int_small_ok n) as [f Hf].
    + split; [|exact Hb]. apply (count_attendees_nonneg (ev :: evs) 0 n); [lia|exact Hn].
    + rewrite Hf. reflexivity.
Qed.

(** C4.  When the run reaches a room with [room_seats = 0] whose query
    returned at least one event, it fails: nothing guards the division and
    nothing catches the error, so [main] ends with it and no task is
    posted.  The error is [ZeroDivisionError] whenever the attendees were
    counted (below 2^53 of them). *)
Theorem zero_seat_room_divides_by_zero (svc : services) (a : argv)
    (utc_now sd ed : datetime) (s0 s s' : session) (strs : list string)
    (rm : room) (pre rest : list room) (wa w1 w2 w3 w w' : world)
    (resp : http_response) (body : events_body) (ev : event)
    (evs : list event) :
  resolve_date_range svc a wa = (inr (utc_now, Args sd ed), w1) ->
  read_room_list_from_json w1 = (inr (pre ++ rm :: rest), w2) ->
  create_google_oauth_session svc
    ["https://www.googleapis.com/auth/calendar.readonly"%string] w2
  = (inr s0, w3) ->
  rooms_loop svc sd ed pre (s0, [])
    (printed "Generating Room Utilization Report..." w3)
  = (inr (s, strs), w) ->
  session_get svc s (events_url svc (url rm)) (events_params svc sd ed)
              (printed (grabbing_line rm) w) = (inr (resp, s'), w') ->
  status_ok resp -> json_body resp = Some body ->
  items body = Some (ev :: evs) ->
  room_seats rm = 0 ->
  (exists e, main svc a wa = (inl e, w'))
  /\ (forall n, count_attendees (ev :: evs) 0 = inr n -> n < 2 ^ 53 ->
        main svc a wa = (inl ZeroDivisionError, w')).
Proof.
  intros Hres Hrooms Hsess Hpre Hget Hok Hbody Hitems Hseats.
  destruct (zero_seat_room_stops_loop svc sd ed s s' strs rm pre rest
              (s0, []) _ w w' resp body ev evs Hpre Hget Hok Hbody Hitems
              Hseats) as [[e He] Hzero].
  split.
  - exists e.
    apply (main_loop_error svc a utc_now sd ed _ s0 e wa w1 w2 w3 w'
             Hres Hrooms Hsess He).
  - intros n Hn Hb.
    apply (main_loop_error svc a utc_now sd ed _ s0 _ wa w1 w2 w3 w'
             Hres Hrooms Hsess (Hzero n Hn Hb)).
Qed.

Lemma zero_seat_room_divides_by_zero_witness :
  (exists e,
     main example_services (Argv None None)
       (example_later_run [example_fishbowl; example_closet; example_attic])
     = (inl e,
        printed (grabbing_line example_closet)
          (printed (grabbing_line example_fishbowl)
             (printed "Generating Room Utilization Report..."
                (example_later_run
                   [example_fishbowl; example_closet; example_attic])))))
  /\ (forall n, count_attendees example_events 0 = inr n -> n < 2 ^ 53 ->
        main example_services (Argv None None)
          (example_later_run [example_fishbowl; example_closet; example_attic])
        = (inl ZeroDivisionError,
           printed (grabbing_line example_closet)
             (printed (grabbing_line example_fishbowl)
                (printed "Generating Room Utilization Report..."
                   (example_later_run
                      [example_fishbowl; example_closet; example_attic]))))).
Proof.
  apply (zero_seat_room_divides_by_zero example_services (Argv None None)
           (Datetime (ymd2ord 2021 1 31) 0 (Some UTC))
           (Datetime (ymd2ord 2021 1 1) 0 (Some UTC))
           (Datetime (ymd2ord 2021 1 31) 0 (Some UTC))
           example_session example_session example_session
           ["Fishbowl Utilization %: 25.00"%string]
           example_closet [example_fishbowl] [example_attic]
           (example_later_run [example_fishbowl; example_closet; example_attic])
           (example_later_run [example_fishbowl; example_closet; example_attic])
           (example_later_run [example_fishbowl; example_closet; example_attic])
           (example_later_run [example_fishbowl; example_closet; example_attic])
           (printed (grabbing_line example_fishbowl)
              (printed "Generating Room Utilization Report..."
                 (example_later_run
                    [example_fishbowl; example_closet; example_attic])))
           (printed (grabbing_line example_closet)
              (printed (grabbing_line example_fishbowl)
                 (printed "Generating Room Utilization Report..."
                    (example_later_run
                       [example_fishbowl; example_closet; example_attic]))))
           (HttpResponse 200 (Some (EventsBody (Some example_events))))
           (EventsBody (Some example_events))
           (Event None)
           [Event (Some [status_attendee "declined"; status_attendee "accepted"])]).
  - vm_compute. reflexivity.
  - reflexivity.
  - vm_compute. reflexivity.
  - vm_compute. reflexivity.
  - reflexivity.
  - reflexivity.
  - reflexivity.
  - reflexivity.
  - reflexivity.
Defined.

(** ** The OAuth session *)

Lemma json_load_found (path : string) (d : file_data) (w : world) :
  fs w !! path = Some d -> d <> NotJson -> json_load path w = (inr d, w).
Proof.
  intros H Hd. unfold json_load. rewrite H. destruct d; congruence.
Qed.

Lemma path_exists_spec (path : string) (w : world) :
  path_exists path w = (inr (bool_decide (is_Some (fs w !! path))), w).
Proof. reflexivity. Qed.

(** The interactive branch is the only one that touches the terminal. *)
Lemma cached_branch_is_silent (svc : services) (scopes : list string)
    (w : world) :
  is_Some (fs w !! TOKEN_FILE) ->
  stdin (snd (create_google_oauth_session svc scopes w)) = stdin w
  /\ stdout (snd (create_google_oauth_session svc scopes w)) = stdout w.
Proof.
  intros [t Ht]. unfold create_google_oauth_session, bind, json_load, path_exists.
  destruct (fs w !! CLIENT_SECRET_FILE) as [d|]; [|split; reflexivity].
  destruct d; try (split; reflexivity).
  rewrite Ht. rewrite bool_decide_eq_true_2 by (eexists; reflexivity).
  cbv beta iota zeta. rewrite Ht.
  destruct t; split; reflexivity.
Qed.

Lemma create_google_oauth_session_loaded (svc : services)
    (scopes : list string) (w : world) (cs : client_secret)
    (doc : file_data) :
  fs w !! CLIENT_SECRET_FILE = Some (ClientSecretJson cs) ->
  fs w !! TOKEN_FILE = Some doc -> doc <> NotJson ->
  create_google_oauth_session svc scopes w = (inr (loaded_session cs doc), w).
Proof.
  intros Hcs Htok Hdoc. unfold create_google_oauth_session.
  rewrite (bind_inr _ _ w w _ (json_load_found _ _ _ Hcs ltac:(discriminate))).
  rewrite (bind_inr _ _ w w _ (path_exists_spec _ w)).
  rewrite bool_decide_eq_true_2 by (rewrite Htok; eexists; reflexivity).
  rewrite (bind_inr _ _ w w _ (json_load_found _ _ _ Htok Hdoc)).
  reflexivity.
Qed.

(** A request through a session whose token has expired: the token is
    refreshed and saved; the request is sent when the fresh token has an
    access token and carries an expiry time that has not passed, and fails
    otherwise. *)
Lemma session_get_refreshed (svc : services) (s : session)
    (token fresh : oauth_token) (refresh_url target : string)
    (params : query) (w : world) :
  session_token s = Some (TokenJson token) ->
  auto_refresh_url s = Some refresh_url ->
  token_updater s = Some save_token_as_json ->
  access_token token <> ""%string ->
  expired_at token w = true ->
  token_endpoint_refresh svc refresh_url (fst (auto_refresh_kwargs s))
    (snd (auto_refresh_kwargs s)) (refresh_token token) = Some fresh ->
  session_get svc s target params w
  = (if String.eqb (access_token fresh) ""
     then inl (ValueError "Missing access token.")
     else if expires_later fresh w
     then inr (calendar_api svc (Some (access_token fresh)) target params,
               with_token s fresh)
     else inl TokenExpiredError,
     written TOKEN_FILE (TokenJson fresh) w).
Proof.
  intros Ht Hurl Hupd Hacc Hexp Href. unfold session_get. rewrite Ht.
  destruct (String.eqb_spec (access_token token) "") as [E|_];
    [contradiction|].
  unfold bind, token_expired. fold (expired_at token w). rewrite Hexp.
  rewrite Hurl. unfold refresh_session_token. rewrite Href.
  unfold ret. rewrite Hupd. cbn [fst snd].
  unfold save_token_as_json, json_dump, token_expired_after_refresh,
    token_expired, expires_later, written, ret.
  unfold raise.
  destruct (String.eqb (access_token fresh) ""); [reflexivity|].
  destruct (expires_at fresh =? 0); [reflexivity|].
  cbv beta iota. cbn [clock].
  destruct (expires_at fresh * 1000000 <? clock w); reflexivity.
Qed.

(** C5.  With a readable client-secret file, the constructor looks only at
    whether the token file exists.  If it does, the document in it is
    loaded, uninspected, and the session is the one configured for
    automatic refresh, with [save_token_as_json] as its callback, and the
    world is untouched: in particular nothing is printed or read (also when
    the file cannot be decoded).  If it does not exist, the operator is
    shown the authorization URL and asked for a code, the code is
    exchanged, and the fetched token is written to the token file.  A
    session built from a cached token that has not expired sends its
    requests with that token and touches nothing.  One built from a cached
    token that has expired refreshes it on the next request and the
    callback writes the new token to the token file; the request is then
    sent with the new token when that one carries an expiry time that has
    not passed, and fails with [TokenExpiredError] otherwise.  (A token
    with an empty access token is refused with [ValueError], also right
    after a refresh.) *)
Theorem oauth_session_branches_on_token_file (svc : services)
    (scopes : list string) (w : world) (cs : client_secret) :
  fs w !! CLIENT_SECRET_FILE = Some (ClientSecretJson cs) ->
  (forall doc, fs w !! TOKEN_FILE = Some doc -> doc <> NotJson ->
     create_google_oauth_session svc scopes w
     = (inr (Session (client_id cs) (Some doc) None None
                     (Some (token_uri cs))
                     (client_id cs, client_secret_value cs)
                     (Some save_token_as_json)), w))
  /\ (forall token, fs w !! TOKEN_FILE = Some (TokenJson token) ->
      create_google_oauth_session svc scopes w
      = (inr (cached_session cs token), w))
  /\ (is_Some (fs w !! TOKEN_FILE) ->
      stdin (snd (create_google_oauth_session svc scopes w)) = stdin w
      /\ stdout (snd (create_google_oauth_session svc scopes w)) = stdout w)
  /\ (fs w !! TOKEN_FILE = None ->
      forall code rest token,
        stdin w = code :: rest ->
        token_endpoint_code svc (token_uri cs) (client_id cs)
          (client_secret_value cs) code = Some token ->
        create_google_oauth_session svc scopes w
        = (inr (with_token (interactive_session cs scopes) token),
           World (<[TOKEN_FILE := TokenJson token]> (fs w)) rest
                 (stdout w
                  ++ [("Please go to "
                       +:+ authorization_url svc
                             (interactive_session cs scopes) (auth_uri cs)
                       +:+ " and authorize access.")%string;
                      "Enter the code you recieve: "%string])
                 (clock w) (asana_tasks w)))
  /\ (forall token target params w1,
        access_token token <> ""%string ->
        expired_at token w1 = false ->
        session_get svc (cached_session cs token) target params w1
        = (inr (calendar_api svc (Some (access_token token)) target params,
                cached_session cs token), w1))
  /\ (forall token fresh target params w1,
        access_token token <> ""%string ->
        expired_at token w1 = true ->
        token_endpoint_refresh svc (token_uri cs) (client_id cs)
          (client_secret_value cs) (refresh_token token) = Some fresh ->
        session_get svc (cached_session cs token) target params w1
        = (if String.eqb (access_token fresh) ""
           then inl (ValueError "Missing access token.")
           else if expires_later fresh w1
           then inr (calendar_api svc (Some (access_token fresh)) target
                                  params,
                     with_token (cached_session cs token) fresh)
           else inl TokenExpiredError,
           written TOKEN_FILE (TokenJson fresh) w1)).
Proof.
  intros Hcs. split; [|split; [|split; [|split; [|split]]]].
  - intros doc Htok Hdoc.
    apply (create_google_oauth_session_loaded svc scopes w cs doc Hcs Htok Hdoc).
  - intros token Htok.
    apply (create_google_oauth_session_loaded svc scopes w cs _ Hcs Htok).
    discriminate.
  - apply cached_branch_is_silent.
  - intros Hnone code rest token Hin Hex. unfold create_google_oauth_session.
    rewrite (bind_inr _ _ w w _ (json_load_found _ _ _ Hcs ltac:(discriminate))).
    rewrite (bind_inr _ _ w w _ (path_exists_spec _ w)).
    rewrite bool_decide_eq_false_2
      by (rewrite Hnone; intros [x Hx]; discriminate).
    unfold bind, print, raw_input. cbn [stdin stdout fs clock asana_tasks].
    rewrite Hin. unfold fetch_token.
    change (session_client_id (Session (client_id cs) None
              (Some "urn:ietf:wg:oauth:2.0:oob"%string) (Some scopes)
              (Some (token_uri cs)) (client_id cs, client_secret_value cs)
              (Some save_token_as_json))) with (client_id cs).
    rewrite Hex. unfold ret, save_token_as_json, json_dump.
    cbn [fst snd stdin stdout fs clock asana_tasks].
    rewrite <- app_assoc. reflexivity.
  - intros token target params w1 Hacc Hexp.
    unfold session_get, cached_session, loaded_session. cbn [session_token].
    destruct (String.eqb_spec (access_token token) "") as [E|_];
      [contradiction|].
    unfold bind, token_expired. fold (expired_at token w1). rewrite Hexp.
    reflexivity.
  - intros token fresh target params w1 Hacc Hexp Href.
    apply (session_get_refreshed svc (cached_session cs token) token fresh
             (token_uri cs) target params w1);
      [reflexivity|reflexivity|reflexivity|exact Hacc|exact Hexp|exact Href].
Qed.

Lemma oauth_session_branches_on_token_file_witness :
  create_google_oauth_session example_services
    ["https://www.googleapis.com/auth/calendar.readonly"%string]
    (example_later_run example_rooms)
  = (inr (cached_session example_secret example_token),
     example_later_run example_rooms).
Proof.
  refine (proj1 (proj2 (oauth_session_branches_on_token_file example_services
                          _ (example_later_run example_rooms) example_secret
                          _)) example_token _).
  - reflexivity.
  - reflexivity.
Defined.

(** ** The Asana task *)



(** ** The date range *)

Lemma parse_flag_naive (svc : services) (flag : option string)
    (default : datetime) (w : world) :
  parses_naive svc flag ->
  parse_flag (parse_tz_aware_dt svc) default flag w
  = (inr (flag_value svc flag default), w).
Proof.
  intros Hn. unfold parse_flag, flag_value.
  destruct flag as [str|]; [|reflexivity].
  destruct (Hn str eq_refl) as (d & Hd & Htz).
  unfold parse_tz_aware_dt. rewrite Hd. cbn [rbind].
  unfold utc_localize. rewrite Htz. reflexivity.
Qed.

(** A string that parses to a timestamp with a zone is refused with the
    usage error. *)
Lemma parse_flag_aware (svc : services) (str : string) (d : datetime)
    (zone : tz) (default : datetime) (w : world) :
  date_parser_parse svc str = inr d -> tzinfo d = Some zone ->
  parse_flag (parse_tz_aware_dt svc) default (Some str) w
  = (inl (SystemExit 2), w).
Proof.
  intros Hd Htz. unfold parse_flag, parse_tz_aware_dt. rewrite Hd.
  cbn [rbind]. unfold utc_localize. rewrite Htz. reflexivity.
Qed.

(** C8, as amended.  With the clock not before 1970 and flags that, when
    given, parse to naive timestamps (no zone designator): without
    [--start-date] the range starts exactly 30 days before the current UTC
    time, without [--end-date] it ends at the current UTC time, both
    UTC-aware; a flag that is given is parsed, read as UTC and replaces the
    corresponding default.  [main] runs the report on that range.  A flag
    whose parsed value already carries a zone is refused with the usage
    error. *)
Theorem date_range_defaults_and_overrides (svc : services) (a : argv)
    (w : world) :
  0 <= clock w ->
  parses_naive svc (arg_start_date a) ->
  parses_naive svc (arg_end_date a) ->
  exists sd ed : datetime,
    resolve_date_range svc a w = (inr (today_utc w, Args sd ed), w)
    /\ main svc a w = run_report svc (today_utc w) (Args sd ed) w
    /\ (arg_start_date a = None ->
        sd = Datetime (ordinal (today_utc w) - 30)
                      (microsecond_of_day (today_utc w)) (Some UTC))
    /\ (arg_end_date a = None -> ed = today_utc w)
    /\ (forall str d, arg_start_date a = Some str ->
          date_parser_parse svc str = inr d -> sd = localized d)
    /\ (forall str d, arg_end_date a = Some str ->
          date_parser_parse svc str = inr d -> ed = localized d)
    /\ (forall str d zone default w0,
          date_parser_parse svc str = inr d -> tzinfo d = Some zone ->
          parse_flag (parse_tz_aware_dt svc) default (Some str) w0
          = (inl (SystemExit 2), w0)).
Proof.
  intros Hclock Hs He.
  set (ago := Datetime (ordinal (today_utc w) - 30)
                       (microsecond_of_day (today_utc w)) (Some UTC)).
  assert (Hres : resolve_date_range svc a w
            = (inr (today_utc w,
                    Args (flag_value svc (arg_start_date a) ago)
                         (flag_value svc (arg_end_date a) (today_utc w))), w)).
  { unfold resolve_date_range, bind, utcnow, lift.
    cbn [utc_localize tzinfo ordinal microsecond_of_day].
    fold (today_utc w). unfold minus_days.
    assert (Hord : (ordinal (today_utc w) - 30 <? 1) = false).
    { apply Z.ltb_ge. cbn [today_utc ordinal].
      pose proof (Z.div_pos (clock w) 86400000000 Hclock ltac:(lia)). lia. }
    rewrite Hord. cbn [tzinfo today_utc]. fold (today_utc w). fold ago.
    unfold parse_args, bind, gen_parser.
    cbn [date_type start_date_default end_date_default].
    rewrite (parse_flag_naive svc _ ago w Hs).
    rewrite (parse_flag_naive svc _ (today_utc w) w He).
    reflexivity. }
  exists (flag_value svc (arg_start_date a) ago),
         (flag_value svc (arg_end_date a) (today_utc w)).
  split; [exact Hres|]. split.
  { rewrite main_split, Hres. reflexivity. }
  split; [intros ->; reflexivity|].
  split; [intros ->; reflexivity|].
  split; [|split].
  - intros str d -> Hd. cbn [flag_value]. rewrite Hd. reflexivity.
  - intros str d -> Hd. cbn [flag_value]. rewrite Hd. reflexivity.
  - intros str d zone default w0. apply parse_flag_aware.
Qed.

Lemma date_range_defaults_and_overrides_witness :
  exists sd ed : datetime,
    resolve_date_range example_services (Argv (Some "2021-01-01"%string) None)
      (example_later_run example_rooms)
    = (inr (today_utc (example_later_run example_rooms), Args sd ed),
       example_later_run example_rooms)
    /\ main example_services (Argv (Some "2021-01-01"%string) None)
         (example_later_run example_rooms)
       = run_report example_services
           (today_utc (example_later_run example_rooms)) (Args sd ed)
           (example_later_run example_rooms)
    /\ (arg_start_date (Argv (Some "2021-01-01"%string) None) = None ->
        sd = Datetime
               (ordinal (today_utc (example_later_run example_rooms)) - 30)
               (microsecond_of_day
                  (today_utc (example_later_run example_rooms))) (Some UTC))
    /\ (arg_end_date (Argv (Some "2021-01-01"%string) None) = None ->
        ed = today_utc (example_later_run example_rooms))
    /\ (forall str d,
          arg_start_date (Argv (Some "2021-01-01"%string) None) = Some str ->
          date_parser_parse example_services str = inr d -> sd = localized d)
    /\ (forall str d,
          arg_end_date (Argv (Some "2021-01-01"%string) None) = Some str ->
          date_parser_parse example_services str = inr d -> ed = localized d)
    /\ (forall str d zone default w0,
          date_parser_parse example_services str = inr d ->
          tzinfo d = Some zone ->
          parse_flag (parse_tz_aware_dt example_services) default (Some str) w0
          = (inl (SystemExit 2), w0)).
Proof.
  apply (date_range_defaults_and_overrides example_services
           (Argv (Some "2021-01-01"%string) None)
           (example_later_run example_rooms)).
  - simpl. lia.
  - intros str H. inversion H; subst.
    exists (datetime_of_date 2021 1 1). split; reflexivity.
  - intros str H. discriminate.
Defined.

(** C8 as stated fails for an ISO-8601 string that names its zone: the
    parser returns a timestamp that already carries a zone,
    [pytz.utc.localize] refuses it, and the run stops with the usage error
    before anything else happens. *)
Lemma zoned_date_flag_is_rejected :
  date_parser_parse example_services "2021-01-01T00:00:00Z"
  = inr (Datetime (ymd2ord 2021 1 1) 0 (Some UTC))
  /\ parse_tz_aware_dt example_services "2021-01-01T00:00:00Z"
     = inl (ValueError "Not naive datetime (tzinfo is already set)")
  /\ resolve_date_range example_services
       (Argv (Some "2021-01-01T00:00:00Z"%string) None)
       (example_later_run example_rooms)
     = (inl (SystemExit 2), example_later_run example_rooms)
  /\ main example_services (Argv (Some "2021-01-01T00:00:00Z"%string) None)
       (example_later_run example_rooms)
     = (inl (SystemExit 2), example_later_run example_rooms).
Proof. repeat split; vm_compute; reflexivity. Qed.

(** ** Runs without any room line *)

Lemma session_get_fresh (svc : services) (s : session) (t : oauth_token)
    (target : string) (params : query) (w : world) :
  session_token s = Some (TokenJson t) -> access_token t <> ""%string ->
  expired_at t w = false ->
  session_get svc s target params w
  = (inr (calendar_api svc (Some (access_token t)) target params, s), w).
Proof.
  intros Ht Hacc Hexp. unfold session_get. rewrite Ht.
  destruct (String.eqb_spec (access_token t) "") as [E|_]; [contradiction|].
  unfold bind, token_expired. fold (expired_at t w). rewrite Hexp. reflexivity.
Qed.




(** ** The report *)

Lemma round_half_even_nonneg (q : Q) : (0 <= q)%Q -> 0 <= round_half_even q.
Proof.
  intros Hq. destruct (round_half_even_bounds q) as [_ Hhi].
  assert (H : (inject_Z (-1) < inject_Z (round_half_even q))%Q).
  { change (inject_Z (-1)) with (-1 # 1)%Q. lra. }
  rewrite <- Zlt_Qlt in H. lia.
Qed.

Lemma magnitude_nonneg (m : positive) (e : Z) : (0 <= magnitude m e)%Q.
Proof.
  unfold magnitude. apply Qmult_le_0_compat.
  - rewrite <- (Zle_Qle 0). lia.
  - apply Qlt_le_weak, pow2_pos.
Qed.

Lemma format_2f_finite_two_decimals (s : bool) (m : positive) (e : Z) :
  two_decimals (format_2f (S754_finite s m e)).
Proof.
  exists s, (round_half_even (magnitude m e * 100)).
  split; [|split].
  - apply round_half_even_nonneg. apply Qmult_le_0_compat.
    + apply magnitude_nonneg.
    + discriminate.
  - reflexivity.
  - apply pad2_length. apply Z.mod_pos_bound. lia.
Qed.

Lemma format_2f_zero_two_decimals (s : bool) :
  two_decimals (format_2f (S754_zero s)).
Proof. exists s, 0. split; [lia|]. split; reflexivity. Qed.

Lemma utilization_two_decimals (A M S : Z) (util : spec_float) :
  0 <= A < 2 ^ 53 -> Z.abs (M * S) < 2 ^ 53 ->
  utilization A M S = inr util -> two_decimals (format_2f util).
Proof.
  intros HA HD Hu.
  destruct (Z.eq_dec (M * S) 0) as [E0|E0].
  - unfold utilization in Hu. rewrite E0 in Hu.
    change (float_of_int 0) with (@inr exn _ (S754_zero false)) in Hu.
    cbn [rbind] in Hu. unfold int_truediv_float in Hu.
    destruct (float_of_int A); discriminate.
  - destruct (Z.eq_dec A 0) as [EA|EA].
    + subst A. unfold utilization in Hu.
      rewrite (float_of_int_nonzero (M * S) E0 HD) in Hu.
      cbn in Hu. inversion Hu; subst. apply format_2f_zero_two_decimals.
    + destruct (utilization_close A M S) as (m & e & qv & Hu' & _);
        [lia|exact E0|exact HD|].
      rewrite Hu' in Hu. inversion Hu; subst.
      apply format_2f_finite_two_decimals.
Qed.

(** An iteration that succeeds leaves the lines alone or appends the line
    of its room. *)
Lemma room_step_lines (svc : services) (sd ed : datetime) (s s' : session)
    (strs strs' : list string) (rm : room) (w w' : world) :
  room_step svc sd ed (s, strs) rm w = (inr (s', strs'), w') ->
  strs' = strs \/ exists line, strs' = strs ++ [line] /\ is_room_line [rm] line.
Proof.
  unfold room_step, bind. rewrite print_printed. cbn [fst snd].
  destruct (session_get svc s _ _ _) as [[e|[resp s1]] w1]; [discriminate|].
  cbn [fst snd]. unfold raise_for_status.
  destruct ((400 <=? status_code resp) && (status_code resp <? 600));
    [discriminate|].
  unfold ret at 1. unfold response_json.
  destruct (json_body resp) as [body|]; [|discriminate].
  unfold ret at 1.
  destruct (default [] (items body)) as [|ev evs] eqn:Eev.
  - rewrite print_printed. unfold ret. intros H. inversion H. left. reflexivity.
  - unfold lift, ret.
    destruct (count_attendees (ev :: evs) 0) as [e|A] eqn:EA; [discriminate|].
    destruct (utilization A (Z.of_nat (length (ev :: evs))) (room_seats rm))
      as [e|util] eqn:EU; [discriminate|].
    intros H. inversion H; subst. right.
    exists (room_line (name rm) util). split; [reflexivity|].
    exists rm, A, (Z.of_nat (length (ev :: evs))), util.
    split; [left; reflexivity|].
    split; [apply (count_attendees_nonneg (ev :: evs) 0 A); [lia|exact EA]|].
    split; [cbn [length]; lia|].
    split; [exact EU|]. split; [reflexivity|].
    intros HA HD.
    apply (utilization_two_decimals A (Z.of_nat (length (ev :: evs)))
             (room_seats rm)).
    + split; [|exact HA].
      apply (count_attendees_nonneg (ev :: evs) 0 A); [lia|exact EA].
    + exact HD.
    + exact EU.
Qed.

Lemma is_room_line_incl (rooms rooms' : list room) (line : string) :
  (forall rm, In rm rooms -> In rm rooms') ->
  is_room_line rooms line -> is_room_line rooms' line.
Proof.
  intros Hin (rm & A & M & util & Hrm & H). exists rm, A, M, util.
  split; [apply Hin, Hrm|exact H].
Qed.

Lemma rooms_loop_lines (svc : services) (sd ed : datetime)
    (rooms : list room) (s s' : session) (strs strs' : list string)
    (w w' : world) :
  rooms_loop svc sd ed rooms (s, strs) w = (inr (s', strs'), w') ->
  exists new, strs' = strs ++ new /\ Forall (is_room_line rooms) new.
Proof.
  revert s strs w. induction rooms as [|rm rooms IH]; intros s strs w H.
  - inversion H; subst. exists []. split; [rewrite app_nil_r; reflexivity|].
    constructor.
  - cbn [rooms_loop] in H. unfold bind in H.
    destruct (room_step svc sd ed (s, strs) rm w) as [[e|[s1 strs1]] w1] eqn:Es;
      [discriminate|].
    destruct (IH _ _ _ H) as (new & Hnew & Hall).
    assert (Hall' : Forall (is_room_line (rm :: rooms)) new).
    { eapply Forall_impl; [exact Hall|]. intros line.
      apply is_room_line_incl. intros r Hr. right. exact Hr. }
    destruct (room_step_lines _ _ _ _ _ _ _ _ _ _ Es) as [->|(line & -> & Hline)].
    + exists new. split; [exact Hnew|exact Hall'].
    + exists (line :: new). split.
      * rewrite Hnew, <- app_assoc. reflexivity.
      * constructor; [|exact Hall'].
        apply (is_room_line_incl [rm]); [|exact Hline].
        intros r [->|[]]. left. reflexivity.
Qed.

(** *** Dates

    [ord2ymd] turns a day number into the date of the calendar that has
    that day number. *)

Lemma days_before_year_cycles (a b c e : Z) :
  0 <= a -> 0 <= b <= 3 -> 0 <= c <= 24 -> 0 <= e <= 3 ->
  days_before_year (400 * a + 100 * b + 4 * c + e + 1)
  = 146097 * a + 36524 * b + 1461 * c + 365 * e.
Proof.
  intros Ha Hb Hc He. unfold days_before_year. cbv zeta.
  replace (400 * a + 100 * b + 4 * c + e + 1 - 1)
    with (400 * a + 100 * b + 4 * c + e) by lia.
  rewrite <- (Z.div_unique (400 * a + 100 * b + 4 * c + e) 4
                (100 * a + 25 * b + c) e) by lia.
  rewrite <- (Z.div_unique (400 * a + 100 * b + 4 * c + e) 100
                (4 * a + b) (4 * c + e)) by lia.
  rewrite <- (Z.div_unique (400 * a + 100 * b + 4 * c + e) 400
                a (100 * b + 4 * c + e)) by lia.
  lia.
Qed.

Lemma is_leap_cycles (a b c e : Z) :
  0 <= a -> 0 <= b <= 3 -> 0 <= c <= 24 -> 0 <= e <= 3 ->
  is_leap (400 * a + 100 * b + 4 * c + e + 1)
  = (e =? 3) && (negb (c =? 24) || (b =? 3)).
Proof.
  intros Ha Hb Hc He. unfold is_leap.
  set (y := 400 * a + 100 * b + 4 * c + e + 1).
  assert (H4 : y mod 4 = (e + 1) mod 4).
  { unfold y. replace (400 * a + 100 * b + 4 * c + e + 1)
      with ((e + 1) + (100 * a + 25 * b + c) * 4) by lia.
    apply Z.mod_add. lia. }
  assert (H100 : y mod 100 = (4 * c + e + 1) mod 100).
  { unfold y. replace (400 * a + 100 * b + 4 * c + e + 1)
      with ((4 * c + e + 1) + (4 * a + b) * 100) by lia.
    apply Z.mod_add. lia. }
  assert (H400 : y mod 400 = (100 * b + 4 * c + e + 1) mod 400).
  { unfold y. replace (400 * a + 100 * b + 4 * c + e + 1)
      with ((100 * b + 4 * c + e + 1) + a * 400) by lia.
    apply Z.mod_add. lia. }
  rewrite H4, H100, H400.
  destruct (Z.eqb_spec e 3) as [E|E].
  - subst e. replace ((3 + 1) mod 4) with 0 by reflexivity.
    cbn [Z.eqb andb].
    destruct (Z.eqb_spec c 24) as [C|C].
    + subst c. replace ((4 * 24 + 3 + 1) mod 100) with 0 by reflexivity.
      cbn [Z.eqb negb orb].
      destruct (Z.eqb_spec b 3) as [B|B].
      * subst b. reflexivity.
      * apply Z.eqb_neq. intros Hm.
        apply Z.mod_divide in Hm; [|lia]. destruct Hm as [q Hq]. lia.
    + cbn [negb orb].
      replace ((4 * c + 3 + 1) mod 100 =? 0) with false; [reflexivity|].
      symmetry. apply Z.eqb_neq. rewrite Z.mod_small by lia. lia.
  - cbn [andb].
    replace ((e + 1) mod 4 =? 0) with false; [reflexivity|].
    symmetry. apply Z.eqb_neq. rewrite Z.mod_small by lia. lia.
Qed.

Lemma days_before_month_table (L : bool) :
  days_before_month L 1 = 0
  /\ days_before_month L 2 = 31
  /\ days_before_month L 3 = 59 + (if L then 1 else 0)
  /\ days_before_month L 4 = 90 + (if L then 1 else 0)
  /\ days_before_month L 5 = 120 + (if L then 1 else 0)
  /\ days_before_month L 6 = 151 + (if L then 1 else 0)
  /\ days_before_month L 7 = 181 + (if L then 1 else 0)
  /\ days_before_month L 8 = 212 + (if L then 1 else 0)
  /\ days_before_month L 9 = 243 + (if L then 1 else 0)
  /\ days_before_month L 10 = 273 + (if L then 1 else 0)
  /\ days_before_month L 11 = 304 + (if L then 1 else 0)
  /\ days_before_month L 12 = 334 + (if L then 1 else 0).
Proof. destruct L; repeat split; reflexivity. Qed.

Lemma days_in_month_table (L : bool) :
  days_in_month L 1 = 31
  /\ days_in_month L 2 = 28 + (if L then 1 else 0)
  /\ days_in_month L 3 = 31
  /\ days_in_month L 4 = 30
  /\ days_in_month L 5 = 31
  /\ days_in_month L 6 = 30
  /\ days_in_month L 7 = 31
  /\ days_in_month L 8 = 31
  /\ days_in_month L 9 = 30
  /\ days_in_month L 10 = 31
  /\ days_in_month L 11 = 30
  /\ days_in_month L 12 = 31.
Proof. destruct L; repeat split; reflexivity. Qed.

(** The date [ord2ymd] computes for a day number is a date of the calendar,
    and it is the date with that day number. *)
Lemma ord2ymd_sound (ord y m d : Z) :
  1 <= ord -> ord2ymd ord = (y, m, d) ->
  valid_date y m d /\ ymd2ord y m d = ord.
Proof.
  intros Hord. unfold ord2ymd. cbv zeta.
  pose proof (Z.div_mod (ord - 1) 146097 ltac:(lia)) as E1.
  pose proof (Z.mod_pos_bound (ord - 1) 146097 ltac:(lia)) as B1.
  set (a := (ord - 1) / 146097) in *. set (r1 := (ord - 1) mod 146097) in *.
  pose proof (Z.div_mod r1 36524 ltac:(lia)) as E2.
  pose proof (Z.mod_pos_bound r1 36524 ltac:(lia)) as B2.
  set (b := r1 / 36524) in *. set (r2 := r1 mod 36524) in *.
  pose proof (Z.div_mod r2 1461 ltac:(lia)) as E3.
  pose proof (Z.mod_pos_bound r2 1461 ltac:(lia)) as B3.
  set (c := r2 / 1461) in *. set (r3 := r2 mod 1461) in *.
  pose proof (Z.div_mod r3 365 ltac:(lia)) as E4.
  pose proof (Z.mod_pos_bound r3 365 ltac:(lia)) as B4.
  set (e := r3 / 365) in *. set (k := r3 mod 365) in *.
  clearbody a r1 b r2 c r3 e k.
  assert (Ha : 0 <= a) by lia.
  assert (Hb : 0 <= b <= 4) by lia.
  assert (Hc : 0 <= c <= 24) by lia.
  assert (He : 0 <= e <= 4) by lia.
  destruct (Z.eqb_spec e 4) as [E|E]; cbn [orb].
  { intros H. injection H as <- <- <-.
    replace (a * 400 + 1 + b * 100 + c * 4 + e - 1)
      with (400 * a + 100 * b + 4 * c + 3 + 1) by lia.
    assert (Hb3 : 0 <= b <= 3) by lia.
    assert (Hc3 : 0 <= c <= 24) by lia.
    assert (Hleap : is_leap (400 * a + 100 * b + 4 * c + 3 + 1) = true).
    { rewrite is_leap_cycles by lia.
      replace (c =? 24) with false by (symmetry; apply Z.eqb_neq; lia).
      reflexivity. }
    split.
    - unfold valid_date.
      destruct (days_in_month_table
                  (is_leap (400 * a + 100 * b + 4 * c + 3 + 1)))
        as (_ & _ & _ & _ & _ & _ & _ & _ & _ & _ & _ & ->).
      lia.
    - unfold ymd2ord. rewrite days_before_year_cycles by lia.
      rewrite Hleap.
      destruct (days_before_month_table true)
        as (_ & _ & _ & _ & _ & _ & _ & _ & _ & _ & _ & ->).
      lia. }
  destruct (Z.eqb_spec b 4) as [B|B].
  { intros H. injection H as <- <- <-.
    replace (a * 400 + 1 + b * 100 + c * 4 + e - 1)
      with (400 * a + 100 * 3 + 4 * 24 + 3 + 1) by lia.
    assert (Hleap : is_leap (400 * a + 100 * 3 + 4 * 24 + 3 + 1) = true)
      by (rewrite is_leap_cycles by lia; reflexivity).
    split.
    - unfold valid_date.
      destruct (days_in_month_table
                  (is_leap (400 * a + 100 * 3 + 4 * 24 + 3 + 1)))
        as (_ & _ & _ & _ & _ & _ & _ & _ & _ & _ & _ & ->).
      lia.
    - unfold ymd2ord. rewrite days_before_year_cycles by lia.
      rewrite Hleap.
      destruct (days_before_month_table true)
        as (_ & _ & _ & _ & _ & _ & _ & _ & _ & _ & _ & ->).
      lia. }
  replace (a * 400 + 1 + b * 100 + c * 4 + e)
    with (400 * a + 100 * b + 4 * c + e + 1) by lia.
  pose proof (is_leap_cycles a b c e ltac:(lia) ltac:(lia) ltac:(lia)
                ltac:(lia)) as Hleap.
  pose proof (days_before_year_cycles a b c e ltac:(lia) ltac:(lia) ltac:(lia)
                ltac:(lia)) as Hdby.
  set (year := 400 * a + 100 * b + 4 * c + e + 1) in *.
  assert (Hyear : 1 <= year) by (unfold year; lia).
  set (L := (e =? 3) && (negb (c =? 24) || (b =? 3))) in *.
  rewrite Z.shiftr_div_pow2 by lia. change (2 ^ 5) with 32.
  pose proof (Z.div_mod (k + 50) 32 ltac:(lia)) as E5.
  pose proof (Z.mod_pos_bound (k + 50) 32 ltac:(lia)) as B5.
  set (mo := (k + 50) / 32) in *.
  destruct (days_before_month_table L)
    as (P1 & P2 & P3 & P4 & P5 & P6 & P7 & P8 & P9 & P10 & P11 & P12).
  destruct (days_in_month_table L)
    as (D1 & D2 & D3 & D4 & D5 & D6 & D7 & D8 & D9 & D10 & D11 & D12).
  assert (Hmo : mo = 1 \/ mo = 2 \/ mo = 3 \/ mo = 4 \/ mo = 5 \/ mo = 6
                \/ mo = 7 \/ mo = 8 \/ mo = 9 \/ mo = 10 \/ mo = 11
                \/ mo = 12) by lia.
  clearbody mo year.
  assert (Hfin : forall m' d',
            1 <= m' <= 12 ->
            1 <= d' <= days_in_month L m' ->
            days_before_month L m' + d' = k + 1 ->
            valid_date year m' d' /\ ymd2ord year m' d' = ord).
  { intros m' d' Hm' Hd' Hsum. split.
    - unfold valid_date. rewrite Hleap. lia.
    - unfold ymd2ord. rewrite Hleap, Hdby. lia. }
  destruct Hmo as [->|[->|[->|[->|[->|[->|[->|[->|[->|[->|[->| ->]]]]]]]]]]];
    repeat match goal with
           | |- context [Z.pos ?p - 1] =>
               let v := eval vm_compute in (Z.pos p - 1) in
               change (Z.pos p - 1) with v
           end;
    rewrite ?P1, ?P2, ?P3, ?P4, ?P5, ?P6, ?P7, ?P8, ?P9, ?P10, ?P11, ?P12;
    rewrite ?D1, ?D2, ?D3, ?D4, ?D5, ?D6, ?D7, ?D8, ?D9, ?D10, ?D11, ?D12;
    match goal with
    | |- context [?x <? ?p] => destruct (Z.ltb_spec x p) as [Hlt|Hge]
    end;
    intros Heq; injection Heq as <- <- <-;
    apply Hfin;
    rewrite ?P1, ?P2, ?P3, ?P4, ?P5, ?P6, ?P7, ?P8, ?P9, ?P10, ?P11, ?P12;
    rewrite ?D1, ?D2, ?D3, ?D4, ?D5, ?D6, ?D7, ?D8, ?D9, ?D10, ?D11, ?D12;
    destruct L; lia.
Qed.

(** Only days of the calendar, from day 1 on, fall in 1900 or later. *)
Lemma ord2ymd_recent (ord y m d : Z) :
  ord2ymd ord = (y, m, d) -> 1900 <= y -> 1 <= ord.
Proof.
  intros H Hy. destruct (Z.le_gt_cases 1 ord) as [Hle|Hgt]; [exact Hle|].
  exfalso. revert H. unfold ord2ymd. cbv zeta.
  pose proof (Z.div_mod (ord - 1) 146097 ltac:(lia)) as E1.
  pose proof (Z.mod_pos_bound (ord - 1) 146097 ltac:(lia)) as B1.
  set (a := (ord - 1) / 146097) in *. set (r1 := (ord - 1) mod 146097) in *.
  pose proof (Z.div_mod r1 36524 ltac:(lia)) as E2.
  pose proof (Z.mod_pos_bound r1 36524 ltac:(lia)) as B2.
  set (b := r1 / 36524) in *. set (r2 := r1 mod 36524) in *.
  pose proof (Z.div_mod r2 1461 ltac:(lia)) as E3.
  pose proof (Z.mod_pos_bound r2 1461 ltac:(lia)) as B3.
  set (c := r2 / 1461) in *. set (r3 := r2 mod 1461) in *.
  pose proof (Z.div_mod r3 365 ltac:(lia)) as E4.
  pose proof (Z.mod_pos_bound r3 365 ltac:(lia)) as B4.
  set (e := r3 / 365) in *. set (k := r3 mod 365) in *.
  clearbody a r1 b r2 c r3 e k.
  assert (Hyear : a * 400 + 1 + b * 100 + c * 4 + e < 1900) by lia.
  destruct ((e =? 4) || (b =? 4)).
  - intros H. injection H as <- _ _. lia.
  - destruct (k <? _); intros H; injection H as <- _ _; lia.
Qed.

Lemma pad2_two_digits (k : Z) : 0 <= k < 100 -> pad2 k = two_digits k.
Proof.
  intros Hk.
  assert (H : forallb (fun i => String.eqb (pad2 (Z.of_nat i))
                                           (two_digits (Z.of_nat i)))
                      (seq 0 100) = true) by (vm_compute; reflexivity).
  rewrite forallb_forall in H.
  specialize (H (Z.to_nat k)).
  rewrite Z2Nat.id in H by lia.
  apply String.eqb_eq, H, in_seq. lia.
Qed.

Lemma string_of_Z_four_digits (y : Z) :
  1000 <= y <= 9999 -> string_of_Z y = four_digits y.
Proof.
  intros Hy.
  assert (H : forallb (fun i => String.eqb (string_of_Z (Z.of_nat i))
                                           (four_digits (Z.of_nat i)))
                      (seq (Z.to_nat 1000) (Z.to_nat 9000)) = true)
    by (vm_compute; reflexivity).
  rewrite forallb_forall in H.
  specialize (H (Z.to_nat y)).
  rewrite Z2Nat.id in H by lia.
  apply String.eqb_eq, H, in_seq. lia.
Qed.

(** What [strftime('%m/%d/%Y')] returns is the calendar date written
    MM/DD/YYYY. *)
Lemma strftime_mdY_is_mdY (dt : datetime) (str : string) :
  strftime_mdY dt = inr str -> is_mdY dt str.
Proof.
  unfold strftime_mdY, is_mdY.
  destruct (ord2ymd (ordinal dt)) as [[y m] d] eqn:E.
  destruct (Z.ltb_spec y 1900) as [Hlt|Hge]; [discriminate|].
  intros H. inversion H.
  destruct (ord2ymd_sound (ordinal dt) y m d
              (ord2ymd_recent _ _ _ _ E Hge) E) as [Hv Ho].
  exists y, m, d. split; [exact Hv|]. split; [symmetry; exact Ho|].
  split; [exact Hge|]. split.
  - destruct Hv as (_ & Hm & Hd).
    assert (Hdim : days_in_month (is_leap y) m <= 31).
    { destruct (days_in_month_table (is_leap y))
        as (D1 & D2 & D3 & D4 & D5 & D6 & D7 & D8 & D9 & D10 & D11 & D12).
      assert (Hm' : m = 1 \/ m = 2 \/ m = 3 \/ m = 4 \/ m = 5 \/ m = 6
                    \/ m = 7 \/ m = 8 \/ m = 9 \/ m = 10 \/ m = 11
                    \/ m = 12) by lia.
      destruct Hm' as [->|[->|[->|[->|[->|[->|[->|[->|[->|[->|[->| ->]]]]]]]]]]];
        rewrite ?D1, ?D2, ?D3, ?D4, ?D5, ?D6, ?D7, ?D8, ?D9, ?D10, ?D11, ?D12;
        destruct (is_leap y); lia. }
    rewrite (pad2_two_digits m) by lia.
    rewrite (pad2_two_digits d) by lia. reflexivity.
  - intros Hy. apply string_of_Z_four_digits. lia.
Qed.

Lemma strftime_mdY_of_date (dt : datetime) (y m d : Z) (str : string) :
  ordinal dt = ymd2ord y m d ->
  strftime_mdY (Datetime (ymd2ord y m d) 0 None) = inr str ->
  strftime_mdY dt = inr str.
Proof. unfold strftime_mdY. intros ->. cbn [ordinal]. intros H. exact H. Qed.

(** C6.  A report that is produced is the fixed text below: the sentence
    with the start and the end of the range, each the calendar date written
    MM/DD/YYYY; a blank line; the explanation; a blank line; and the lines
    the room loop collected, joined with single newlines.  Every one of
    those lines is a room's name, " Utilization %: " and the value rendered
    by ['{:0.2f}'] (two decimals for counts below 2^53).  For a range from
    2021-01-01 to 2021-01-31 the report starts "The room data below is
    pulled from calendar events between 01/01/2021 and 01/31/2021. ". *)
Theorem report_is_preamble_and_room_lines (svc : services)
    (rooms : list room) (sd ed : datetime) (w w' : world) (report : string) :
  generate_room_util_report svc rooms sd ed w = (inr report, w') ->
  (exists (s0 s1 : session) (w0 : world) (lines : list string)
          (start_str end_str : string),
     create_google_oauth_session svc
       ["https://www.googleapis.com/auth/calendar.readonly"%string] w
     = (inr s0, w0)
     /\ rooms_loop svc sd ed rooms (s0, [])
          (printed "Generating Room Utilization Report..." w0)
        = (inr (s1, lines), w')
     /\ Forall (is_room_line rooms) lines
     /\ is_mdY sd start_str /\ is_mdY ed end_str
     /\ report
        = ("The room data below is pulled from calendar events between "
           +:+ start_str +:+ " and " +:+ end_str +:+ ". "
           +:+ String "010"%char (String "010"%char
               "Conference room utilization = (number of attendees for meetings in last 30 days) / (number of meetings * max occupancy of room). The count of seats includes non-Asana folks and office hours. If a room has > 100% that means generally it's over occupied. This seems to be the case for most of the phone rooms likely due to customers being invited on the calendar invite. The seat count includes accepted and non-responded calendar invites.")
           +:+ String "010"%char (String "010"%char
               (String.concat (String "010"%char EmptyString) lines)))%string)
  /\ (ordinal sd = ymd2ord 2021 1 1 -> ordinal ed = ymd2ord 2021 1 31 ->
      String.prefix
        "The room data below is pulled from calendar events between 01/01/2021 and 01/31/2021. "
        report = true).
Proof.
  intros H.
  unfold generate_room_util_report, bind in H.
  destruct (create_google_oauth_session svc _ w) as [[e|s0] w0] eqn:Ec;
    [discriminate|].
  rewrite print_printed in H.
  destruct (rooms_loop svc sd ed rooms (s0, []) _) as [[e|[s1 strs]] w1] eqn:El;
    [discriminate|].
  unfold lift, ret in H. cbn [snd] in H.
  destruct (strftime_mdY sd) as [e|start_str] eqn:Es; [discriminate|].
  destruct (strftime_mdY ed) as [e|end_str] eqn:Ee; [discriminate|].
  inversion H; subst. split.
  - destruct (rooms_loop_lines _ _ _ _ _ _ _ _ _ _ El) as (new & Hnew & Hall).
    cbn [app] in Hnew. subst strs.
    exists s0, s1, w0, new, start_str, end_str.
    split; [reflexivity|]. split; [exact El|]. split; [exact Hall|].
    split; [apply strftime_mdY_is_mdY, Es|].
    split; [apply strftime_mdY_is_mdY, Ee|].
    reflexivity.
  - intros Hsd Hed.
    rewrite (strftime_mdY_of_date sd 2021 1 1 "01/01/2021" Hsd)
      in Es by (vm_compute; reflexivity).
    rewrite (strftime_mdY_of_date ed 2021 1 31 "01/31/2021" Hed)
      in Ee by (vm_compute; reflexivity).
    inversion Es. inversion Ee. reflexivity.
Qed.

Lemma report_is_preamble_and_room_lines_witness :
  String.prefix
    "The room data below is pulled from calendar events between 01/01/2021 and 01/31/2021. "
    ("The room data below is pulled from calendar events between "
     +:+ "01/01/2021" +:+ " and " +:+ "01/31/2021" +:+ ". "
     +:+ String "010"%char (String "010"%char
         "Conference room utilization = (number of attendees for meetings in last 30 days) / (number of meetings * max occupancy of room). The count of seats includes non-Asana folks and office hours. If a room has > 100% that means generally it's over occupied. This seems to be the case for most of the phone rooms likely due to customers being invited on the calendar invite. The seat count includes accepted and non-responded calendar invites.")
     +:+ String "010"%char (String "010"%char
         "Fishbowl Utilization %: 25.00"))%string
  = true.
Proof.
  refine (proj2 (report_is_preamble_and_room_lines example_services
                   example_rooms
                   (Datetime (ymd2ord 2021 1 1) 0 (Some UTC))
                   (Datetime (ymd2ord 2021 1 31) 0 (Some UTC))
                   (example_later_run example_rooms)
                   (snd (generate_room_util_report example_services
                           example_rooms
                           (Datetime (ymd2ord 2021 1 1) 0 (Some UTC))
                           (Datetime (ymd2ord 2021 1 31) 0 (Some UTC))
                           (example_later_run example_rooms)))
                   _ _) _ _).
  - vm_compute. reflexivity.
  - reflexivity.
  - reflexivity.
Defined.

(** ** Attendee entries without a response status *)

Lemma malformed_attendee_stops_loop (svc : services) (sd ed : datetime)
    (s s' : session) (strs : list string) (rm : room) (pre rest : list room)
    (st0 : session * list string) (w0 w w' : world) (resp : http_response)
    (body : events_body) (events : list event) :
  rooms_loop svc sd ed pre st0 w0 = (inr (s, strs), w) ->
  session_get svc s (events_url svc (url rm)) (events_params svc sd ed)
              (printed (grabbing_line rm) w) = (inr (resp, s'), w') ->
  status_ok resp -> json_body resp = Some body ->
  items body = Some events ->
  Exists has_malformed_attendee events ->
  rooms_loop svc sd ed (pre ++ rm :: rest) st0 w0
  = (inl (KeyError "responseStatus"), w').
Proof.
  intros Hpre Hget Hok Hbody Hitems Hbad.
  rewrite rooms_loop_app, Hpre. cbn [rooms_loop]. apply bind_inl.
  rewrite (room_step_fetched svc sd ed s s' strs rm w w' resp body Hget Hok Hbody).
  rewrite Hitems. change (default [] (Some events)) with events.
  destruct events as [|ev evs]; [inversion Hbad|].
  rewrite (count_attendees_malformed (ev :: evs) 0 Hbad). reflexivity.
Qed.

(** C9.  When an event's attendee list has an entry without the key
    ['responseStatus'], counting raises [KeyError] for that key, whatever
    else the events hold; that is the only error counting can raise, and
    when every entry of every event carries the key, counting returns a
    number.  Nothing catches the error: a run that reaches such events
    ends with it. *)
Theorem missing_response_status_raises_key_error
    (events : list event) (acc : Z) :
  (Exists has_malformed_attendee events ->
     count_attendees events acc = inl (KeyError "responseStatus"))
  /\ (Forall well_formed_event events ->
        exists n, count_attendees events acc = inr n)
  /\ (forall e, count_attendees events acc = inl e ->
        e = KeyError "responseStatus"
        /\ Exists has_malformed_attendee events)
  /\ (forall svc a utc_now sd ed s0 s s' strs rm pre rest wa w1 w2 w3 w w'
             resp body,
        resolve_date_range svc a wa = (inr (utc_now, Args sd ed), w1) ->
        read_room_list_from_json w1 = (inr (pre ++ rm :: rest), w2) ->
        create_google_oauth_session svc
          ["https://www.googleapis.com/auth/calendar.readonly"%string] w2
        = (inr s0, w3) ->
        rooms_loop svc sd ed pre (s0, [])
          (printed "Generating Room Utilization Report..." w3)
        = (inr (s, strs), w) ->
        session_get svc s (events_url svc (url rm)) (events_params svc sd ed)
                    (printed (grabbing_line rm) w) = (inr (resp, s'), w') ->
        status_ok resp -> json_body resp = Some body ->
        items body = Some events ->
        Exists has_malformed_attendee events ->
        main svc a wa = (inl (KeyError "responseStatus"), w')).
Proof.
  split; [apply count_attendees_malformed|].
  split; [apply count_attendees_well_formed|].
  split; [|intros svc a utc_now sd ed s0 s s' strs rm pre rest wa w1 w2 w3 w w'
             resp body Hres Hrooms Hsess Hpre Hget Hok Hbody Hitems Hbad;
           apply (main_loop_error svc a utc_now sd ed _ s0 _ wa w1 w2 w3 w'
                    Hres Hrooms Hsess);
           apply (malformed_attendee_stops_loop svc sd ed s s' strs rm pre rest
                    (s0, []) _ w w' resp body events Hpre Hget Hok Hbody Hitems
                    Hbad)].
  intros e H. split; [apply (count_attendees_error _ _ _ H)|].
  revert acc H. induction events as [|ev events IH]; intros acc H; [discriminate|].
  cbn [count_attendees] in H.
  destruct (event_contribution ev) as [e'|k] eqn:Ek; cbn [rbind] in H.
  - left. unfold event_contribution in Ek.
    destruct (attendees ev) as [l|] eqn:El; [|discriminate].
    exists l. split; [exact El|].
    clear El. induction l as [|a l IHl]; [discriminate|].
    cbn [count_not_declined] in Ek. unfold not_declined in Ek.
    destruct (a !! "responseStatus"%string) as [v|] eqn:Ea; cbn [rbind] in Ek.
    + right. apply IHl.
      destruct (count_not_declined l) as [e''|j]; [|discriminate].
      cbn [rbind] in Ek. congruence.
    + left. intros [v Hv]. rewrite Ea in Hv. discriminate.
  - right. apply (IH _ H).
Qed.

(** ** Whole runs on the example installation *)

(** A first run: the operator authorizes, the token is cached, one room has
    events and one has none, and the report is posted. *)
Example first_run_posts_report :
  let r := main example_services (Argv None None)
                (example_first_run example_rooms) in
  fst r = inr tt
  /\ fs (snd r) !! TOKEN_FILE = Some (TokenJson example_token)
  /\ stdin (snd r) = []
  /\ asana_tasks (snd r)
     = [TaskParams "workspace-1" ["project-1"%string]
          "Google Calendar Room Utilization Results 01/31/2021"
          (report_text "01/01/2021" "01/31/2021"
             "Fishbowl Utilization %: 25.00")].
Proof. vm_compute. repeat split; reflexivity. Qed.

(** An attendee entry without a response status ends the run with
    [KeyError]; nothing is posted. *)
Example malformed_attendee_run_fails :
  let r := main example_services (Argv None None)
                (example_later_run [example_fishbowl; example_lobby]) in
  fst r = inl (KeyError "responseStatus") /\ asana_tasks (snd r) = [].
Proof. vm_compute. split; reflexivity. Qed.

(** A room without seats ends the run with [ZeroDivisionError]; nothing is
    posted. *)
Example zero_seat_run_fails :
  let r := main example_services (Argv None None)
                (example_later_run [example_fishbowl; example_closet]) in
  fst r = inl ZeroDivisionError /\ asana_tasks (snd r) = [].
Proof. vm_compute. split; reflexivity. Qed.

(** A cached token that has expired is refreshed at the first request and
    the fresh token replaces it in the token file; the report is posted. *)
Example stale_token_run_refreshes :
  let r := main example_services (Argv None None)
                (example_stale_run example_rooms) in
  fst r = inr tt
  /\ fs (snd r) !! TOKEN_FILE
     = Some (TokenJson (OAuthToken "ya29.second" "1//refresh" 1612054800))
  /\ length (asana_tasks (snd r)) = 1%nat.
Proof. vm_compute. repeat split; reflexivity. Qed.

(** When the refreshed token carries no expiry time the session still
    holds the old one: the fresh token is saved and the run ends with
    [TokenExpiredError]; nothing is posted. *)
Example refresh_without_expiry_fails :
  let r := main example_no_expiry (Argv None None)
                (example_stale_run example_rooms) in
  fst r = inl TokenExpiredError
  /\ fs (snd r) !! TOKEN_FILE
     = Some (TokenJson (OAuthToken "ya29.second" "1//refresh" 0))
  /\ asana_tasks (snd r) = [].
Proof. vm_compute. repeat split; reflexivity. Qed.

(** The token file is loaded whatever JSON it holds.  With no room to ask
    about, no request is made and the run succeeds, the file untouched;
    with a room, the first request is refused for want of an access
    token. *)
Example foreign_token_file_is_loaded :
  let r := main example_services (Argv None None) (example_foreign_run []) in
  let r' := main example_services (Argv None None)
                 (example_foreign_run example_rooms) in
  fst r = inr tt
  /\ fs (snd r) !! TOKEN_FILE = Some (RoomsJson [])
  /\ length (asana_tasks (snd r)) = 1%nat
  /\ fst r' = inl (ValueError "Missing access token.")
  /\ asana_tasks (snd r') = [].
Proof. vm_compute. repeat split; reflexivity. Qed.

(** ** What a run may change *)

Lemma may_write_token_refl (w : world) : may_write_token w w.
Proof. left. reflexivity. Qed.

Lemma may_write_token_trans (w1 w2 w3 : world) :
  may_write_token w1 w2 -> may_write_token w2 w3 -> may_write_token w1 w3.
Proof.
  unfold may_write_token. intros [H1|[t1 H1]] [H2|[t2 H2]].
  - left. congruence.
  - right. exists t2. congruence.
  - right. exists t1. congruence.
  - right. exists t2. rewrite H2, H1. apply insert_insert_eq.
Qed.

Lemma may_write_token_lookup (w w' : world) (path : string) :
  may_write_token w w' -> path <> TOKEN_FILE ->
  fs w' !! path = fs w !! path.
Proof.
  intros [H|[t H]] Hp; rewrite H; [reflexivity|].
  apply lookup_insert_ne. congruence.
Qed.

Lemma may_write_token_keeps_file (w w' : world) :
  may_write_token w w' ->
  is_Some (fs w !! TOKEN_FILE) -> is_Some (fs w' !! TOKEN_FILE).
Proof.
  intros [H|[t H]] Hs; rewrite H; [exact Hs|].
  rewrite lookup_insert_eq. eexists. reflexivity.
Qed.

Lemma has_printed_refl (w : world) : has_printed w w.
Proof. exists []. rewrite app_nil_r. reflexivity. Qed.

Lemma has_printed_trans (w1 w2 w3 : world) :
  has_printed w1 w2 -> has_printed w2 w3 -> has_printed w1 w3.
Proof.
  intros [o1 H1] [o2 H2]. exists (o1 ++ o2).
  rewrite H2, H1, app_assoc. reflexivity.
Qed.

Lemma quiet_refl (w : world) : quiet w w.
Proof.
  split; try reflexivity; [apply has_printed_refl|apply may_write_token_refl].
Qed.

Lemma quiet_trans (w1 w2 w3 : world) :
  quiet w1 w2 -> quiet w2 w3 -> quiet w1 w3.
Proof.
  intros [C1 I1 T1 O1 F1] [C2 I2 T2 O2 F2]. split; try congruence.
  - exact (has_printed_trans _ _ _ O1 O2).
  - exact (may_write_token_trans _ _ _ F1 F2).
Qed.

Lemma quiet_printed (line : string) (w : world) : quiet w (printed line w).
Proof.
  split; try reflexivity; [exists [line]; reflexivity|left; reflexivity].
Qed.

Lemma quiet_written (t : oauth_token) (w : world) :
  quiet w (written TOKEN_FILE (TokenJson t) w).
Proof.
  split; try reflexivity; [|right; exists t; reflexivity].
  exists []. cbn [written stdout]. rewrite app_nil_r. reflexivity.
Qed.

Lemma authorizing_quiet (w1 w2 w3 : world) :
  authorizing w1 w2 -> quiet w2 w3 -> authorizing w1 w3.
Proof.
  intros [C1 I1 K1 T1 O1 F1] [C2 I2 T2 O2 F2]. split; try congruence.
  - destruct I1 as [E|[line E]]; [left; congruence|].
    right. exists line. congruence.
  - intros H. rewrite I2. apply K1, H.
  - exact (has_printed_trans _ _ _ O1 O2).
  - exact (may_write_token_trans _ _ _ F1 F2).
Qed.

Lemma authorizing_refl (w : world) : authorizing w w.
Proof.
  split; try reflexivity;
    [left; reflexivity|apply has_printed_refl|apply may_write_token_refl].
Qed.

(** *** Requests *)

(** A request made through a session of the script either leaves the world
    alone or, having refreshed the token, writes it to the token file. *)
Lemma session_get_world (svc : services) (s : session) (target : string)
    (params : query) (w : world) :
  updater_ok s ->
  (snd (session_get svc s target params w) = w
   \/ exists t, snd (session_get svc s target params w)
                = written TOKEN_FILE (TokenJson t) w)
  /\ (forall r, fst (session_get svc s target params w) = inr r ->
        updater_ok (snd r)).
Proof.
  intros Hs. unfold session_get.
  destruct (session_token s) as [doc|];
    [|split; [left; reflexivity|intros r H; inversion H; exact Hs]].
  destruct doc as [|t| | |];
    try (split; [left; reflexivity|intros r H; discriminate]).
  destruct (String.eqb (access_token t) "");
    [split; [left; reflexivity|intros r H; discriminate]|].
  unfold bind, token_expired.
  destruct (negb (expires_at t =? 0) && (expires_at t * 1000000 <? clock w));
    [|split; [left; reflexivity|intros r H; inversion H; exact Hs]].
  destruct (auto_refresh_url s) as [u|];
    [|split; [left; reflexivity|intros r H; discriminate]].
  unfold refresh_session_token.
  destruct (token_endpoint_refresh svc u (fst (auto_refresh_kwargs s))
              (snd (auto_refresh_kwargs s)) (refresh_token t)) as [fresh|];
    [|split; [left; reflexivity|intros r H; discriminate]].
  unfold ret. red in Hs. rewrite Hs. cbn [fst snd].
  unfold save_token_as_json, json_dump, token_expired_after_refresh,
    token_expired, ret, raise.
  destruct (String.eqb (access_token fresh) "");
    [split; [right; exists fresh; reflexivity|intros r H; discriminate]|].
  destruct (expires_at fresh =? 0).
  - split; [right; exists fresh; reflexivity|intros r H; discriminate].
  - cbv beta iota. cbn [clock].
    destruct (negb false && (expires_at fresh * 1000000 <? clock w)).
    + split; [right; exists fresh; reflexivity|intros r H; discriminate].
    + split; [right; exists fresh; reflexivity|].
      intros r H. inversion H. exact Hs.
Qed.

Lemma session_get_quiet (svc : services) (s : session) (target : string)
    (params : query) (w : world) :
  updater_ok s -> quiet w (snd (session_get svc s target params w)).
Proof.
  intros Hs.
  destruct (session_get_world svc s target params w Hs) as [[E|[t E]] _];
    rewrite E; [apply quiet_refl|apply quiet_written].
Qed.

Lemma session_get_stdout (svc : services) (s : session) (target : string)
    (params : query) (w : world) :
  updater_ok s -> stdout (snd (session_get svc s target params w)) = stdout w.
Proof.
  intros Hs.
  destruct (session_get_world svc s target params w Hs) as [[E|[t E]] _];
    rewrite E; reflexivity.
Qed.

(** *** The room loop *)

(** What one iteration does, once the request has been made. *)
Lemma room_step_after_get (svc : services) (sd ed : datetime)
    (st : session * list string) (rm : room) (w : world) :
  room_step svc sd ed st rm w
  = match session_get svc (fst st) (events_url svc (url rm))
            (events_params svc sd ed) (printed (grabbing_line rm) w) with
    | (inl e, w1) => (inl e, w1)
    | (inr r, w1) =>
        if (400 <=? status_code (fst r)) && (status_code (fst r) <? 600)
        then (inl (HTTPError (status_code (fst r))), w1)
        else
          match json_body (fst r) with
          | None => (inl (ValueError "No JSON object could be decoded"), w1)
          | Some body =>
              match default [] (items body) with
              | [] => (inr (snd r, snd st),
                       printed ("No events found for room: " +:+ name rm) w1)
              | ev :: evs =>
                  match count_attendees (ev :: evs) 0 with
                  | inl e => (inl e, w1)
                  | inr number_of_attendees =>
                      match utilization number_of_attendees
                              (Z.of_nat (length (ev :: evs)))
                              (room_seats rm) with
                      | inl e => (inl e, w1)
                      | inr util =>
                          (inr (snd r, snd st ++ [room_line (name rm) util]),
                           w1)
                      end
                  end
              end
          end
    end.
Proof.
  unfold room_step.
  rewrite (bind_inr _ _ _ _ _ (print_printed _ w)).
  unfold bind at 1.
  destruct (session_get svc (fst st) _ _ _) as [[e|r] w1]; [reflexivity|].
  unfold bind at 1. unfold raise_for_status.
  destruct ((400 <=? status_code (fst r)) && (status_code (fst r) <? 600));
    [reflexivity|].
  unfold ret at 1. unfold bind at 1. unfold response_json.
  destruct (json_body (fst r)) as [body|]; [|reflexivity].
  unfold ret at 1.
  destruct (default [] (items body)) as [|ev evs]; [reflexivity|].
  unfold bind, lift, ret.
  destruct (count_attendees (ev :: evs) 0) as [e|n]; [reflexivity|].
  destruct (utilization n (Z.of_nat (length (ev :: evs))) (room_seats rm));
    reflexivity.
Qed.

Lemma room_step_quiet (svc : services) (sd ed : datetime)
    (st : session * list string) (rm : room) (w : world) :
  updater_ok (fst st) ->
  quiet w (snd (room_step svc sd ed st rm w))
  /\ (forall st', fst (room_step svc sd ed st rm w) = inr st' ->
        updater_ok (fst st')).
Proof.
  intros Hs. rewrite room_step_after_get.
  pose proof (session_get_quiet svc (fst st) (events_url svc (url rm))
                (events_params svc sd ed) (printed (grabbing_line rm) w) Hs)
    as Hq.
  destruct (session_get_world svc (fst st) (events_url svc (url rm))
              (events_params svc sd ed) (printed (grabbing_line rm) w) Hs)
    as [_ Hu].
  assert (Hq' : quiet w (snd (session_get svc (fst st)
                                (events_url svc (url rm))
                                (events_params svc sd ed)
                                (printed (grabbing_line rm) w))))
    by (eapply quiet_trans; [apply quiet_printed|exact Hq]).
  clear Hq.
  destruct (session_get svc (fst st) _ _ _) as [[e|r] w1]; cbn [fst snd] in *.
  - split; [exact Hq'|intros st' H; discriminate].
  - specialize (Hu r eq_refl).
    destruct ((400 <=? status_code (fst r)) && (status_code (fst r) <? 600)).
    { split; [exact Hq'|intros st' H; discriminate]. }
    destruct (json_body (fst r)) as [body|];
      [|split; [exact Hq'|intros st' H; discriminate]].
    destruct (default [] (items body)) as [|ev evs].
    { split.
      - eapply quiet_trans; [exact Hq'|apply quiet_printed].
      - intros st' H. inversion H. exact Hu. }
    destruct (count_attendees (ev :: evs) 0) as [e|n];
      [split; [exact Hq'|intros st' H; discriminate]|].
    destruct (utilization n (Z.of_nat (length (ev :: evs))) (room_seats rm));
      [split; [exact Hq'|intros st' H; discriminate]|].
    split; [exact Hq'|]. intros st' H. inversion H. exact Hu.
Qed.

Lemma rooms_loop_quiet (svc : services) (sd ed : datetime)
    (rooms : list room) (st : session * list string) (w : world) :
  updater_ok (fst st) -> quiet w (snd (rooms_loop svc sd ed rooms st w)).
Proof.
  revert st w. induction rooms as [|rm rooms IH]; intros st w Hs.
  - apply quiet_refl.
  - cbn [rooms_loop]. unfold bind.
    destruct (room_step_quiet svc sd ed st rm w Hs) as [Hq Hu].
    destruct (room_step svc sd ed st rm w) as [[e|st1] w1]; cbn [fst snd] in *.
    + exact Hq.
    + eapply quiet_trans; [exact Hq|]. apply IH. apply Hu. reflexivity.
Qed.

(** *** The session constructor, case by case *)

Lemma create_google_oauth_session_cases (svc : services)
    (scopes : list string) (w : world) :
  create_google_oauth_session svc scopes w
  = match fs w !! CLIENT_SECRET_FILE with
    | None => (inl (IOError CLIENT_SECRET_FILE), w)
    | Some NotJson => (inl (ValueError "No JSON object could be decoded"), w)
    | Some (ClientSecretJson cs) =>
        match fs w !! TOKEN_FILE with
        | Some NotJson =>
            (inl (ValueError "No JSON object could be decoded"), w)
        | Some doc => (inr (loaded_session cs doc), w)
        | None =>
            match stdin w with
            | [] => (inl EOFError, prompted svc cs scopes w)
            | code :: _ =>
                match token_endpoint_code svc (token_uri cs) (client_id cs)
                        (client_secret_value cs) code with
                | None => (inl OAuth2Error, prompted svc cs scopes w)
                | Some token =>
                    (inr (with_token (interactive_session cs scopes) token),
                     written TOKEN_FILE (TokenJson token)
                       (prompted svc cs scopes w))
                end
            end
        end
    | Some _ => (inl (KeyError "installed"), w)
    end.
Proof.
  unfold create_google_oauth_session, bind, json_load, path_exists.
  destruct (fs w !! CLIENT_SECRET_FILE) as [d|]; [|reflexivity].
  destruct d as [cs| | | |]; try reflexivity.
  destruct (fs w !! TOKEN_FILE) as [t|] eqn:Ht.
  - rewrite bool_decide_eq_true_2 by (eexists; reflexivity).
    cbv beta iota zeta. rewrite Ht. destruct t; reflexivity.
  - rewrite bool_decide_eq_false_2 by (intros [x Hx]; discriminate).
    unfold print, raw_input. cbn [stdin stdout fs clock asana_tasks].
    unfold prompted, please_go_to, interactive_session.
    destruct (stdin w) as [|code rest].
    + cbn [tl]. rewrite <- app_assoc. reflexivity.
    + unfold fetch_token. cbn [session_client_id].
      destruct (token_endpoint_code svc (token_uri cs) (client_id cs)
                  (client_secret_value cs) code) as [token|].
      * unfold ret, save_token_as_json, json_dump, written.
        cbn [fst snd stdin stdout fs clock asana_tasks tl].
        rewrite <- app_assoc. reflexivity.
      * unfold raise. cbn [tl]. rewrite <- app_assoc. reflexivity.
Qed.

Lemma create_google_oauth_session_frame (svc : services)
    (scopes : list string) (w : world) :
  authorizing w (snd (create_google_oauth_session svc scopes w))
  /\ (forall s, fst (create_google_oauth_session svc scopes w) = inr s ->
        updater_ok s
        /\ exists doc,
             session_token s = Some doc
             /\ fs (snd (create_google_oauth_session svc scopes w))
                  !! TOKEN_FILE = Some doc)
  /\ (forall e, fst (create_google_oauth_session svc scopes w) = inl e ->
        fs (snd (create_google_oauth_session svc scopes w)) = fs w).
Proof.
  rewrite create_google_oauth_session_cases.
  assert (Hfail : forall (e : exn),
            authorizing w (snd (@inl exn session e, w))
            /\ (forall s, fst (@inl exn session e, w) = inr s ->
                  updater_ok s
                  /\ exists doc, session_token s = Some doc
                                 /\ fs (snd (@inl exn session e, w))
                                      !! TOKEN_FILE = Some doc)
            /\ (forall e', fst (@inl exn session e, w) = inl e' ->
                  fs (snd (@inl exn session e, w)) = fs w)).
  { intros e. split; [apply authorizing_refl|].
    split; [intros s H; discriminate|reflexivity]. }
  destruct (fs w !! CLIENT_SECRET_FILE) as [d|]; [|apply Hfail].
  destruct d as [cs| | | |]; try apply Hfail.
  destruct (fs w !! TOKEN_FILE) as [t|] eqn:Ht.
  - assert (Hload : authorizing w (snd (@inr exn _ (loaded_session cs t), w))
              /\ (forall s, fst (@inr exn _ (loaded_session cs t), w) = inr s ->
                    updater_ok s
                    /\ exists doc,
                         session_token s = Some doc
                         /\ fs (snd (@inr exn _ (loaded_session cs t), w))
                              !! TOKEN_FILE = Some doc)
              /\ (forall e, fst (@inr exn _ (loaded_session cs t), w) = inl e ->
                    fs (snd (@inr exn _ (loaded_session cs t), w)) = fs w)).
    { split; [apply authorizing_refl|].
      split; [|intros e H; discriminate].
      intros s H. inversion H. split; [reflexivity|].
      exists t. split; [reflexivity|exact Ht]. }
    destruct t; try apply Hload. apply Hfail.
  - assert (Hp : authorizing w (prompted svc cs scopes w)).
    { split; try reflexivity.
      - unfold read_at_most_one_line, prompted. cbn [stdin].
        destruct (stdin w) as [|line rest]; [left; reflexivity|].
        right. exists line. reflexivity.
      - intros [x Hx]. rewrite Ht in Hx. discriminate.
      - eexists. reflexivity.
      - left. reflexivity. }
    destruct (stdin w) as [|code rest] eqn:Hin.
    + split; [exact Hp|]. split; [intros s H; discriminate|reflexivity].
    + destruct (token_endpoint_code svc (token_uri cs) (client_id cs)
                  (client_secret_value cs) code) as [token|].
      * split; [|split; [|intros e H; discriminate]].
        -- eapply authorizing_quiet; [exact Hp|apply quiet_written].
        -- intros s H. inversion H. split; [reflexivity|].
           exists (TokenJson token). split; [reflexivity|].
           cbn [snd written fs]. apply lookup_insert_eq.
      * split; [exact Hp|]. split; [intros s H; discriminate|reflexivity].
Qed.

(** *** The report generator and [main] *)

Lemma bind_eq {A B : Type} (m : py A) (k : A -> py B) (w : world) :
  bind m k w
  = match m w with
    | (inl e, w') => (inl e, w')
    | (inr a, w') => k a w'
    end.
Proof. reflexivity. Qed.

Lemma generate_room_util_report_frame (svc : services) (rooms : list room)
    (sd ed : datetime) (w : world) :
  exists w3,
    authorizing w w3
    /\ quiet w3 (snd (generate_room_util_report svc rooms sd ed w))
    /\ (forall report,
          fst (generate_room_util_report svc rooms sd ed w) = inr report ->
          is_Some (fs w3 !! TOKEN_FILE)).
Proof.
  destruct (create_google_oauth_session_frame svc
              ["https://www.googleapis.com/auth/calendar.readonly"%string] w)
    as (Hauth & Hok & _).
  unfold generate_room_util_report. rewrite bind_eq.
  destruct (create_google_oauth_session svc _ w) as [[e|s0] w3];
    cbv beta iota; cbn [fst snd] in *.
  - exists w3. split; [exact Hauth|]. split; [apply quiet_refl|].
    intros report H. discriminate.
  - destruct (Hok s0 eq_refl) as (Hupd & doc & _ & Hfs).
    exists w3. split; [exact Hauth|].
    rewrite (bind_inr _ _ _ _ _ (print_printed _ w3)).
    pose proof (rooms_loop_quiet svc sd ed rooms (s0, [])
                  (printed "Generating Room Utilization Report..." w3) Hupd)
      as Hq.
    rewrite bind_eq.
    destruct (rooms_loop svc sd ed rooms (s0, []) _) as [[e|st] w4];
      cbv beta iota; cbn [fst snd] in *.
    + split; [eapply quiet_trans; [apply quiet_printed|exact Hq]|].
      intros report H. discriminate.
    + assert (Hq' : quiet w3 w4)
        by (eapply quiet_trans; [apply quiet_printed|exact Hq]).
      unfold bind, lift, ret.
      destruct (strftime_mdY sd); destruct (strftime_mdY ed); cbn [fst snd];
        (split; [exact Hq'|]); intros report H;
        try discriminate; exists doc; exact Hfs.
Qed.

Lemma parse_flag_world (convert : string -> result datetime)
    (default : datetime) (flag : option string) (w : world) :
  snd (parse_flag convert default flag w) = w.
Proof.
  unfold parse_flag. destruct flag as [str|]; [|reflexivity].
  destruct (convert str) as [e|d]; [|reflexivity].
  destruct e; reflexivity.
Qed.

(** Resolving the date range reads the clock and nothing else. *)
Lemma resolve_date_range_world (svc : services) (a : argv) (w : world) :
  snd (resolve_date_range svc a w) = w.
Proof.
  unfold resolve_date_range, bind, utcnow, lift.
  destruct (utc_localize _) as [e|utc_now]; [reflexivity|].
  destruct (minus_days utc_now 30) as [e|ago]; [reflexivity|].
  unfold parse_args, bind.
  pose proof (parse_flag_world
                (date_type (gen_parser svc utc_now ago))
                (start_date_default (gen_parser svc utc_now ago))
                (arg_start_date a) w) as H1.
  destruct (parse_flag _ _ (arg_start_date a) w) as [[e|sd] w1];
    cbn [snd] in H1; subst w1; [reflexivity|].
  pose proof (parse_flag_world
                (date_type (gen_parser svc utc_now ago))
                (end_date_default (gen_parser svc utc_now ago))
                (arg_end_date a) w) as H2.
  destruct (parse_flag _ _ (arg_end_date a) w) as [[e|ed] w2];
    cbn [snd] in H2; subst w2; reflexivity.
Qed.

Lemma read_room_list_from_json_world (w : world) :
  snd (read_room_list_from_json w) = w.
Proof.
  unfold read_room_list_from_json, bind, json_load.
  destruct (fs w !! "rooms.json"%string) as [d|]; [|reflexivity].
  destruct d; reflexivity.
Qed.

(** Every run goes through the same stages: it may authorize, then it
    works quietly, and only a run that succeeds adds a task, built from
    the Asana configuration and accepted by the service, and the two
    closing lines. *)
Lemma main_outcome (svc : services) (a : argv) (w : world) :
  exists w3 w4,
    authorizing w w3 /\ quiet w3 w4
    /\ ((exists e, main svc a w = (inl e, w4))
        \/ exists cfg p,
             is_Some (fs w3 !! TOKEN_FILE)
             /\ fs w4 !! "asana_config.json"%string = Some (AsanaConfigJson cfg)
             /\ workspace p = workspace_id cfg
             /\ projects p = [project_id cfg]
             /\ asana_api_accepts svc (personal_access_token cfg) p = true
             /\ main svc a w
                = (inr tt,
                   World (fs w4) (stdin w4)
                     (stdout w4
                      ++ ["Utilization task created in Asana workspace"%string;
                          "YOU DID IT! :)"%string])
                     (clock w4) (asana_tasks w4 ++ [p]))).
Proof.
  rewrite main_split.
  pose proof (resolve_date_range_world svc a w) as Hw.
  destruct (resolve_date_range svc a w) as [[e|r] w1]; cbn [snd] in Hw; subst w1.
  { exists w, w. split; [apply authorizing_refl|]. split; [apply quiet_refl|].
    left. exists e. reflexivity. }
  unfold run_report. rewrite bind_eq.
  pose proof (read_room_list_from_json_world w) as Hw.
  destruct (read_room_list_from_json w) as [[e|rooms] w2]; cbn [snd] in Hw;
    subst w2.
  { exists w, w. split; [apply authorizing_refl|]. split; [apply quiet_refl|].
    left. exists e. reflexivity. }
  destruct (generate_room_util_report_frame svc rooms (start_date (snd r))
              (end_date (snd r)) w) as (w3 & Hauth & Hq & Htok).
  rewrite bind_eq.
  destruct (generate_room_util_report svc rooms _ _ w) as [[e|report] w4];
    cbv beta iota; cbn [fst snd] in *.
  { exists w3, w4. split; [exact Hauth|]. split; [exact Hq|].
    left. exists e. reflexivity. }
  exists w3, w4. split; [exact Hauth|]. split; [exact Hq|].
  rewrite bind_eq. unfold read_config, json_load.
  destruct (fs w4 !! "asana_config.json"%string) as [d|] eqn:Hcfg;
    [|left; eexists; reflexivity].
  destruct d as [| | |cfg|]; try (left; eexists; reflexivity).
  rewrite bind_eq. unfold post_all_in_asana_task, bind, lift.
  destruct (strftime_mdY (fst r)) as [e|today];
    [left; eexists; reflexivity|].
  unfold tasks_create.
  destruct (asana_api_accepts svc (personal_access_token cfg)
              (TaskParams (workspace_id cfg) [project_id cfg]
                 ("Google Calendar Room Utilization Results " +:+ today)
                 report)) eqn:Hacc;
    [|left; eexists; reflexivity].
  right. exists cfg.
  exists (TaskParams (workspace_id cfg) [project_id cfg]
            ("Google Calendar Room Utilization Results " +:+ today) report).
  split; [apply (Htok report); reflexivity|].
  split; [reflexivity|]. split; [reflexivity|]. split; [reflexivity|].
  split; [exact Hacc|].
  unfold print. cbn [fs stdin stdout clock asana_tasks].
  rewrite <- app_assoc. reflexivity.
Qed.

(** ** Whole runs *)

(** X1.  A run that fails, wherever it fails, has posted nothing.  A run
    that succeeds has posted exactly one task: in the workspace and project
    of the Asana configuration as it was when the run started, accepted by
    the service; and its last two lines of output are the two
    confirmations. *)
Theorem run_posts_one_task_or_none (svc : services) (a : argv) (w : world) :
  ((exists e, fst (main svc a w) = inl e)
   /\ asana_tasks (snd (main svc a w)) = asana_tasks w)
  \/ (fst (main svc a w) = inr tt
      /\ exists cfg p out,
           fs w !! "asana_config.json"%string = Some (AsanaConfigJson cfg)
           /\ workspace p = workspace_id cfg
           /\ projects p = [project_id cfg]
           /\ asana_api_accepts svc (personal_access_token cfg) p = true
           /\ asana_tasks (snd (main svc a w)) = asana_tasks w ++ [p]
           /\ stdout (snd (main svc a w))
              = stdout w ++ out
                ++ ["Utilization task created in Asana workspace"%string;
                    "YOU DID IT! :)"%string]).
Proof.
  destruct (main_outcome svc a w)
    as (w3 & w4 & Ha & Hq
        & [[e He]|(cfg & p & _ & Hcfg & Hws & Hpr & Hacc & Hm)]).
  - left. rewrite He. cbn [fst snd]. split; [exists e; reflexivity|].
    destruct Ha as [_ _ _ Ta _ _]. destruct Hq as [_ _ Tq _ _]. congruence.
  - right. rewrite Hm. cbn [fst snd asana_tasks stdout].
    split; [reflexivity|].
    destruct Ha as [_ _ _ Ta [o1 Oa] Fa]. destruct Hq as [_ _ Tq [o2 Oq] Fq].
    exists cfg, p, (o1 ++ o2).
    split.
    { rewrite <- Hcfg. symmetry.
      rewrite (may_write_token_lookup w3 w4) by (exact Fq || discriminate).
      apply (may_write_token_lookup w w3); [exact Fa|discriminate]. }
    split; [exact Hws|]. split; [exact Hpr|]. split; [exact Hacc|].
    split; [congruence|].
    rewrite Oq, Oa, <- !app_assoc. reflexivity.
Qed.

(** X2.  The only file a run ever writes is the token file, and what it
    writes there is a token: whatever the services answer and however the
    run ends, the file system afterwards is the one before, or the one
    before with a token stored in the token file. *)
Theorem run_writes_only_the_token_file (svc : services) (a : argv)
    (w : world) :
  fs (snd (main svc a w)) = fs w
  \/ exists t, fs (snd (main svc a w)) = <[TOKEN_FILE := TokenJson t]> (fs w).
Proof.
  destruct (main_outcome svc a w)
    as (w3 & w4 & Ha & Hq & [[e He]|(cfg & p & _ & _ & _ & _ & _ & Hm)]).
  - rewrite He. cbn [snd].
    destruct Ha as [_ _ _ _ _ Fa]. destruct Hq as [_ _ _ _ Fq].
    exact (may_write_token_trans _ _ _ Fa Fq).
  - rewrite Hm. cbn [snd fs].
    destruct Ha as [_ _ _ _ _ Fa]. destruct Hq as [_ _ _ _ Fq].
    exact (may_write_token_trans _ _ _ Fa Fq).
Qed.

(** X3.  A run consumes at most one line of standard input, the
    authorization code, and none at all when the token file exists. *)
Theorem run_reads_at_most_one_line (svc : services) (a : argv) (w : world) :
  (stdin (snd (main svc a w)) = stdin w
   \/ exists line, stdin w = line :: stdin (snd (main svc a w)))
  /\ (is_Some (fs w !! TOKEN_FILE) -> stdin (snd (main svc a w)) = stdin w).
Proof.
  destruct (main_outcome svc a w)
    as (w3 & w4 & Ha & Hq & Hm).
  assert (Hin : stdin (snd (main svc a w)) = stdin w4).
  { destruct Hm as [[e He]|(cfg & p & _ & _ & _ & _ & _ & Hm)];
      [rewrite He|rewrite Hm]; reflexivity. }
  rewrite Hin.
  destruct (authorizing_quiet _ _ _ Ha Hq) as [_ I K _ _ _].
  split; [exact I|exact K].
Qed.

Lemma main_no_prompt_when_cached (svc : services) (a : argv) (w : world) :
  is_Some (fs w !! TOKEN_FILE) -> stdin (snd (main svc a w)) = stdin w.
Proof.
  intros Hc. destruct (main_outcome svc a w) as (w3 & w4 & Ha & Hq & Hm).
  assert (Hin : stdin (snd (main svc a w)) = stdin w4).
  { destruct Hm as [[e He]|(cfg & p & _ & _ & _ & _ & _ & Hm)];
      [rewrite He|rewrite Hm]; reflexivity. }
  rewrite Hin.
  destruct (authorizing_quiet _ _ _ Ha Hq) as [_ _ K _ _ _].
  exact (K Hc).
Qed.

(** X4.  A run that succeeds leaves the token file in place, so no later
    run, whatever its arguments, asks the operator for a code.  When the
    run started without a token file, the file now holds a token. *)
Theorem successful_run_leaves_the_token_file (svc : services) (a : argv)
    (w : world) :
  fst (main svc a w) = inr tt ->
  is_Some (fs (snd (main svc a w)) !! TOKEN_FILE)
  /\ (forall svc' a',
        stdin (snd (main svc' a' (snd (main svc a w))))
        = stdin (snd (main svc a w)))
  /\ (fs w !! TOKEN_FILE = None ->
      exists t, fs (snd (main svc a w)) !! TOKEN_FILE = Some (TokenJson t)).
Proof.
  intros Hok.
  destruct (main_outcome svc a w)
    as (w3 & w4 & Ha & Hq & [[e He]|(cfg & p & Ht & _ & _ & _ & _ & Hm)]).
  { rewrite He in Hok. discriminate. }
  destruct Hq as [_ _ _ _ Fq]. destruct Ha as [_ _ _ _ _ Fa].
  assert (Htok : is_Some (fs (snd (main svc a w)) !! TOKEN_FILE)).
  { rewrite Hm. cbn [snd fs].
    exact (may_write_token_keeps_file _ _ Fq Ht). }
  split; [exact Htok|]. split.
  - intros svc' a'. apply main_no_prompt_when_cached. exact Htok.
  - intros Hnone. rewrite Hm. cbn [snd fs].
    destruct Fa as [Ea|[t Ea]].
    + rewrite Ea, Hnone in Ht. destruct Ht as [x Hx]. discriminate.
    + destruct Fq as [Eq|[t' Eq]]; rewrite Eq.
      * exists t. rewrite Ea. apply lookup_insert_eq.
      * exists t'. apply lookup_insert_eq.
Qed.

Lemma successful_run_leaves_the_token_file_witness :
  is_Some (fs (snd (main example_services (Argv None None)
                      (example_first_run example_rooms))) !! TOKEN_FILE)
  /\ (forall svc' a',
        stdin (snd (main svc' a'
                      (snd (main example_services (Argv None None)
                              (example_first_run example_rooms)))))
        = stdin (snd (main example_services (Argv None None)
                        (example_first_run example_rooms))))
  /\ (fs (example_first_run example_rooms) !! TOKEN_FILE = None ->
      exists t,
        fs (snd (main example_services (Argv None None)
                   (example_first_run example_rooms))) !! TOKEN_FILE
        = Some (TokenJson t)).
Proof.
  apply (successful_run_leaves_the_token_file example_services
           (Argv None None) (example_first_run example_rooms)).
  vm_compute. reflexivity.
Defined.

(** X5.  The Asana configuration is read only after the report has been
    generated.  When the file does not hold a configuration, a run whose
    report was generated still fails, in the world the generator left
    (every request made, the token saved), with nothing posted; when the
    file is missing the error is [IOError] for that file. *)
Theorem missing_asana_config_fails_after_the_report (svc : services)
    (a : argv) (wa w1 w2 w3 : world) (utc_now : datetime) (ar : args)
    (rooms : list room) (report : string) :
  resolve_date_range svc a wa = (inr (utc_now, ar), w1) ->
  read_room_list_from_json w1 = (inr rooms, w2) ->
  generate_room_util_report svc rooms (start_date ar) (end_date ar) w2
  = (inr report, w3) ->
  (forall cfg,
     fs wa !! "asana_config.json"%string <> Some (AsanaConfigJson cfg)) ->
  (exists e, main svc a wa = (inl e, w3))
  /\ asana_tasks w3 = asana_tasks wa
  /\ (fs wa !! "asana_config.json"%string = None ->
      main svc a wa = (inl (IOError "asana_config.json"), w3)).
Proof.
  intros Hres Hrooms Hgen Hcfg.
  pose proof (resolve_date_range_world svc a wa) as E1.
  rewrite Hres in E1. cbn [snd] in E1. subst w1.
  pose proof (read_room_list_from_json_world wa) as E2.
  rewrite Hrooms in E2. cbn [snd] in E2. subst w2.
  destruct (generate_room_util_report_frame svc rooms (start_date ar)
              (end_date ar) wa) as (w3' & Ha & Hq & _).
  rewrite Hgen in Hq. cbn [snd] in Hq.
  destruct (authorizing_quiet _ _ _ Ha Hq) as [_ _ _ T _ F].
  assert (Hlook : fs w3 !! "asana_config.json"%string
                  = fs wa !! "asana_config.json"%string)
    by (apply may_write_token_lookup; [exact F|discriminate]).
  assert (Hmain : main svc a wa
            = match fs wa !! "asana_config.json"%string with
              | None => (inl (IOError "asana_config.json"), w3)
              | Some NotJson =>
                  (inl (ValueError "No JSON object could be decoded"), w3)
              | Some (AsanaConfigJson cfg) =>
                  bind (post_all_in_asana_task svc (AsanaConfigJson cfg)
                          report utc_now)
                       (fun _ => print "YOU DID IT! :)") w3
              | Some _ => (inl (KeyError "personal_access_token"), w3)
              end).
  { rewrite main_split, Hres. cbn [fst snd]. unfold run_report.
    rewrite (bind_inr _ _ _ _ _ Hrooms).
    rewrite (bind_inr _ _ _ _ _ Hgen).
    rewrite bind_eq. unfold read_config, json_load. rewrite Hlook.
    destruct (fs wa !! "asana_config.json"%string) as [d|]; [|reflexivity].
    destruct d; reflexivity. }
  split; [|split; [exact T|]].
  - rewrite Hmain.
    destruct (fs wa !! "asana_config.json"%string) as [d|];
      [|eexists; reflexivity].
    destruct d as [| | |cfg|]; try (eexists; reflexivity).
    exfalso. apply (Hcfg cfg). reflexivity.
  - intros Hnone. rewrite Hmain, Hnone. reflexivity.
Qed.

Lemma missing_asana_config_fails_after_the_report_witness :
  (exists e,
     main example_services (Argv None None) (example_no_asana example_rooms)
     = (inl e,
        snd (generate_room_util_report example_services example_rooms
               (Datetime (ymd2ord 2021 1 1) 0 (Some UTC))
               (Datetime (ymd2ord 2021 1 31) 0 (Some UTC))
               (example_no_asana example_rooms))))
  /\ asana_tasks
       (snd (generate_room_util_report example_services example_rooms
               (Datetime (ymd2ord 2021 1 1) 0 (Some UTC))
               (Datetime (ymd2ord 2021 1 31) 0 (Some UTC))
               (example_no_asana example_rooms)))
     = asana_tasks (example_no_asana example_rooms)
  /\ (fs (example_no_asana example_rooms) !! "asana_config.json"%string = None ->
      main example_services (Argv None None) (example_no_asana example_rooms)
      = (inl (IOError "asana_config.json"),
         snd (generate_room_util_report example_services example_rooms
                (Datetime (ymd2ord 2021 1 1) 0 (Some UTC))
                (Datetime (ymd2ord 2021 1 31) 0 (Some UTC))
                (example_no_asana example_rooms)))).
Proof.
  apply (missing_asana_config_fails_after_the_report example_services
           (Argv None None) (example_no_asana example_rooms)
           (example_no_asana example_rooms) (example_no_asana example_rooms)
           _ (Datetime (ymd2ord 2021 1 31) 0 (Some UTC))
           (Args (Datetime (ymd2ord 2021 1 1) 0 (Some UTC))
                 (Datetime (ymd2ord 2021 1 31) 0 (Some UTC)))
           example_rooms
           (report_text "01/01/2021" "01/31/2021"
              "Fishbowl Utilization %: 25.00")).
  - vm_compute. reflexivity.
  - reflexivity.
  - vm_compute. reflexivity.
  - intros cfg H. vm_compute in H. discriminate.
Defined.

(** *** Installations that cannot work *)

Lemma create_google_oauth_session_misconfigured (svc : services)
    (scopes : list string) (w : world) :
  (forall cs, fs w !! CLIENT_SECRET_FILE <> Some (ClientSecretJson cs))
  \/ fs w !! TOKEN_FILE = Some NotJson ->
  exists e, create_google_oauth_session svc scopes w = (inl e, w).
Proof.
  intros H. rewrite create_google_oauth_session_cases.
  destruct (fs w !! CLIENT_SECRET_FILE) as [d|]; [|eexists; reflexivity].
  destruct d as [cs| | | |]; try (eexists; reflexivity).
  destruct H as [H|H]; [exfalso; apply (H cs); reflexivity|].
  rewrite H. eexists. reflexivity.
Qed.

(** X6.  When the room list or the client secret is not the expected
    document, or the token file is there but is not JSON, the run fails
    before it has any effect: nothing is printed, the operator is not
    prompted, no file is written and nothing is posted.  In particular a
    corrupt token file is never repaired by falling back to the
    authorization prompt. *)
Theorem misconfigured_run_has_no_effect (svc : services) (a : argv)
    (w : world) :
  misconfigured w -> exists e, main svc a w = (inl e, w).
Proof.
  intros Hbad. rewrite main_split.
  pose proof (resolve_date_range_world svc a w) as Hw.
  destruct (resolve_date_range svc a w) as [[e|r] w1]; cbn [snd] in Hw; subst w1;
    [exists e; reflexivity|].
  unfold run_report. rewrite bind_eq.
  unfold read_room_list_from_json at 1. rewrite bind_eq. unfold json_load.
  destruct (fs w !! "rooms.json"%string) as [d|] eqn:Hr;
    [|eexists; reflexivity].
  destruct d as [| |rooms| |]; try (eexists; reflexivity).
  destruct Hbad as [Hbad|Hbad]; [exfalso; apply (Hbad rooms); exact Hr|].
  cbv beta iota. unfold ret at 1. cbv beta iota.
  rewrite bind_eq. unfold generate_room_util_report. rewrite bind_eq.
  destruct (create_google_oauth_session_misconfigured svc
              ["https://www.googleapis.com/auth/calendar.readonly"%string] w
              Hbad) as [e He].
  rewrite He. exists e. reflexivity.
Qed.

Lemma misconfigured_run_has_no_effect_witness :
  exists e,
    main example_services (Argv None None)
      (World (<[TOKEN_FILE := NotJson]> (example_files example_rooms))
             ["4/good"%string] [] 1612051200000000 [])
    = (inl e,
       World (<[TOKEN_FILE := NotJson]> (example_files example_rooms))
             ["4/good"%string] [] 1612051200000000 []).
Proof.
  apply (misconfigured_run_has_no_effect example_services (Argv None None)
           (World (<[TOKEN_FILE := NotJson]> (example_files example_rooms))
                  ["4/good"%string] [] 1612051200000000 [])).
  right. right. vm_compute. reflexivity.
Defined.

(** *** Date flags that do not parse *)

(** X7.  A date flag that the date parser rejects ends the run with the
    usage error (exit status 2) before anything is read, printed or
    requested; for [--end-date] this holds once [--start-date], if given,
    was accepted. *)
Theorem unparsable_date_flag_is_a_usage_error (svc : services) (a : argv)
    (w : world) (str msg : string) :
  0 <= clock w ->
  arg_start_date a = Some str
  \/ (parses_naive svc (arg_start_date a) /\ arg_end_date a = Some str) ->
  date_parser_parse svc str = inl (ValueError msg) ->
  main svc a w = (inl (SystemExit 2), w).
Proof.
  intros Hclock Hflag Hparse.
  assert (Hres : resolve_date_range svc a w = (inl (SystemExit 2), w)).
  { unfold resolve_date_range, bind, utcnow, lift.
    cbn [utc_localize tzinfo ordinal microsecond_of_day].
    fold (today_utc w). unfold minus_days.
    assert (Hord : (ordinal (today_utc w) - 30 <? 1) = false).
    { apply Z.ltb_ge. cbn [today_utc ordinal].
      pose proof (Z.div_pos (clock w) 86400000000 Hclock ltac:(lia)). lia. }
    rewrite Hord. cbn [tzinfo today_utc]. fold (today_utc w).
    unfold parse_args, bind, gen_parser.
    cbn [date_type start_date_default end_date_default].
    destruct Hflag as [Hs|[Hn He]].
    - rewrite Hs. unfold parse_flag, parse_tz_aware_dt.
      rewrite Hparse. reflexivity.
    - rewrite (parse_flag_naive svc _ _ w Hn). rewrite He.
      unfold parse_flag, parse_tz_aware_dt. rewrite Hparse. reflexivity. }
  rewrite main_split, Hres. reflexivity.
Qed.

Lemma unparsable_date_flag_is_a_usage_error_witness :
  main example_services (Argv None (Some "next tuesday"%string))
    (example_later_run example_rooms)
  = (inl (SystemExit 2), example_later_run example_rooms).
Proof.
  apply (unparsable_date_flag_is_a_usage_error example_services
           (Argv None (Some "next tuesday"%string))
           (example_later_run example_rooms) "next tuesday"
           "Unknown string format").
  - simpl. lia.
  - right. split; [|reflexivity]. intros s H. discriminate.
  - reflexivity.
Defined.

(** ** More on the room loop *)

(** One iteration that succeeds either appends the line of its room, having
    printed the progress line, or appends nothing and prints the progress
    line and the notice. *)
Lemma room_step_outcome (svc : services) (sd ed : datetime)
    (st st' : session * list string) (rm : room) (w w' : world) :
  updater_ok (fst st) ->
  room_step svc sd ed st rm w = (inr st', w') ->
  updater_ok (fst st')
  /\ exists o : option spec_float,
       snd st' = snd st ++ outcome_lines [(rm, o)]
       /\ stdout w' = stdout w ++ outcome_log [(rm, o)].
Proof.
  intros Hs. rewrite room_step_after_get.
  pose proof (session_get_stdout svc (fst st) (events_url svc (url rm))
                (events_params svc sd ed) (printed (grabbing_line rm) w) Hs)
    as Hout.
  destruct (session_get_world svc (fst st) (events_url svc (url rm))
              (events_params svc sd ed) (printed (grabbing_line rm) w) Hs)
    as [_ Hu].
  destruct (session_get svc (fst st) _ _ _) as [[e|r] w1]; cbn [fst snd] in *;
    [discriminate|].
  specialize (Hu r eq_refl).
  destruct ((400 <=? status_code (fst r)) && (status_code (fst r) <? 600));
    [discriminate|].
  destruct (json_body (fst r)) as [body|]; [|discriminate].
  destruct (default [] (items body)) as [|ev evs].
  - intros H. inversion H; subst. cbn [fst snd]. split; [exact Hu|].
    exists None. cbn [outcome_lines outcome_log flat_map fst snd].
    rewrite !app_nil_r. split; [reflexivity|].
    cbn [printed stdout]. rewrite Hout. cbn [printed stdout].
    rewrite <- app_assoc. reflexivity.
  - destruct (count_attendees (ev :: evs) 0) as [e|n]; [discriminate|].
    destruct (utilization n (Z.of_nat (length (ev :: evs))) (room_seats rm))
      as [e|util]; [discriminate|].
    intros H. inversion H; subst. cbn [fst snd]. split; [exact Hu|].
    exists (Some util). cbn [outcome_lines outcome_log flat_map fst snd].
    rewrite !app_nil_r. split; [reflexivity|].
    rewrite Hout. reflexivity.
Qed.

(** X8.  When the loop completes, every room of the list, in list order,
    got exactly one of two treatments: a line appended to the report, with
    only the progress line printed; or no line, with the progress line and
    the "No events found" notice printed.  The report lines and the output
    are exactly those, in the order of the room list. *)
Theorem every_room_is_reported_or_logged (svc : services) (sd ed : datetime)
    (rooms : list room) (s s' : session) (strs strs' : list string)
    (w w' : world) :
  updater_ok s ->
  rooms_loop svc sd ed rooms (s, strs) w = (inr (s', strs'), w') ->
  exists outcomes : list (room * option spec_float),
    map fst outcomes = rooms
    /\ strs' = strs ++ outcome_lines outcomes
    /\ stdout w' = stdout w ++ outcome_log outcomes.
Proof.
  revert s strs w. induction rooms as [|rm rooms IH]; intros s strs w Hs H.
  - inversion H; subst. exists []. cbn [map outcome_lines outcome_log flat_map].
    rewrite !app_nil_r. repeat split; reflexivity.
  - cbn [rooms_loop] in H. rewrite bind_eq in H.
    destruct (room_step svc sd ed (s, strs) rm w) as [[e|[s1 strs1]] w1] eqn:Es;
      [discriminate|].
    destruct (room_step_outcome svc sd ed (s, strs) (s1, strs1) rm w w1 Hs Es)
      as (Hs1 & o & Hl & Ho).
    cbn [fst snd] in *.
    destruct (IH s1 strs1 w1 Hs1 H) as (outcomes & Hm & Hl' & Ho').
    exists ((rm, o) :: outcomes).
    split; [cbn [map fst]; rewrite Hm; reflexivity|].
    split.
    + rewrite Hl', Hl. unfold outcome_lines. cbn [flat_map].
      rewrite app_nil_r, <- app_assoc. reflexivity.
    + rewrite Ho', Ho. unfold outcome_log. cbn [flat_map].
      rewrite app_nil_r, <- app_assoc. reflexivity.
Qed.

Lemma every_room_is_reported_or_logged_witness :
  exists outcomes : list (room * option spec_float),
    map fst outcomes = example_rooms
    /\ ["Fishbowl Utilization %: 25.00"%string] = [] ++ outcome_lines outcomes
    /\ stdout
         (printed "No events found for room: Attic"
            (printed (grabbing_line example_attic)
               (printed (grabbing_line example_fishbowl)
                  (example_later_run example_rooms))))
       = stdout (example_later_run example_rooms) ++ outcome_log outcomes.
Proof.
  apply (every_room_is_reported_or_logged example_services
           (Datetime (ymd2ord 2021 1 1) 0 (Some UTC))
           (Datetime (ymd2ord 2021 1 31) 0 (Some UTC))
           example_rooms example_session example_session).
  - reflexivity.
  - vm_compute. reflexivity.
Defined.

(** X9.  A calendar answer with a status from 400 to 599 ends the whole run
    with [HTTPError] for that status, and an answer with another status
    whose body is not JSON ends it with [ValueError]: the lines collected
    for the earlier rooms are discarded and the later rooms are never
    queried. *)
Theorem failed_calendar_request_aborts_run (svc : services) (a : argv)
    (utc_now sd ed : datetime) (s0 s s' : session) (strs : list string)
    (rm : room) (pre rest : list room) (wa w1 w2 w3 w w' : world)
    (resp : http_response) :
  resolve_date_range svc a wa = (inr (utc_now, Args sd ed), w1) ->
  read_room_list_from_json w1 = (inr (pre ++ rm :: rest), w2) ->
  create_google_oauth_session svc
    ["https://www.googleapis.com/auth/calendar.readonly"%string] w2
  = (inr s0, w3) ->
  rooms_loop svc sd ed pre (s0, [])
    (printed "Generating Room Utilization Report..." w3)
  = (inr (s, strs), w) ->
  session_get svc s (events_url svc (url rm)) (events_params svc sd ed)
              (printed (grabbing_line rm) w) = (inr (resp, s'), w') ->
  (400 <= status_code resp < 600 ->
   main svc a wa = (inl (HTTPError (status_code resp)), w'))
  /\ (status_ok resp -> json_body resp = None ->
      main svc a wa = (inl (ValueError "No JSON object could be decoded"), w')).
Proof.
  intros Hres Hrooms Hsess Hpre Hget.
  assert (Hloop : rooms_loop svc sd ed (pre ++ rm :: rest) (s0, [])
                    (printed "Generating Room Utilization Report..." w3)
            = match room_step svc sd ed (s, strs) rm w with
              | (inl e, w1) => (inl e, w1)
              | (inr st1, w1) => rooms_loop svc sd ed rest st1 w1
              end).
  { rewrite rooms_loop_app, Hpre. reflexivity. }
  rewrite room_step_after_get in Hloop. cbn [fst snd] in Hloop.
  rewrite Hget in Hloop. cbn [fst snd] in Hloop.
  split.
  - intros [Hlo Hhi].
    apply (main_loop_error svc a utc_now sd ed _ s0 _ wa w1 w2 w3 w'
             Hres Hrooms Hsess).
    rewrite Hloop.
    replace (400 <=? status_code resp) with true by (symmetry; apply Z.leb_le; lia).
    replace (status_code resp <? 600) with true by (symmetry; apply Z.ltb_lt; lia).
    reflexivity.
  - intros Hok Hbody.
    apply (main_loop_error svc a utc_now sd ed _ s0 _ wa w1 w2 w3 w'
             Hres Hrooms Hsess).
    rewrite Hloop. red in Hok. rewrite Hok, Hbody. reflexivity.
Qed.

Lemma failed_calendar_request_aborts_run_witness :
  main example_outage (Argv None None)
    (example_later_run [example_fishbowl; example_attic])
  = (inl (HTTPError 503),
     printed (grabbing_line example_fishbowl)
       (printed "Generating Room Utilization Report..."
          (example_later_run [example_fishbowl; example_attic]))).
Proof.
  apply (failed_calendar_request_aborts_run example_outage (Argv None None)
           (Datetime (ymd2ord 2021 1 31) 0 (Some UTC))
           (Datetime (ymd2ord 2021 1 1) 0 (Some UTC))
           (Datetime (ymd2ord 2021 1 31) 0 (Some UTC))
           example_session example_session example_session []
           example_fishbowl [] [example_attic]
           (example_later_run [example_fishbowl; example_attic])
           (example_later_run [example_fishbowl; example_attic])
           (example_later_run [example_fishbowl; example_attic])
           (example_later_run [example_fishbowl; example_attic])
           (printed "Generating Room Utilization Report..."
              (example_later_run [example_fishbowl; example_attic]))
           (printed (grabbing_line example_fishbowl)
              (printed "Generating Room Utilization Report..."
                 (example_later_run [example_fishbowl; example_attic])))
           (HttpResponse 503 None)).
  - vm_compute. reflexivity.
  - reflexivity.
  - vm_compute. reflexivity.
  - reflexivity.
  - reflexivity.
  - simpl. lia.
Defined.

(** X10.  A cached token that has expired is refreshed before the first
    request, and the fresh token is written to the token file.  When the
    fresh token has an access token and carries an expiry time that has
    not passed, the loop then runs exactly as if the fresh token had been
    the cached one: same requests, same report lines, same output, same
    final world.  When it carries no expiry time, or one that has passed,
    the loop stops at the first room with [TokenExpiredError], the fresh
    token already saved. *)
Theorem expired_token_is_refreshed_once (svc : services) (sd ed : datetime)
    (cs : client_secret) (token fresh : oauth_token) (rm : room)
    (rest : list room) (strs : list string) (w : world) :
  access_token token <> ""%string ->
  expired_at token w = true ->
  token_endpoint_refresh svc (token_uri cs) (client_id cs)
    (client_secret_value cs) (refresh_token token) = Some fresh ->
  access_token fresh <> ""%string ->
  (expires_later fresh w = true ->
   rooms_loop svc sd ed (rm :: rest) (cached_session cs token, strs) w
   = rooms_loop svc sd ed (rm :: rest) (cached_session cs fresh, strs)
       (written TOKEN_FILE (TokenJson fresh) w))
  /\ (expires_later fresh w = false ->
      rooms_loop svc sd ed (rm :: rest) (cached_session cs token, strs) w
      = (inl TokenExpiredError,
         written TOKEN_FILE (TokenJson fresh)
           (printed (grabbing_line rm) w))).
Proof.
  intros Hacc Hexp Href Hacc'.
  assert (Hl : session_get svc (cached_session cs token)
                 (events_url svc (url rm)) (events_params svc sd ed)
                 (printed (grabbing_line rm) w)
               = (if expires_later fresh w
                  then inr (calendar_api svc (Some (access_token fresh))
                              (events_url svc (url rm))
                              (events_params svc sd ed),
                            cached_session cs fresh)
                  else inl TokenExpiredError,
                  written TOKEN_FILE (TokenJson fresh)
                    (printed (grabbing_line rm) w))).
  { pose proof (session_get_refreshed svc (cached_session cs token) token
                  fresh (token_uri cs) (events_url svc (url rm))
                  (events_params svc sd ed) (printed (grabbing_line rm) w)
                  eq_refl eq_refl eq_refl Hacc Hexp Href) as H.
    destruct (String.eqb_spec (access_token fresh) "") as [E|_];
      [contradiction|].
    exact H. }
  split; intros Hfresh; rewrite Hfresh in Hl.
  - cbn [rooms_loop]. rewrite !bind_eq.
    assert (Hstep : room_step svc sd ed (cached_session cs token, strs) rm w
                    = room_step svc sd ed (cached_session cs fresh, strs) rm
                        (written TOKEN_FILE (TokenJson fresh) w)).
    { rewrite !room_step_after_get. cbn [fst snd].
      assert (Hr : session_get svc (cached_session cs fresh)
                     (events_url svc (url rm)) (events_params svc sd ed)
                     (printed (grabbing_line rm)
                        (written TOKEN_FILE (TokenJson fresh) w))
                   = (inr (calendar_api svc (Some (access_token fresh))
                             (events_url svc (url rm))
                             (events_params svc sd ed),
                           cached_session cs fresh),
                      printed (grabbing_line rm)
                        (written TOKEN_FILE (TokenJson fresh) w))).
      { apply session_get_fresh; [reflexivity|exact Hacc'|].
        unfold expires_later in Hfresh. unfold expired_at.
        cbn [printed written clock].
        destruct (negb (expires_at fresh =? 0)); [|reflexivity].
        destruct (expires_at fresh * 1000000 <? clock w);
          [discriminate|reflexivity]. }
      rewrite Hl, Hr. reflexivity. }
    rewrite Hstep. reflexivity.
  - cbn [rooms_loop]. apply bind_inl.
    rewrite room_step_after_get. cbn [fst snd]. rewrite Hl. reflexivity.
Qed.

Lemma expired_token_is_refreshed_once_witness :
  rooms_loop example_services (Datetime (ymd2ord 2021 1 1) 0 (Some UTC))
    (Datetime (ymd2ord 2021 1 31) 0 (Some UTC)) (example_fishbowl :: [example_attic])
    (cached_session example_secret example_stale_token, [])
    (example_later_run example_rooms)
  = rooms_loop example_services (Datetime (ymd2ord 2021 1 1) 0 (Some UTC))
      (Datetime (ymd2ord 2021 1 31) 0 (Some UTC)) (example_fishbowl :: [example_attic])
      (cached_session example_secret
         (OAuthToken "ya29.second" "1//refresh" 1612054800), [])
      (written TOKEN_FILE
         (TokenJson (OAuthToken "ya29.second" "1//refresh" 1612054800))
         (example_later_run example_rooms)).
Proof.
  apply (expired_token_is_refreshed_once example_services _ _ example_secret
           example_stale_token
           (OAuthToken "ya29.second" "1//refresh" 1612054800)).
  - discriminate.
  - reflexivity.
  - reflexivity.
  - discriminate.
  - reflexivity.
Defined.

(** ** More on counting *)

(** X11.  The attendee count of a room does not depend on the order in which
    the calendar returns the events (the script asks for them by start
    time): any reordering gives the same number, or the same [KeyError]. *)
Theorem attendee_count_ignores_event_order (events events' : list event)
    (acc : Z) :
  Permutation events events' ->
  count_attendees events acc = count_attendees events' acc.
Proof.
  intros H. revert acc.
  induction H as [|ev l l' _ IH|x y l|l l' l'' _ IH1 _ IH2]; intros acc.
  - reflexivity.
  - cbn [count_attendees]. destruct (event_contribution ev); cbn [rbind];
      [reflexivity|apply IH].
  - cbn [count_attendees].
    destruct (event_contribution x) as [ex|nx] eqn:Ex;
      destruct (event_contribution y) as [ey|ny] eqn:Ey; cbn [rbind];
      try reflexivity.
    + f_equal.
      transitivity (KeyError "responseStatus").
      * unfold event_contribution in Ey.
        destruct (attendees y); [|discriminate].
        apply (count_not_declined_error _ _ Ey).
      * symmetry. unfold event_contribution in Ex.
        destruct (attendees x); [|discriminate].
        apply (count_not_declined_error _ _ Ex).
    + f_equal. lia.
  - rewrite IH1. apply IH2.
Qed.

Lemma attendee_count_ignores_event_order_witness :
  count_attendees
    [Event None;
     Event (Some [status_attendee "declined"; status_attendee "accepted"])] 0
  = count_attendees
      [Event (Some [status_attendee "declined"; status_attendee "accepted"]);
       Event None] 0.
Proof.
  apply (attendee_count_ignores_event_order
           [Event None;
            Event (Some [status_attendee "declined";
                         status_attendee "accepted"])]
           [Event (Some [status_attendee "declined";
                         status_attendee "accepted"]);
            Event None] 0).
  apply perm_swap.
Defined.

(** ** More on the rendered percentage *)

(** After the two roundings of the double computation, rounding to an
    integer number of hundredths lands on an integer nearest to the exact
    quotient. *)
Lemma two_roundings_stay_nearest (A D : Z) (qv W : Q) :
  0 < A <= 10 ^ 11 -> 0 < D ->
  Qclose (qv * inject_Z D) (inject_Z A) ->
  Qclose W (qv * 100) ->
  2 * Z.abs (round_half_even (W * 100) * D - 10000 * A) <= D.
Proof.
  intros HA HD [Hq1 Hq2] [Hw1 Hw2].
  destruct (round_half_even_bounds (W * 100)) as [Hlo Hhi].
  set (n := round_half_even (W * 100)) in *.
  change (inject_Z (2 ^ 53 - 1)) with (9007199254740991 # 1)%Q in *.
  change (inject_Z (2 ^ 53 + 1)) with (9007199254740993 # 1)%Q in *.
  change (inject_Z (2 ^ 53)) with (9007199254740992 # 1)%Q in *.
  assert (Hd : (0 < inject_Z D)%Q) by (rewrite <- (Zlt_Qlt 0); exact HD).
  set (d := inject_Z D) in *. set (a := inject_Z A) in *.
  assert (Ha : (0 < a /\ a <= 100000000000 # 1)%Q).
  { unfold a. split.
    - rewrite <- (Zlt_Qlt 0). lia.
    - change (100000000000 # 1)%Q with (inject_Z (10 ^ 11)).
      rewrite <- Zle_Qle. lia. }
  apply (Qmult_le_compat_r _ _ d) in Hw1, Hw2, Hlo, Hhi;
    try (apply Qlt_le_weak; exact Hd).
  set (X := (qv * d)%Q) in *.
  assert (EW1 : ((9007199254740992 # 1) * (qv * 100) * d
                 == (9007199254740992 # 1) * 100 * X)%Q) by (unfold X; ring).
  rewrite EW1 in Hw1, Hw2.
  assert (EY1 : ((9007199254740991 # 1) * W * d
                 == (9007199254740991 # 1) * (W * d))%Q) by ring.
  assert (EY2 : ((9007199254740993 # 1) * W * d
                 == (9007199254740993 # 1) * (W * d))%Q) by ring.
  rewrite EY1 in Hw1. rewrite EY2 in Hw2.
  set (Y := (W * d)%Q) in *.
  set (P := (inject_Z n * d)%Q) in *.
  setoid_replace ((inject_Z n - (1 # 2)) * d)%Q with (P - (1 # 2) * d)%Q
    using relation Qeq in Hlo by (unfold P; ring).
  setoid_replace ((inject_Z n + (1 # 2)) * d)%Q with (P + (1 # 2) * d)%Q
    using relation Qeq in Hhi by (unfold P; ring).
  setoid_replace (W * 100 * d)%Q with (100 * Y)%Q
    using relation Qeq in Hlo by (unfold Y; ring).
  setoid_replace (W * 100 * d)%Q with (100 * Y)%Q
    using relation Qeq in Hhi by (unfold Y; ring).
  assert (H1 : (2 * P < 20000 * a + d + 1)%Q) by lra.
  assert (H2 : (20000 * a < 2 * P + d + 1)%Q) by lra.
  assert (H1' : 2 * (n * D) < 20000 * A + D + 1).
  { rewrite Zlt_Qlt, !inject_Z_plus, !inject_Z_mult.
    change (inject_Z 2) with 2%Q. change (inject_Z 20000) with 20000%Q.
    change (inject_Z 1) with 1%Q. exact H1. }
  assert (H2' : 20000 * A < 2 * (n * D) + D + 1).
  { rewrite Zlt_Qlt, !inject_Z_plus, !inject_Z_mult.
    change (inject_Z 2) with 2%Q. change (inject_Z 20000) with 20000%Q.
    change (inject_Z 1) with 1%Q. exact H2. }
  lia.
Qed.

(** X12.  For a seat total [M * S] that is not zero and below 2^53 in
    magnitude and up to 10^11 attendees, the utilization is computed
    without error and the value printed is always a hundredth nearest to
    the exact quotient [100 * A / (M * S)]: it is never off by more than
    0.005, also when the quotient lies halfway between two hundredths
    (where either neighbour may be printed).  A negative seat count is not
    refused: the value is printed with a minus sign, also when it is
    zero. *)
Theorem rendered_utilization_is_a_nearest_hundredth (A M S : Z) :
  M * S <> 0 -> Z.abs (M * S) < 2 ^ 53 -> 0 <= A <= 10 ^ 11 ->
  exists (util : spec_float) (n : Z),
    utilization A M S = inr util
    /\ format_2f util = format_hundredths (M * S <? 0) n
    /\ 0 <= n
    /\ 2 * Z.abs (n * Z.abs (M * S) - 10000 * A) <= Z.abs (M * S).
Proof.
  intros HD0 HD HA.
  destruct (Z.eq_dec A 0) as [E|E].
  - subst A. exists (S754_zero (M * S <? 0)), 0.
    split; [|split; [reflexivity|split; lia]].
    unfold utilization.
    rewrite (float_of_int_nonzero (M * S) HD0 HD).
    destruct (M * S <? 0); reflexivity.
  - destruct (utilization_close A M S) as (m & e & qv & Hu & Hq & Hw);
      [lia|exact HD0|exact HD|].
    exists (S754_finite (M * S <? 0) m e),
           (round_half_even (magnitude m e * 100)).
    split; [exact Hu|]. split; [reflexivity|].
    split.
    + apply round_half_even_nonneg. apply Qmult_le_0_compat.
      * apply magnitude_nonneg.
      * discriminate.
    + apply (two_roundings_stay_nearest A (Z.abs (M * S)) qv);
        [lia|lia|exact Hq|exact Hw].
Qed.

Lemma rendered_utilization_is_a_nearest_hundredth_witness :
  exists (util : spec_float) (n : Z),
    utilization 23 20 8 = inr util
    /\ format_2f util = format_hundredths (20 * 8 <? 0) n
    /\ 0 <= n
    /\ 2 * Z.abs (n * Z.abs (20 * 8) - 10000 * 23) <= Z.abs (20 * 8).
Proof.
  apply (rendered_utilization_is_a_nearest_hundredth 23 20 8);
    [lia|simpl; lia|lia].
Defined.

(** ** More on the OAuth session *)

(** X13.  Whenever the constructor returns a session, the token of that
    session is the document now stored in the token file, and calling the
    constructor again, with whatever scopes, returns the session built
    from that document without touching the world: no prompt, no token
    request, no write. *)
Theorem saved_token_is_reused (svc : services) (scopes : list string)
    (w w' : world) (s : session) :
  create_google_oauth_session svc scopes w = (inr s, w') ->
  exists cs doc,
    fs w' !! CLIENT_SECRET_FILE = Some (ClientSecretJson cs)
    /\ session_token s = Some doc
    /\ fs w' !! TOKEN_FILE = Some doc
    /\ (forall scopes',
          create_google_oauth_session svc scopes' w'
          = (inr (Session (client_id cs) (Some doc) None None
                          (Some (token_uri cs))
                          (client_id cs, client_secret_value cs)
                          (Some save_token_as_json)), w')).
Proof.
  rewrite create_google_oauth_session_cases.
  destruct (fs w !! CLIENT_SECRET_FILE) as [d|] eqn:Hcs; [|discriminate].
  destruct d as [cs| | | |]; try discriminate.
  assert (Hagain : forall w1 doc,
            fs w1 !! CLIENT_SECRET_FILE = Some (ClientSecretJson cs) ->
            fs w1 !! TOKEN_FILE = Some doc -> doc <> NotJson ->
            forall scopes',
              create_google_oauth_session svc scopes' w1
              = (inr (loaded_session cs doc), w1)).
  { intros w1 doc H1 H2 Hd scopes'.
    rewrite create_google_oauth_session_cases, H1, H2.
    destruct doc; try reflexivity. exfalso. apply Hd. reflexivity. }
  destruct (fs w !! TOKEN_FILE) as [t|] eqn:Ht.
  - destruct t; try discriminate;
      (intros H; inversion H; subst; eexists cs, _;
       split; [exact Hcs|]; split; [reflexivity|]; split; [exact Ht|];
       apply Hagain; [exact Hcs|exact Ht|discriminate]).
  - destruct (stdin w) as [|code rest]; [discriminate|].
    destruct (token_endpoint_code svc (token_uri cs) (client_id cs)
                (client_secret_value cs) code) as [token|]; [|discriminate].
    intros H. inversion H; subst. exists cs, (TokenJson token).
    assert (H1 : fs (written TOKEN_FILE (TokenJson token)
                       (prompted svc cs scopes w)) !! CLIENT_SECRET_FILE
                 = Some (ClientSecretJson cs)).
    { cbn [written fs prompted]. rewrite lookup_insert_ne by discriminate.
      exact Hcs. }
    assert (H2 : fs (written TOKEN_FILE (TokenJson token)
                       (prompted svc cs scopes w)) !! TOKEN_FILE
                 = Some (TokenJson token)).
    { cbn [written fs prompted]. apply lookup_insert_eq. }
    split; [exact H1|]. split; [reflexivity|]. split; [exact H2|].
    apply Hagain; [exact H1|exact H2|discriminate].
Qed.

Lemma saved_token_is_reused_witness :
  exists cs doc,
    fs (snd (create_google_oauth_session example_services
               ["https://www.googleapis.com/auth/calendar.readonly"%string]
               (example_first_run example_rooms))) !! CLIENT_SECRET_FILE
    = Some (ClientSecretJson cs)
    /\ session_token
         (with_token
            (interactive_session example_secret
               ["https://www.googleapis.com/auth/calendar.readonly"%string])
            example_token) = Some doc
    /\ fs (snd (create_google_oauth_session example_services
                  ["https://www.googleapis.com/auth/calendar.readonly"%string]
                  (example_first_run example_rooms))) !! TOKEN_FILE
       = Some doc
    /\ (forall scopes',
          create_google_oauth_session example_services scopes'
            (snd (create_google_oauth_session example_services
                    ["https://www.googleapis.com/auth/calendar.readonly"%string]
                    (example_first_run example_rooms)))
          = (inr (Session (client_id cs) (Some doc) None None
                          (Some (token_uri cs))
                          (client_id cs, client_secret_value cs)
                          (Some save_token_as_json)),
             snd (create_google_oauth_session example_services
                    ["https://www.googleapis.com/auth/calendar.readonly"%string]
                    (example_first_run example_rooms)))).
Proof.
  apply (saved_token_is_reused example_services
           ["https://www.googleapis.com/auth/calendar.readonly"%string]
           (example_first_run example_rooms)).
  vm_compute. reflexivity.
Defined.

(** X14.  When there is no token file and the authorization fails, because
    standard input is exhausted ([EOFError]) or because the token endpoint
    rejects the code that was typed ([OAuth2Error]), the operator has been
    shown the URL and the prompt and the line, if any, is consumed, but no
    file is written: the token file is still missing afterwards. *)
Theorem failed_authorization_saves_nothing (svc : services)
    (scopes : list string) (w : world) (cs : client_secret) :
  fs w !! CLIENT_SECRET_FILE = Some (ClientSecretJson cs) ->
  fs w !! TOKEN_FILE = None ->
  match stdin w with
  | [] => True
  | code :: _ =>
      token_endpoint_code svc (token_uri cs) (client_id cs)
        (client_secret_value cs) code = None
  end ->
  create_google_oauth_session svc scopes w
  = (inl (match stdin w with [] => EOFError | _ :: _ => OAuth2Error end),
     World (fs w) (tl (stdin w))
       (stdout w
        ++ [("Please go to "
             +:+ authorization_url svc (interactive_session cs scopes)
                   (auth_uri cs)
             +:+ " and authorize access.")%string;
            "Enter the code you recieve: "%string])
       (clock w) (asana_tasks w))
  /\ fs (snd (create_google_oauth_session svc scopes w)) !! TOKEN_FILE = None.
Proof.
  intros Hcs Htok Hin.
  assert (H : create_google_oauth_session svc scopes w
              = (inl (match stdin w with
                      | [] => EOFError
                      | _ :: _ => OAuth2Error
                      end), prompted svc cs scopes w)).
  { rewrite create_google_oauth_session_cases, Hcs, Htok.
    destruct (stdin w) as [|code rest]; [reflexivity|].
    rewrite Hin. reflexivity. }
  split; [exact H|]. rewrite H. exact Htok.
Qed.

Lemma failed_authorization_saves_nothing_witness :
  create_google_oauth_session example_services
    ["https://www.googleapis.com/auth/calendar.readonly"%string]
    (World (example_files example_rooms) ["4/mistyped"%string] []
           1612051200000000 [])
  = (inl OAuth2Error,
     World (example_files example_rooms) []
       ([] ++ [("Please go to "
                +:+ authorization_url example_services
                      (interactive_session example_secret
                         ["https://www.googleapis.com/auth/calendar.readonly"%string])
                      (auth_uri example_secret)
                +:+ " and authorize access.")%string;
               "Enter the code you recieve: "%string])
       1612051200000000 [])
  /\ fs (snd (create_google_oauth_session example_services
                ["https://www.googleapis.com/auth/calendar.readonly"%string]
                (World (example_files example_rooms) ["4/mistyped"%string] []
                       1612051200000000 []))) !! TOKEN_FILE = None.
Proof.
  apply (failed_authorization_saves_nothing example_services
           ["https://www.googleapis.com/auth/calendar.readonly"%string]
           (World (example_files example_rooms) ["4/mistyped"%string] []
                  1612051200000000 [])
           example_secret).
  - reflexivity.
  - reflexivity.
  - reflexivity.
Defined.
